(** * Crossmint checkout service and webhook server: a shallow embedding

    The development follows two source files of the Telegram e-commerce bot:

    - [src/commerce/crossmint/checkout.ts], the class
      [CrossmintHeadlessCheckoutService] (product locators, order creation with
      its retry loop over locator formats, transaction signing, pending
      approvals);
    - the HTTP server of the bot, class [BotHttpServer], whose [setupRoutes]
      registers the webhook handlers.

    JavaScript values that cross the network ([response.data], [req.body]) are
    untyped in the source, so they are embedded as a datatype of JSON values and
    every property read, truthiness test and string conversion is written out.
    Exceptions are values of a sum type; the outside world (the checkout
    provider, the Telegram transport, the clock, the wallet balance service) is
    a record of oracles that the handlers consult in order. *)

From Stdlib Require Import ZArith String Ascii List Bool Lia DecimalString.
From stdpp Require Import base option list gmap strings.

Import ListNotations.
Local Open Scope Z_scope.
Local Open Scope string_scope.

(** ** JavaScript values and the builtins the two files use *)

Module Js.

(** A value as [JSON.parse] (axios, [express.json()]) delivers it, plus
    [undefined], which is what reading a missing property gives.  Numbers are
    modelled by the integers, that is by the integer-valued doubles: user
    identifiers, HTTP status codes and lengths are integers.  What a
    conversion to a number can yield besides ([NaN], a fraction, an infinity)
    is the type [NumberValue] below.  A string is a sequence of code units,
    each an [ascii] (code units up to 255: URLs, identifiers, addresses and
    status words are ASCII). *)
#[warnings="-register-all"]
Inductive JsValue : Type :=
  | JsUndefined
  | JsNull
  | JsBool (b : bool)
  | JsNumber (n : Z)
  | JsString (s : string)
  | JsArray (elems : list JsValue)
  | JsObject (fields : list (string * JsValue)).

(** ToBoolean. *)
Definition truthy (v : JsValue) : bool :=
  match v with
  | JsUndefined | JsNull => false
  | JsBool b => b
  | JsNumber n => negb (n =? 0)%Z
  | JsString s => negb (String.eqb s "")
  | JsArray _ | JsObject _ => true
  end.

(** [a || b] *)
Definition or_else (a b : JsValue) : JsValue := if truthy a then a else b.

Definition nullish (v : JsValue) : bool :=
  match v with
  | JsUndefined | JsNull => true
  | _ => false
  end.

(** Own property of a parsed JSON object: the first binding of the key. *)
Fixpoint assoc (k : string) (fields : list (string * JsValue)) : JsValue :=
  match fields with
  | [] => JsUndefined
  | (k', v) :: rest => if String.eqb k k' then v else assoc k rest
  end.

(** [v.k] for a [v] that is neither [null] nor [undefined] and a key [k] that
    no prototype defines ([message], [status], [id], ...): primitives and
    arrays answer [undefined]. *)
Definition prop (k : string) (v : JsValue) : JsValue :=
  match v with
  | JsObject fields => assoc k fields
  | _ => JsUndefined
  end.

(** [v?.k] *)
Definition opt_prop (k : string) (v : JsValue) : JsValue :=
  if nullish v then JsUndefined else prop k v.

(** Decimal rendering of an integer. *)
Definition string_of_Z (n : Z) : string := NilZero.string_of_int (Z.to_int n).

Fixpoint join (sep : string) (parts : list string) : string :=
  match parts with
  | [] => ""
  | [p] => p
  | p :: rest => p ++ sep ++ join sep rest
  end.

(** *** Number::toString

    A number of the embedding is an integer-valued double.  Below [2^53] its
    decimal expansion is what is printed.  From [2^53] on the digits printed
    are the shortest ones that still denote the double, followed by zeros up
    to 21 digits and in exponent form beyond. *)

(** Does the integer [c] round to the double [n >= 2^53]?  The half gaps to
    the neighbours of [n] are compared after scaling by four; at an even
    significand the ends of the interval round to [n] as well. *)
Definition rounds_to (n c : Z) : bool :=
  let q := Z.log2 n - 52 in
  let m := n / 2 ^ q in
  let above := 2 ^ (q + 1) in
  let below := if (m =? 2 ^ 52)%Z then 2 ^ q else 2 ^ (q + 1) in
  let d := 4 * c - 4 * n in
  if Z.even m then (- below <=? d)%Z && (d <=? above)%Z
  else (- below <? d)%Z && (d <? above)%Z.

(** The shortest digits: the first multiple [s * 10^j] of a power of ten,
    from the largest power down, that rounds to [n]; of two such multiples the
    closer one, and the even one when both are as close. *)
Fixpoint shortest (n : Z) (j : nat) : Z * nat :=
  let p := 10 ^ Z.of_nat j in
  let s1 := n / p in
  let s2 := s1 + 1 in
  let r := n mod p in
  let ok1 := (0 <? s1)%Z && rounds_to n (s1 * p) in
  let ok2 := rounds_to n (s2 * p) in
  if ok1 && ok2 then
    if (2 * r <? p)%Z then (s1, j)
    else if (p <? 2 * r)%Z then (s2, j)
    else if Z.even s1 then (s1, j) else (s2, j)
  else if ok1 then (s1, j)
  else if ok2 then (s2, j)
  else match j with
       | O => (n, O)
       | S j' => shortest n j'
       end.

Fixpoint zeros (n : nat) : string :=
  match n with
  | O => ""
  | S n' => String "0" (zeros n')
  end.

Fixpoint rev_string (acc s : string) : string :=
  match s with
  | EmptyString => acc
  | String c rest => rev_string (String c acc) rest
  end.

Fixpoint drop_zeros (s : string) : string :=
  match s with
  | String "0" rest => drop_zeros rest
  | _ => s
  end.

(** A run of digits without its trailing zeros. *)
Definition significant (digits : string) : string :=
  rev_string "" (drop_zeros (rev_string "" digits)).

Definition number_to_string (n : Z) : string :=
  let a := Z.abs n in
  let sign := if (n <? 0)%Z then "-" else "" in
  if (a <? 2 ^ 53)%Z then string_of_Z n
  else
    let '(s, j) := shortest a (String.length (string_of_Z a)) in
    let digits := string_of_Z s in
    let position := (String.length digits + j)%nat in
    if (position <=? 21)%nat then sign ++ digits ++ zeros j
    else
      match significant digits with
      | String d more =>
          sign ++ String d (match more with
                            | EmptyString => ""
                            | _ => "." ++ more
                            end)
          ++ "e+" ++ string_of_Z (Z.of_nat position - 1)
      | EmptyString => sign ++ digits
      end.

(** *** ToString

    What a template literal applies to an interpolated value.  [None] is the
    [TypeError] "Cannot convert object to primitive value": a parsed JSON
    object with an own [toString] key has no callable [toString], and
    [Object.prototype.valueOf] answers the object itself.  An array joins the
    strings of its elements, [null] and [undefined] counting as empty. *)
Fixpoint has_key (k : string) (fields : list (string * JsValue)) : bool :=
  match fields with
  | [] => false
  | (k', _) :: rest => String.eqb k k' || has_key k rest
  end.

Fixpoint to_string (v : JsValue) : option string :=
  match v with
  | JsUndefined => Some "undefined"
  | JsNull => Some "null"
  | JsBool true => Some "true"
  | JsBool false => Some "false"
  | JsNumber n => Some (number_to_string n)
  | JsString s => Some s
  | JsArray elems =>
      join "," <$>
        (fix each (l : list JsValue) : option (list string) :=
           match l with
           | [] => Some []
           | e :: rest =>
               match (if nullish e then Some "" else to_string e) with
               | Some part =>
                   match each rest with
                   | Some parts => Some (part :: parts)
                   | None => None
                   end
               | None => None
               end
           end) elems
  | JsObject fields => if has_key "toString" fields then None else Some "[object Object]"
  end.

(** The message of that [TypeError], as V8 words it. *)
Definition cannot_convert : string := "Cannot convert object to primitive value".

(** ToString answers. *)
Definition printable (v : JsValue) : bool :=
  match to_string v with
  | Some _ => true
  | None => false
  end.

Definition is_space (c : ascii) : bool :=
  let n := nat_of_ascii c in
  ((n =? 32) || (n =? 9) || (n =? 10) || (n =? 11) || (n =? 12) || (n =? 13)
   || (n =? 160))%nat.

Fixpoint trim_left (s : string) : string :=
  match s with
  | String c rest => if is_space c then trim_left rest else s
  | EmptyString => EmptyString
  end.

Definition trim (s : string) : string :=
  rev_string "" (trim_left (rev_string "" (trim_left s))).

(** *** ToNumber

    The numbers of the embedding are the integer-valued doubles, so a
    conversion has three kinds of result: [NaN], an integer, or a double that
    is no integer (a fraction or an infinity), of which only the sign is
    kept. *)
Inductive NumberValue : Type :=
  | NaN
  | Whole (n : Z)
  | Beyond (positive : bool).

Definition digit_in (radix : Z) (c : ascii) : option Z :=
  let n := Z.of_nat (nat_of_ascii c) in
  let d :=
    if (48 <=? n)%Z && (n <=? 57)%Z then n - 48
    else if (97 <=? n)%Z && (n <=? 102)%Z then n - 87
    else if (65 <=? n)%Z && (n <=? 70)%Z then n - 55
    else radix in
  if (d <? radix)%Z then Some d else None.

Definition digit_of (c : ascii) : option Z := digit_in 10 c.

(** The value of a run of digits in a radix; [None] when a character is no
    digit of the radix. *)
Fixpoint radix_value (radix acc : Z) (s : string) : option Z :=
  match s with
  | EmptyString => Some acc
  | String c rest =>
      match digit_in radix c with
      | Some d => radix_value radix (radix * acc + d) rest
      | None => None
      end
  end.

Definition digits_value (acc : Z) (s : string) : option Z := radix_value 10 acc s.

(** The leading decimal digits of a string, and what follows them. *)
Fixpoint take_digits (s : string) : string * string :=
  match s with
  | String c rest =>
      match digit_of c with
      | Some _ => let '(ds, tl) := take_digits rest in (String c ds, tl)
      | None => (EmptyString, s)
      end
  | EmptyString => (EmptyString, EmptyString)
  end.

(** The double nearest to the positive rational [a / b] (ties to the even
    significand), as a result of the embedding. *)
Definition nearest_double (negative : bool) (a b : Z) : NumberValue :=
  let l := Z.log2 a - Z.log2 b in
  let below :=
    if (0 <=? l)%Z then (a <? b * 2 ^ l)%Z else (a * 2 ^ (- l) <? b)%Z in
  let e := if below then l - 1 else l in
  let q := Z.max (e - 52) (-1074) in
  let num := if (q <? 0)%Z then a * 2 ^ (- q) else a in
  let den := if (q <? 0)%Z then b else b * 2 ^ q in
  let m0 := num / den in
  let r := num mod den in
  let m :=
    if (den <? 2 * r)%Z then m0 + 1
    else if (2 * r =? den)%Z then (if Z.odd m0 then m0 + 1 else m0)
    else m0 in
  let signed (n : Z) := if negative then - n else n in
  if (0 <=? q)%Z then
    if (2 ^ 1024 <=? m * 2 ^ q)%Z then Beyond (negb negative)
    else Whole (signed (m * 2 ^ q))
  else if (m mod 2 ^ (- q) =? 0)%Z then Whole (signed (m / 2 ^ (- q)))
  else Beyond (negb negative).

(** The double of [d * 10^e] for an integer [d >= 0].  Magnitudes far outside
    the range of the doubles are settled without computing the power. *)
Definition decimal_double (negative : bool) (d e : Z) : NumberValue :=
  if (d =? 0)%Z then Whole 0
  else
    let magnitude := Z.of_nat (String.length (string_of_Z d)) + e in
    if (310 <? magnitude)%Z then Beyond (negb negative)
    else if (magnitude <? -330)%Z then Whole 0
    else if (0 <=? e)%Z then nearest_double negative (d * 10 ^ e) 1
    else nearest_double negative d (10 ^ (- e)).

(** [StrUnsignedDecimalLiteral]: [Infinity], or digits with an optional
    fraction and an optional exponent, at least one digit before the
    exponent. *)
Definition unsigned_decimal (negative : bool) (s : string) : NumberValue :=
  if String.eqb s "Infinity" then Beyond (negb negative)
  else
    let '(whole, r1) := take_digits s in
    let '(fraction, r2) :=
      match r1 with
      | String "." tl => take_digits tl
      | _ => (EmptyString, r1)
      end in
    if String.eqb whole "" && String.eqb fraction "" then NaN
    else
      let exponent : option Z :=
        match r2 with
        | EmptyString => Some 0
        | String c tl =>
            if Ascii.eqb c "e" || Ascii.eqb c "E" then
              let '(negexp, ds) :=
                match tl with
                | String "-" ds => (true, ds)
                | String "+" ds => (false, ds)
                | _ => (false, tl)
                end in
              match ds with
              | EmptyString => None
              | _ => (fun x => if negexp then - x else x) <$> digits_value 0 ds
              end
            else None
        end in
      match digits_value 0 (whole ++ fraction), exponent with
      | Some d, Some e =>
          decimal_double negative d (e - Z.of_nat (String.length fraction))
      | _, _ => NaN
      end.

(** A literal with a radix prefix: at least one digit, no sign. *)
Definition radix_literal (radix : Z) (digits : string) : NumberValue :=
  match digits with
  | EmptyString => NaN
  | _ =>
      match radix_value radix 0 digits with
      | Some 0 => Whole 0
      | Some n => nearest_double false n 1
      | None => NaN
      end
  end.

(** StringToNumber: white space is trimmed, the empty string is [0]. *)
Definition string_to_number (s : string) : NumberValue :=
  match trim s with
  | EmptyString => Whole 0
  | String "0" (String "x" ds) | String "0" (String "X" ds) => radix_literal 16 ds
  | String "0" (String "o" ds) | String "0" (String "O" ds) => radix_literal 8 ds
  | String "0" (String "b" ds) | String "0" (String "B" ds) => radix_literal 2 ds
  | String "-" t => unsigned_decimal true t
  | String "+" t => unsigned_decimal false t
  | t => unsigned_decimal false t
  end.

(** [Number(v)], and ToNumber where an operator applies it.  [None] is the
    [TypeError] of an object that cannot be converted to a primitive value;
    arrays and objects go through their string. *)
Definition Number (v : JsValue) : option NumberValue :=
  match v with
  | JsUndefined => Some NaN
  | JsNull => Some (Whole 0)
  | JsBool true => Some (Whole 1)
  | JsBool false => Some (Whole 0)
  | JsNumber n => Some (Whole n)
  | JsString s => Some (string_to_number s)
  | JsArray _ | JsObject _ => string_to_number <$> to_string v
  end.

(** [isNaN] of a converted number. *)
Definition isNaN (n : NumberValue) : bool :=
  match n with
  | NaN => true
  | _ => false
  end.

(** [String.prototype.substring(start, end)] with integer arguments: both are
    clamped to [0 .. length] (a negative index is [0]) and swapped when the
    first is the larger; [end] absent means the length. *)
Definition clamp (len n : Z) : nat := Z.to_nat (Z.min (Z.max n 0) len).

Definition substring (s : string) (start : Z) (stop : option Z) : string :=
  let len := Z.of_nat (String.length s) in
  let a := clamp len start in
  let b := match stop with Some e => clamp len e | None => Z.to_nat len end in
  let lo := Nat.min a b in
  let hi := Nat.max a b in
  String.substring lo (hi - lo) s.

(** [String.prototype.includes(needle)] *)
Fixpoint string_includes (needle hay : string) : bool :=
  if String.prefix needle hay then true
  else match hay with
       | EmptyString => false
       | String _ rest => string_includes needle rest
       end.

(** Strict equality with a string literal. *)
Definition is_string (lit : string) (v : JsValue) : bool :=
  match v with
  | JsString s => String.eqb s lit
  | _ => false
  end.

(** The outcome of [v?.includes(lit)] for a string literal [lit]. *)
Inductive Includes : Type :=
  | IncludesUndefined          (* [v] is null or undefined: the chain stops *)
  | IncludesBool (b : bool)    (* a string or an array answers *)
  | IncludesNotAFunction.      (* any other value: a TypeError is thrown *)

Definition opt_includes (lit : string) (v : JsValue) : Includes :=
  match v with
  | JsUndefined | JsNull => IncludesUndefined
  | JsString s => IncludesBool (string_includes lit s)
  | JsArray elems => IncludesBool (existsb (is_string lit) elems)
  | JsBool _ | JsNumber _ | JsObject _ => IncludesNotAFunction
  end.

(** [v.length] of a truthy [v]. *)
Definition length_of (v : JsValue) : JsValue :=
  match v with
  | JsString s => JsNumber (Z.of_nat (String.length s))
  | JsArray elems => JsNumber (Z.of_nat (List.length elems))
  | JsObject fields => assoc "length" fields
  | _ => JsUndefined
  end.

(** [v > 0]; [None] is the [TypeError] of the conversion. *)
Definition gt_zero (v : JsValue) : option bool :=
  (fun n => match n with
            | NaN => false
            | Whole n => (0 <? n)%Z
            | Beyond positive => positive
            end) <$> Number v.

(** [v[0]] of a truthy [v]. *)
Definition first_elem (v : JsValue) : JsValue :=
  match v with
  | JsArray (e :: _) => e
  | JsString (String c _) => JsString (String c EmptyString)
  | JsObject fields => assoc "0" fields
  | _ => JsUndefined
  end.

End Js.

(** ** Regular expressions, as the backtracking matcher of JavaScript runs them *)

Module Regex.

(** The fragment the three patterns of [checkout.ts] are written in.  All three
    carry the [i] flag and none the [u] flag. *)
Inductive regex : Type :=
  | Eps                                    (* the empty pattern *)
  | Lit (c : ascii)                        (* a pattern character *)
  | AnyChar                                (* [.] *)
  | Class (ranges : list (ascii * ascii))  (* [[A-Z0-9]] *)
  | Seq (r1 r2 : regex)
  | Alt (r1 r2 : regex)                    (* ordered choice *)
  | Star (r : regex)                       (* greedy [*] *)
  | Group (r : regex).                     (* the capturing group *)

(** A run of pattern characters. *)
Fixpoint lits (s : string) : regex :=
  match s with
  | EmptyString => Eps
  | String c rest => Seq (Lit c) (lits rest)
  end.

(** [r{n}] *)
Fixpoint times (n : nat) (r : regex) : regex :=
  match n with
  | O => Eps
  | S n' => Seq r (times n' r)
  end.

(** Canonicalize under the [i] flag: an ASCII letter is compared through its
    upper case.  A code unit outside ASCII never becomes an ASCII one, and every
    pattern character here is ASCII, so other code units stand for themselves. *)
Definition canon (c : ascii) : nat :=
  let n := nat_of_ascii c in
  if ((97 <=? n) && (n <=? 122))%nat then (n - 32)%nat else n.

Definition lower (n : nat) : nat :=
  if ((65 <=? n) && (n <=? 90))%nat then (n + 32)%nat else n.

Definition between (lo hi n : nat) : bool := ((lo <=? n) && (n <=? hi))%nat.

(** A class range matches a character when the range holds a character with
    the same canonical form: the character itself or its other case. *)
Definition in_range (c : ascii) (r : ascii * ascii) : bool :=
  let lo := nat_of_ascii (fst r) in
  let hi := nat_of_ascii (snd r) in
  between lo hi (nat_of_ascii c) || between lo hi (canon c)
  || between lo hi (lower (nat_of_ascii c)).

Definition line_terminator (c : ascii) : bool :=
  ((nat_of_ascii c =? 10) || (nat_of_ascii c =? 13))%nat.

(** The text that was consumed between the input [s] and its suffix [s']. *)
Definition consumed (s s' : string) : string :=
  String.substring 0 (String.length s - String.length s') s.

(** Continuation-passing matcher: [k] receives the rest of the input and the
    capture.  A choice point tries its first branch and falls back on failure;
    an iteration of [*] that consumes nothing is refused, as in the language
    definition, so [*] runs at most once per input character. *)
Fixpoint run {R : Type} (r : regex) (s : string) (cap : option string)
    (k : string -> option string -> option R) : option R :=
  match r with
  | Eps => k s cap
  | Lit c =>
      match s with
      | String d rest => if (canon c =? canon d)%nat then k rest cap else None
      | EmptyString => None
      end
  | AnyChar =>
      match s with
      | String d rest => if line_terminator d then None else k rest cap
      | EmptyString => None
      end
  | Class ranges =>
      match s with
      | String d rest => if existsb (in_range d) ranges then k rest cap else None
      | EmptyString => None
      end
  | Seq r1 r2 => run r1 s cap (fun s1 cap1 => run r2 s1 cap1 k)
  | Alt r1 r2 =>
      match run r1 s cap k with
      | Some x => Some x
      | None => run r2 s cap k
      end
  | Star r1 =>
      (fix loop (fuel : nat) (s0 : string) (cap0 : option string) : option R :=
         match fuel with
         | O => k s0 cap0
         | S fuel' =>
             match run r1 s0 cap0
                     (fun s1 cap1 =>
                        if (String.length s1 <? String.length s0)%nat
                        then loop fuel' s1 cap1 else None) with
             | Some x => Some x
             | None => k s0 cap0
             end
         end) (String.length s) s cap
  | Group r1 => run r1 s cap (fun s1 _ => k s1 (Some (consumed s s1)))
  end.

(** A match anchored at the start of [s]: the capture of group 1. *)
Definition match_here (r : regex) (s : string) : option (option string) :=
  run r s None (fun _ cap => Some cap).

(** [RegExp.prototype.exec] without the [g] flag: the leftmost start that
    matches wins.  The result is the capture of group 1 ([None] inside when the
    pattern has no group). *)
Fixpoint exec (r : regex) (s : string) : option (option string) :=
  match match_here r s with
  | Some cap => Some cap
  | None =>
      match s with
      | EmptyString => None
      | String _ rest => exec r rest
      end
  end.

(** [RegExp.prototype.test] *)
Definition test (r : regex) (s : string) : bool :=
  match exec r s with
  | Some _ => true
  | None => false
  end.

Definition alnum : regex := Class [("A"%char, "Z"%char); ("0"%char, "9"%char)].

End Regex.

(** ** [checkout.ts]: the Crossmint headless checkout service *)

Module Checkout.

Import Js.

(** *** Request and response types (the zod schemas of the file) *)

(** [PhysicalAddressSchema] *)
Record PhysicalAddress : Type := mkAddress {
  addrName : string;
  line1 : string;
  line2 : option string;
  city : string;
  state : option string;        (* optional in the schema *)
  postalCode : string;
  country : string
}.

(** [RecipientSchema] *)
Record Recipient : Type := mkRecipient {
  recipientEmail : string;
  physicalAddress : option PhysicalAddress
}.

(** [PaymentSchema]; [method] is one of the four chains of the enum, which the
    service fills from [getBestBlockchainForWallet] through a cast. *)
Record Payment : Type := mkPayment {
  method : string;
  currency : string;
  payerAddress : string;
  receiptEmail : option string
}.

(** [LineItemsSchema]: a single object. *)
Record LineItems : Type := mkLineItems {
  productLocator : string
}.

(** [CreateOrderRequestSchema] *)
Record CreateOrderRequest : Type := mkRequest {
  recipient : Recipient;
  payment : Payment;
  lineItems : LineItems
}.

(** [AmazonProduct] *)
Record AmazonProduct : Type := mkProduct {
  title : string;
  price : string;
  amazonUrl : string;
  imageUrl : option string;
  description : option string
}.

(** *** Product locators *)

(** [/\/(?:dp|gp\/product)\/([A-Z0-9]{10})/i] *)
Definition asinPattern : Regex.regex :=
  Regex.Seq (Regex.Lit "/")
    (Regex.Seq (Regex.Alt (Regex.lits "dp") (Regex.lits "gp/product"))
       (Regex.Seq (Regex.Lit "/") (Regex.Group (Regex.times 10 Regex.alnum)))).

(** [/amazon\.com\/dp\/([A-Z0-9]{10})/i] *)
Definition urlPattern : Regex.regex :=
  Regex.Seq (Regex.lits "amazon.com/dp/") (Regex.Group (Regex.times 10 Regex.alnum)).

(** [/amazon\.com\/.*\/dp\/[A-Z0-9]{10}/i] *)
Definition amazonUrlPattern : Regex.regex :=
  Regex.Seq (Regex.lits "amazon.com/")
    (Regex.Seq (Regex.Star Regex.AnyChar)
       (Regex.Seq (Regex.lits "/dp/") (Regex.times 10 Regex.alnum))).

(** [url.match(pattern)] followed by the test [m && m[1] !== undefined]: the
    captured group of the leftmost match. *)
Definition match_group (pattern : Regex.regex) (url : string) : option string :=
  match Regex.exec pattern url with
  | Some (Some g) => Some g
  | _ => None
  end.

(** [extractProductLocator]: the [amazon:ASIN] format is the one selected.
    Nothing in the body throws, so its [catch] is never entered. *)
Definition extractProductLocator (amazonUrl : string) : option string :=
  match match_group asinPattern amazonUrl with
  | Some extractedAsin => Some ("amazon:" ++ extractedAsin)
  | None =>
      match match_group urlPattern amazonUrl with
      | Some asinFromUrl => Some ("amazon:" ++ asinFromUrl)
      | None => None
      end
  end.

(** [getBestBlockchainForWallet] *)
Definition getBestBlockchainForWallet (_walletAddress : string) : string :=
  "base-sepolia".

(** [getProductLocatorVariations] *)
Definition getProductLocatorVariations (asin amazonUrl : string) : list string :=
  [ "amazon:" ++ asin;
    "amazon:https://www.amazon.com/dp/" ++ asin;
    "amazon:" ++ amazonUrl;
    asin;
    "https://www.amazon.com/dp/" ++ asin ].

(** [validateAmazonUrl] *)
Definition validateAmazonUrl (url : string) : bool :=
  Regex.test amazonUrlPattern url.

(** *** The order response and its schema *)

Record Money : Type := mkMoney {
  amount : string;
  moneyCurrency : string
}.

Record ItemMetadata : Type := mkItemMetadata {
  metaName : string;
  metaDescription : string;
  metaImageUrl : option string
}.

Record Charges : Type := mkCharges {
  unit : Money;
  salesTax : option Money;
  shipping : option Money
}.

Record ItemQuote : Type := mkItemQuote {
  itemQuoteStatus : string;
  charges : Charges;
  itemTotalPrice : Money
}.

Record DeliveryRecipient : Type := mkDeliveryRecipient {
  locator : string;
  deliveryEmail : string;
  deliveryWallet : option string
}.

Record Delivery : Type := mkDelivery {
  deliveryStatus : string;
  deliveryRecipient : DeliveryRecipient
}.

Record OrderLineItem : Type := mkOrderLineItem {
  chain : string;
  quantity : Z;
  metadata : option ItemMetadata;
  itemQuote : ItemQuote;
  delivery : Delivery
}.

Record OrderQuote : Type := mkOrderQuote {
  quoteStatus : string;
  quotedAt : option string;
  expiresAt : option string;
  totalPrice : Money
}.

Record Preparation : Type := mkPreparation {
  prepChain : option string;
  prepPayerAddress : option string;
  serializedTransaction : option string
}.

Record OrderPayment : Type := mkOrderPayment {
  paymentStatus : string;
  paymentMethod : string;
  paymentCurrency : string;
  preparation : option Preparation
}.

Record Order : Type := mkOrder {
  orderId : string;
  phase : string;
  locale : option string;
  orderLineItems : list OrderLineItem;
  quote : OrderQuote;
  orderPayment : OrderPayment
}.

(** [OrderResponse], the type inferred from [OrderResponseSchema]. *)
Record OrderResponse : Type := mkOrderResponse {
  order : Order;
  orderClientSecret : option string
}.

(** The zod combinators of the schema.  [None] is a [ZodError]. *)
Definition z_string (v : JsValue) : option string :=
  match v with
  | JsString s => Some s
  | _ => None
  end.

Definition z_number (v : JsValue) : option Z :=
  match v with
  | JsNumber n => Some n
  | _ => None
  end.

(** [.optional()]: [undefined] (a missing key) is accepted, [null] is not. *)
Definition z_optional {A : Type} (p : JsValue -> option A) (v : JsValue)
    : option (option A) :=
  match v with
  | JsUndefined => Some None
  | _ => Some <$> p v
  end.

(** [z.object(shape)]: the input must be a plain object; keys outside the
    shape are dropped. *)
Definition z_object {A : Type} (shape : list (string * JsValue) -> option A)
    (v : JsValue) : option A :=
  match v with
  | JsObject fields => shape fields
  | _ => None
  end.

Definition z_array {A : Type} (p : JsValue -> option A) (v : JsValue)
    : option (list A) :=
  match v with
  | JsArray elems => mapM p elems
  | _ => None
  end.

Definition MoneySchema : JsValue -> option Money :=
  z_object (fun o =>
    a ← z_string (assoc "amount" o);
    c ← z_string (assoc "currency" o);
    Some (mkMoney a c)).

Definition ItemMetadataSchema : JsValue -> option ItemMetadata :=
  z_object (fun o =>
    n ← z_string (assoc "name" o);
    d ← z_string (assoc "description" o);
    i ← z_optional z_string (assoc "imageUrl" o);
    Some (mkItemMetadata n d i)).

Definition ChargesSchema : JsValue -> option Charges :=
  z_object (fun o =>
    u ← MoneySchema (assoc "unit" o);
    t ← z_optional MoneySchema (assoc "salesTax" o);
    s ← z_optional MoneySchema (assoc "shipping" o);
    Some (mkCharges u t s)).

Definition ItemQuoteSchema : JsValue -> option ItemQuote :=
  z_object (fun o =>
    st ← z_string (assoc "status" o);
    ch ← ChargesSchema (assoc "charges" o);
    tp ← MoneySchema (assoc "totalPrice" o);
    Some (mkItemQuote st ch tp)).

Definition DeliveryRecipientSchema : JsValue -> option DeliveryRecipient :=
  z_object (fun o =>
    l ← z_string (assoc "locator" o);
    e ← z_string (assoc "email" o);
    w ← z_optional z_string (assoc "walletAddress" o);
    Some (mkDeliveryRecipient l e w)).

Definition DeliverySchema : JsValue -> option Delivery :=
  z_object (fun o =>
    st ← z_string (assoc "status" o);
    r ← DeliveryRecipientSchema (assoc "recipient" o);
    Some (mkDelivery st r)).

Definition OrderLineItemSchema : JsValue -> option OrderLineItem :=
  z_object (fun o =>
    c ← z_string (assoc "chain" o);
    q ← z_number (assoc "quantity" o);
    m ← z_optional ItemMetadataSchema (assoc "metadata" o);
    iq ← ItemQuoteSchema (assoc "quote" o);
    d ← DeliverySchema (assoc "delivery" o);
    Some (mkOrderLineItem c q m iq d)).

Definition OrderQuoteSchema : JsValue -> option OrderQuote :=
  z_object (fun o =>
    st ← z_string (assoc "status" o);
    qa ← z_optional z_string (assoc "quotedAt" o);
    ea ← z_optional z_string (assoc "expiresAt" o);
    tp ← MoneySchema (assoc "totalPrice" o);
    Some (mkOrderQuote st qa ea tp)).

Definition PreparationSchema : JsValue -> option Preparation :=
  z_object (fun o =>
    c ← z_optional z_string (assoc "chain" o);
    p ← z_optional z_string (assoc "payerAddress" o);
    t ← z_optional z_string (assoc "serializedTransaction" o);
    Some (mkPreparation c p t)).

Definition OrderPaymentSchema : JsValue -> option OrderPayment :=
  z_object (fun o =>
    st ← z_string (assoc "status" o);
    m ← z_string (assoc "method" o);
    c ← z_string (assoc "currency" o);
    p ← z_optional PreparationSchema (assoc "preparation" o);
    Some (mkOrderPayment st m c p)).

Definition OrderSchema : JsValue -> option Order :=
  z_object (fun o =>
    i ← z_string (assoc "orderId" o);
    ph ← z_string (assoc "phase" o);
    l ← z_optional z_string (assoc "locale" o);
    li ← z_array OrderLineItemSchema (assoc "lineItems" o);
    q ← OrderQuoteSchema (assoc "quote" o);
    p ← OrderPaymentSchema (assoc "payment" o);
    Some (mkOrder i ph l li q p)).

(** [OrderResponseSchema.parse] *)
Definition OrderResponseSchema : JsValue -> option OrderResponse :=
  z_object (fun o =>
    ord ← OrderSchema (assoc "order" o);
    s ← z_optional z_string (assoc "orderClientSecret" o);
    Some (mkOrderResponse ord s)).

(** *** The provider, seen from axios *)

(** [error.response] of an [AxiosError]. *)
Record ErrorResponse : Type := mkErrorResponse {
  errStatus : Z;
  errStatusText : string;
  errData : JsValue
}.

(** An [AxiosError]: [response] is absent when no answer arrived (time-out,
    connection failure). *)
Record AxiosError : Type := mkAxiosError {
  response : option ErrorResponse;
  axiosMessage : string
}.

(** What [await axios.post(...)] or [await axios.get(...)] comes to: with the
    default [validateStatus] the promise resolves on a 2xx status and rejects
    with an [AxiosError] otherwise. *)
Inductive HttpOutcome : Type :=
  | Resolved (status : Z) (statusText : string) (data : JsValue)
  | Rejected (e : AxiosError).

(** The values the service throws or lets through. *)
Inductive Thrown : Type :=
  | ThrownAxios (e : AxiosError)
  | ThrownZod                         (* a [ZodError] of [OrderResponseSchema.parse] *)
  | ThrownError (message : string)    (* [new Error(message)] *)
  | ThrownTypeError (message : string)
  | ThrownNull.                       (* [throw lastError] with [lastError] still [null] *)

Inductive Completion (A : Type) : Type :=
  | Return (a : A)
  | Throw (t : Thrown).

Arguments Return {A} a.
Arguments Throw {A} t.

(** [error.response?.status] *)
Definition responseStatus (e : AxiosError) : option Z :=
  errStatus <$> response e.

(** [error.response?.statusText] *)
Definition responseStatusText (e : AxiosError) : JsValue :=
  match response e with
  | Some r => JsString (errStatusText r)
  | None => JsUndefined
  end.

(** [error.response?.data?.message] *)
Definition responseMessage (e : AxiosError) : JsValue :=
  match response e with
  | Some r => opt_prop "message" (errData r)
  | None => JsUndefined
  end.

(** [`${error}`] *)
Definition thrown_to_string (t : Thrown) : string :=
  match t with
  | ThrownAxios e => "AxiosError: " ++ axiosMessage e
  | ThrownZod => "ZodError"
  | ThrownError m => "Error: " ++ m
  | ThrownTypeError m => "TypeError: " ++ m
  | ThrownNull => "null"
  end.

(** *** [createOrderWithRetry] *)

(** The provider answers the [i]-th create-order request of a call, which
    carries the request body. *)
Definition Provider : Type := nat -> CreateOrderRequest -> HttpOutcome.

(** [{ ...orderRequest, lineItems: { productLocator: locator } }] *)
Definition withLocator (orderRequest : CreateOrderRequest) (locator : string)
    : CreateOrderRequest :=
  {| recipient := recipient orderRequest;
     payment := payment orderRequest;
     lineItems := {| productLocator := locator |} |}.

(** The [catch] of one attempt, for an error that [axios.isAxiosError] accepts:
    [Some t] is what the block throws, [None] lets the loop go on.
    The block first logs the status and the message through a template
    literal, whose [TypeError] for a message without a string leaves the block
    before [lastError] is set.  The test is
    [status !== 400 || !message?.includes('Product not found')]; calling
    [includes] on a message that has no such method is a [TypeError] (its text
    is the engine's), which leaves the [catch] block as well. *)
Definition axiosCatch (e : AxiosError) : option Thrown :=
  match to_string (responseMessage e) with
  | None => Some (ThrownTypeError cannot_convert)
  | Some _ =>
      if negb (bool_decide (responseStatus e = Some 400)) then Some (ThrownAxios e)
      else
        match opt_includes "Product not found" (responseMessage e) with
        | IncludesUndefined => Some (ThrownAxios e)
        | IncludesBool false => Some (ThrownAxios e)
        | IncludesBool true => None
        | IncludesNotAFunction =>
            Some (ThrownTypeError "message.includes is not a function")
        end
  end.

(** The [for] loop from index [i] on, with the remaining locators.  The result
    comes with the create-order requests that were issued, in order. *)
Fixpoint retryFrom (post : Provider) (orderRequest : CreateOrderRequest)
    (i : nat) (locators : list string) (lastError : Thrown)
    : Completion OrderResponse * list CreateOrderRequest :=
  match locators with
  | [] => (Throw lastError, [])
  | locator :: rest =>
      let currentRequest := withLocator orderRequest locator in
      match post i currentRequest with
      | Resolved _ _ data =>
          match OrderResponseSchema data with
          | Some parsed => (Return parsed, [currentRequest])
          | None =>
              (* the ZodError is caught; it is not an axios error *)
              let '(r, issued) := retryFrom post orderRequest (S i) rest ThrownZod in
              (r, currentRequest :: issued)
          end
      | Rejected e =>
          match axiosCatch e with
          | Some t => (Throw t, [currentRequest])
          | None =>
              let '(r, issued) :=
                retryFrom post orderRequest (S i) rest (ThrownAxios e) in
              (r, currentRequest :: issued)
          end
      end
  end.

Definition createOrderWithRetry (post : Provider) (orderRequest : CreateOrderRequest)
    (productLocatorVariations : list string)
    : Completion OrderResponse * list CreateOrderRequest :=
  retryFrom post orderRequest 0 productLocatorVariations ThrownNull.

(** *** [createWalletAmazonOrder] *)

(** [OrderResponse & { requiresTransaction; serializedTransaction }] *)
Record WalletOrder : Type := mkWalletOrder {
  validatedResponse : OrderResponse;
  requiresTransaction : bool;
  walletSerializedTransaction : string
}.

(** [order.payment.preparation?.serializedTransaction] *)
Definition preparedTransaction (o : Order) : option string :=
  prep ← preparation (orderPayment o); serializedTransaction prep.

(** The checks that follow a validated response (outcome classification). *)
Definition classifyOrder (validated : OrderResponse) : Completion WalletOrder :=
  let o := order validated in
  if String.eqb (paymentStatus (orderPayment o)) "crypto-payer-insufficient-funds"
  then Throw (ThrownError "Insufficient USDC funds in wallet")
  else if String.eqb (quoteStatus (quote o)) "requires-physical-address"
  then Throw (ThrownError "Physical address is required for this product")
  else
    match preparedTransaction o with
    | Some tx =>
        if String.eqb tx ""
        then Throw (ThrownError
          "No serialized transaction found for order. This item may not be available for purchase.")
        else Return (mkWalletOrder validated true tx)
    | None => Throw (ThrownError
          "No serialized transaction found for order. This item may not be available for purchase.")
    end.

(** [!shippingAddress.state] *)
Definition stateMissing (a : PhysicalAddress) : bool :=
  match state a with
  | None => true
  | Some st => String.eqb st ""
  end.

(** The [orderRequest] literal of the method. *)
Definition buildOrderRequest (locator userEmail walletAddress : string)
    (shippingAddress : PhysicalAddress) : CreateOrderRequest :=
  let blockchainMethod := getBestBlockchainForWallet walletAddress in
  {| recipient := {| recipientEmail := userEmail;
                     physicalAddress := Some shippingAddress |};
     payment := {| method := blockchainMethod;
                   currency := "usdc";
                   payerAddress := walletAddress;
                   receiptEmail := Some userEmail |};
     lineItems := {| productLocator := locator |} |}.

(** The [try] block. *)
Definition createWalletAmazonOrder_try (post : Provider) (product : AmazonProduct)
    (userEmail walletAddress : string) (shippingAddress : PhysicalAddress)
    : Completion WalletOrder * list CreateOrderRequest :=
  match extractProductLocator (amazonUrl product) with
  | None => (Throw (ThrownError "Could not extract product locator from Amazon URL"), [])
  | Some locator =>
      match match_group asinPattern (amazonUrl product) with
      | None => (Throw (ThrownError "Could not extract ASIN from Amazon URL"), [])
      | Some asin =>
          if negb (String.eqb (country shippingAddress) "US")
          then (Throw (ThrownError
                  "Only US shipping addresses are supported at this time"), [])
          else if stateMissing shippingAddress
          then (Throw (ThrownError "State is required for US shipping addresses"), [])
          else
            let orderRequest :=
              buildOrderRequest locator userEmail walletAddress shippingAddress in
            let variations := getProductLocatorVariations asin (amazonUrl product) in
            match createOrderWithRetry post orderRequest variations with
            | (Return validated, issued) => (classifyOrder validated, issued)
            | (Throw t, issued) => (Throw t, issued)
            end
      end
  end.

(** [new Error(`${prefix}${v}`)], or the [TypeError] of the template. *)
Definition errorWith (prefix : string) (v : JsValue) : Thrown :=
  match to_string v with
  | Some text => ThrownError (prefix ++ text)
  | None => ThrownTypeError cannot_convert
  end.

(** The [catch] block: what it throws in place of the error caught. *)
Definition orderCatch (error : Thrown) : Thrown :=
  match error with
  | ThrownAxios e =>
      let status := responseStatus e in
      let message := or_else (responseMessage e) (responseStatusText e) in
      match status with
      | Some 400 =>
          errorWith "Invalid order data: "
            (or_else message (JsString "Check product locator and payment details"))
      | Some 401 | Some 403 =>
          ThrownError "Invalid Crossmint API key or insufficient permissions"
      | Some 404 =>
          ThrownError "Product not found or not supported for Amazon purchases"
      | _ =>
          if match status with Some n => negb (n =? 0)%Z && (500 <=? n)%Z | None => false end
          then ThrownError "Crossmint service is temporarily unavailable"
          else errorWith "Order creation failed: "
                 (or_else message (JsString (axiosMessage e)))
      end
  | ThrownZod => ThrownError "Invalid response format from Crossmint API"
  | _ => ThrownError ("Unexpected error during order creation: " ++ thrown_to_string error)
  end.

Definition createWalletAmazonOrder (post : Provider) (product : AmazonProduct)
    (userEmail walletAddress : string) (shippingAddress : PhysicalAddress)
    : Completion WalletOrder * list CreateOrderRequest :=
  match createWalletAmazonOrder_try post product userEmail walletAddress shippingAddress with
  | (Return w, issued) => (Return w, issued)
  | (Throw t, issued) => (Throw (orderCatch t), issued)
  end.

(** *** [signOrderTransaction] *)



(** Reading property [k] of [v] with a plain dot: a [TypeError] when [v] is
    [null] or [undefined] (the message is V8's). *)
Definition read_prop (k : string) (v : JsValue) : Completion JsValue :=
  match v with
  | JsUndefined =>
      Throw (ThrownTypeError
        ("Cannot read properties of undefined (reading '" ++ k ++ "')"))
  | JsNull =>
      Throw (ThrownTypeError ("Cannot read properties of null (reading '" ++ k ++ "')"))
  | _ => Return (prop k v)
  end.

(** [error.message] of a thrown error object. *)
Definition thrown_message (t : Thrown) : JsValue :=
  match t with
  | ThrownAxios e => JsString (axiosMessage e)
  | ThrownError m | ThrownTypeError m => JsString m
  | ThrownZod | ThrownNull => JsUndefined
  end.

(** [error.response] of a thrown error object: only an axios error has one. *)
Definition thrown_response (t : Thrown) : option ErrorResponse :=
  match t with
  | ThrownAxios e => response e
  | _ => None
  end.


(** [{ success: false, error: `${prefix}${v}` }], or the [TypeError] of the
    template, which leaves the [catch] block it is in. *)
Definition failureWith {A : Type} (failure : string -> A) (prefix : string)
    (v : JsValue) : Completion A :=
  match to_string v with
  | Some text => Return (failure (prefix ++ text))
  | None => Throw (ThrownTypeError cannot_convert)
  end.



(** *** [getTransactionDetails] *)

(** What the method comes to: one of the two shapes of the resolved object,
    or a rejected promise. *)
Inductive TransactionDetails : Type :=
  | PendingApproval (transaction pendingMessage signerLocator : JsValue)
      (* [{ transaction, pendingMessage, signerLocator }] *)
  | NoPendingApproval (transaction : JsValue) (error : string)
      (* [{ transaction, error }] *)
  | DetailsRejected (t : Thrown).
      (* the promise rejects with [t] *)

(** The [try] block, after [await axios.get] resolved.  The comparison
    [length > 0] converts its left side to a number; the message and the
    signer of a pending approval, or else the status, are logged through
    template literals before the result is built. *)
Definition detailsResolved (transactionData : JsValue) : Completion TransactionDetails :=
  match read_prop "status" transactionData with
  | Throw t => Throw t
  | Return status =>
      let approvals := prop "approvals" transactionData in
      let pending := prop "pending" approvals in
      let awaiting :=
        if is_string "awaiting-approval" status && truthy approvals && truthy pending
        then gt_zero (length_of pending)
        else Some false in
      match awaiting with
      | None => Throw (ThrownTypeError cannot_convert)
      | Some true =>
          let pendingApproval := first_elem pending in
          match read_prop "message" pendingApproval with
          | Throw t => Throw t
          | Return pendingMessage =>
              let signerLocator := prop "signer" pendingApproval in
              if printable pendingMessage && printable signerLocator
              then Return (PendingApproval transactionData pendingMessage signerLocator)
              else Throw (ThrownTypeError cannot_convert)
          end
      | Some false =>
          match to_string status with
          | Some text =>
              Return (NoPendingApproval transactionData
                ("Transaction is not awaiting approval. Current status: " ++ text))
          | None => Throw (ThrownTypeError cannot_convert)
          end
      end
  end.

(** The [catch] block; the [TypeError] of its template leaves it. *)
Definition detailsCatch (error : Thrown) : TransactionDetails :=
  let answer (prefix : string) (v : JsValue) :=
    match to_string v with
    | Some text => NoPendingApproval JsNull (prefix ++ text)
    | None => DetailsRejected (ThrownTypeError cannot_convert)
    end in
  match thrown_response error with
  | Some r =>
      answer "Failed to fetch transaction: "
        (or_else (opt_prop "message" (errData r)) (JsString (errStatusText r)))
  | None => answer "Network error: " (thrown_message error)
  end.

Definition getTransactionDetails (outcome : HttpOutcome)
    (walletAddress transactionId : string) : TransactionDetails :=
  match outcome with
  | Resolved _ _ data =>
      match detailsResolved data with
      | Return r => r
      | Throw t => detailsCatch t
      end
  | Rejected e => detailsCatch (ThrownAxios e)
  end.

(** *** [approveTransaction] *)

(** The object the method resolves to: [{ success, transaction }] or
    [{ success, error }]. *)
Record ApprovalResult : Type := mkApprovalResult {
  approvalSuccess : bool;
  approvedTransaction : JsValue;
  approvalError : option string
}.

Definition approvalFailure (message : string) : ApprovalResult :=
  mkApprovalResult false JsUndefined (Some message).

(** The [signature] and [metadata] arguments of the method. *)
Record Signature : Type := mkSignature {
  sigR : string;
  sigS : string
}.

Record AuthenticatorMetadata : Type := mkAuthenticatorMetadata {
  authenticatorData : string;
  challengeIndex : Z;
  clientDataJSON : string;
  typeIndex : Z;
  userVerificationRequired : bool
}.

(** The [catch] block. *)
Definition approvalCatch (error : Thrown) : Completion ApprovalResult :=
  match thrown_response error with
  | Some r =>
      failureWith approvalFailure "Approval submission failed: "
        (or_else (opt_prop "message" (errData r)) (JsString (errStatusText r)))
  | None => failureWith approvalFailure "Network error: " (thrown_message error)
  end.

(** [approveTransaction], given what the single [POST] to the approvals
    endpoint comes to.  The payload (one approval with the signer, the
    signature and the metadata) is built from the arguments and cannot fail;
    the body of the answer is passed on unread.  [Throw] is a rejected
    promise. *)
Definition approveTransaction (outcome : HttpOutcome)
    (walletAddress transactionId signerLocator : string)
    (signature : Signature) (metadata : AuthenticatorMetadata)
    : Completion ApprovalResult :=
  match outcome with
  | Resolved status _ data =>
      if (status =? 201)%Z then Return (mkApprovalResult true data None)
      else Return (approvalFailure ("Approval failed with status: " ++ string_of_Z status))
  | Rejected e => approvalCatch (ThrownAxios e)
  end.

(** *** Vocabulary of the statements about the service *)

(** The "product not found" class of errors: HTTP status 400 together with a
    text message that contains [Product not found]. *)
Definition productNotFound (e : AxiosError) : bool :=
  bool_decide (responseStatus e = Some 400)
  && match responseMessage e with
     | JsString s => string_includes "Product not found" s
     | _ => false
     end.

(** The message of the error response is text, or there is none. *)
Definition textMessage (e : AxiosError) : bool :=
  match responseMessage e with
  | JsUndefined | JsNull | JsString _ => true
  | _ => false
  end.

(** The error an attempt of the retry loop fails with, if it fails: the
    rejection of the request, or the schema violation of the response body. *)
Definition attemptError (outcome : HttpOutcome) : option Thrown :=
  match outcome with
  | Rejected e => Some (ThrownAxios e)
  | Resolved _ _ data =>
      match OrderResponseSchema data with
      | Some _ => None
      | None => Some ThrownZod
      end
  end.

Definition recoverable (t : Thrown) : bool :=
  match t with
  | ThrownAxios e => productNotFound e
  | _ => false
  end.




(** *** [checkAmazonProductSupport] *)

(** [checkAmazonProductSupport], given what the [GET] for a locator comes to:
    [response.data.supported === true], where the [TypeError] of a [null] body
    is caught like a rejection. *)
Definition checkAmazonProductSupport (get : string -> HttpOutcome)
    (productLocator : string) : bool :=
  match get productLocator with
  | Resolved _ _ data =>
      match read_prop "supported" data with
      | Return (JsBool true) => true
      | _ => false
      end
  | Rejected _ => false
  end.

End Checkout.

(** ** The webhook server of the bot: [BotHttpServer.setupRoutes] *)

Module Server.

Import Js.

(** *** Session state *)

(** The object the wallet-created handler hands to
    [crossmintWalletService.updateUserAuth]. *)
Record WalletData : Type := mkWalletData {
  wdCrossmintUserId : JsValue;
  wdWalletAddress : JsValue;
  wdAuthToken : JsValue;
  wdEmail : JsValue
}.

(** [memory.walletInfo], with the keys the two handlers write.  A key that was
    never written reads [None]. *)
Record WalletInfo : Type := mkWalletInfo {
  address : JsValue;
  crossmintUserId : JsValue;
  email : JsValue;
  authToken : JsValue;
  createdAt : Z;
  isVerified : bool;
  lastTopUpAmount : option JsValue;
  lastTopUpAt : option Z;
  lastVerifiedBalance : option string;
  lastBalanceCheck : option Z
}.

(** A user's memory object: the wallet info and whatever else the bot keeps
    there, which the handlers never touch. *)
Record UserMemory : Type := mkUserMemory {
  walletInfo : option WalletInfo;
  otherMemory : JsValue
}.

(** The two stores the handlers share, keyed by the numeric user identifier. *)
Record World : Type := mkWorld {
  users : gmap Z WalletData;       (* the wallet service's auth records *)
  memories : gmap Z UserMemory     (* [memoryUtils]' user memories *)
}.

(** Modelled from the spec: [crossmintWalletService.updateUserAuth] is defined in
    [commerce/crossmint/wallet.js], which is not among the sources.  The spec
    describes it as updating the session wallet-auth state of the user, with
    last-write-wins updates: the record of the user becomes the data passed. *)
Definition updateUserAuth (userId : Z) (authData : WalletData) (w : World) : World :=
  {| users := <[userId := authData]> (users w); memories := memories w |}.

(** Modelled from the spec: [memoryUtils.getUserMemory] is defined in
    [utils/memory.js], which is not among the sources.  The spec describes the
    session store as a key-value lookup by user identifier; the handlers test
    the result for truthiness, so the lookup can come back empty.  The store is
    keyed by numbers: a key of another type finds nothing. *)
Definition getUserMemory (userId : JsValue) (w : World) : option UserMemory :=
  match userId with
  | JsNumber n => memories w !! n
  | _ => None
  end.

(** In-place mutation of the memory object that [getUserMemory] returned. *)
Definition setWalletInfo (userId : JsValue) (info : WalletInfo) (w : World) : World :=
  match userId with
  | JsNumber n =>
      {| users := users w;
         memories := alter (fun m => {| walletInfo := Some info;
                                        otherMemory := otherMemory m |}) n (memories w) |}
  | _ => w
  end.

(** *** The outside world of one handler run *)

(** What [crossmintWalletService.getWalletBalance] comes to: balance data (the
    [balances] array, as currency and amount), [null], or a rejection. *)
Inductive BalanceOutcome : Type :=
  | BalanceData (balances : list (string * string))
  | BalanceNull
  | BalanceRejected.

(** The oracles a handler consults: the [k]-th reading of [Date.now()], whether
    the [k]-th [telegramBot.sendMessage] of the run resolves, and the balance
    service. *)
Record Env : Type := mkEnv {
  now : nat -> Z;
  delivers : nat -> bool;
  balanceOf : JsValue -> BalanceOutcome
}.

(** The texts the two handlers send are fixed templates around interpolated
    values; a notification is its template and those values. *)
Inductive Notification : Type :=
  | WalletCreatedNotice (shownAddress : string)
      (* "Wallet Created Successfully!", with [Wallet Address: ${shownAddress}] *)
  | PaymentVerifiedNotice (amount currency : JsValue) (usdcBalance : string)
      (transactionId : JsValue)
      (* "Payment Successful!", "has been added to your wallet", current balance *)
  | PaymentFallbackNotice (amount currency transactionId : JsValue).
      (* "Payment Successful!", "has been processed", "Use /balance ..." *)

(** The state one handler run threads: the stores, the messages Telegram
    accepted (chat and notification, oldest first), and how many clock readings
    and send attempts were made. *)
Record Run : Type := mkRun {
  world : World;
  outbox : list (JsValue * Notification);
  clockReads : nat;
  sendAttempts : nat
}.

Definition start (w : World) : Run := mkRun w [] 0 0.

(** [Date.now()] *)
Definition dateNow (env : Env) (r : Run) : Z * Run :=
  (now env (clockReads r),
   mkRun (world r) (outbox r) (S (clockReads r)) (sendAttempts r)).

(** [await telegramBot.sendMessage(chat, text)]: [false] is a rejection. *)
Definition sendMessage (env : Env) (chat : JsValue) (n : Notification) (r : Run)
    : bool * Run :=
  if delivers env (sendAttempts r)
  then (true, mkRun (world r) (outbox r ++ [(chat, n)]) (clockReads r)
                (S (sendAttempts r)))
  else (false, mkRun (world r) (outbox r) (clockReads r) (S (sendAttempts r))).

Definition onWorld (f : World -> World) (r : Run) : Run :=
  mkRun (f (world r)) (outbox r) (clockReads r) (sendAttempts r).

(** [res.status(code).json(body)] *)
Record HttpResponse : Type := mkResponse {
  statusCode : Z;
  body : JsValue
}.

Definition errorResponse (code : Z) (fields : list (string * JsValue)) : HttpResponse :=
  mkResponse code (JsObject fields).

(** *** [POST /api/webhook/wallet-created] *)

(** [walletAddress.substring(0, 8) + '...' + walletAddress.substring(-6)];
    [None] is the [TypeError] of a value without a [substring] method. *)
Definition maskAddress (walletAddress : JsValue) : option string :=
  match walletAddress with
  | JsString s => Some (substring s 0 (Some 8) ++ "..." ++ substring s (-6) None)
  | _ => None
  end.

Definition walletCreated500 : HttpResponse :=
  errorResponse 500
    [("error", JsString "Internal server error");
     ("message", JsString "Failed to process wallet creation")].

(** The handler from the log of the accepted request on: the identifier is an
    integer, and the log interpolates the identifier and the address as they
    came. *)
Definition registerWallet (env : Env) (reqBody : JsValue) (numericUserId : Z)
    (r0 : Run) : HttpResponse * Run :=
  let userId := prop "userId" reqBody in
  let walletAddress := prop "walletAddress" reqBody in
  let crossmintUserId := prop "crossmintUserId" reqBody in
  let email := prop "email" reqBody in
  let authToken := prop "authToken" reqBody in
  if negb (printable userId && printable walletAddress)
  then (walletCreated500, r0)    (* the log throws before anything is written *)
  else
    let walletData := mkWalletData crossmintUserId walletAddress authToken email in
    let r1 := onWorld (updateUserAuth numericUserId walletData) r0 in
    let r2 :=
      match getUserMemory (JsNumber numericUserId) (world r1) with
      | Some _ =>
          let '(t, r) := dateNow env r1 in
          onWorld (setWalletInfo (JsNumber numericUserId)
                     (mkWalletInfo walletAddress crossmintUserId email authToken
                        t true None None None None)) r
      | None => r1
      end in
    match maskAddress walletAddress with
    | None => (walletCreated500, r2)
    | Some shown =>
        let '(ok, r3) :=
          sendMessage env (JsNumber numericUserId) (WalletCreatedNotice shown) r2 in
        if ok then
          (mkResponse 200
             (JsObject
                [("success", JsBool true);
                 ("message", JsString "Wallet creation processed successfully");
                 ("userId", JsNumber numericUserId);
                 ("walletAddress", JsString shown)]),
           r3)
        else (walletCreated500, r3)
    end.

(** The refusal of an identifier that is no number; its log interpolates the
    identifier. *)
Definition invalidUserId (userId : JsValue) : HttpResponse :=
  if printable userId
  then errorResponse 400 [("error", JsString "Invalid userId format. Must be a number.")]
  else walletCreated500.

(** An identifier that converts to a double which is no integer (a fraction,
    an infinity) is not refused by the source, which goes on with that double
    as key and chat.  The stores and chats of this embedding are keyed by
    integers: such a run is outside of it, and stands here as the refusal. *)
Definition walletCreated (env : Env) (reqBody : JsValue) (r0 : Run)
    : HttpResponse * Run :=
  if nullish reqBody then (walletCreated500, r0)   (* destructuring throws *)
  else
    let userId := prop "userId" reqBody in
    let walletAddress := prop "walletAddress" reqBody in
    let crossmintUserId := prop "crossmintUserId" reqBody in
    if negb (truthy userId) || negb (truthy walletAddress)
       || negb (truthy crossmintUserId)
    then (errorResponse 400
            [("error", JsString
               "Missing required fields: userId, walletAddress, crossmintUserId")],
          r0)
    else
      match Number userId with
      | None => (walletCreated500, r0)          (* the conversion throws *)
      | Some converted =>
          if isNaN converted then (invalidUserId userId, r0)
          else
            match converted with
            | Whole numericUserId => registerWallet env reqBody numericUserId r0
            | _ => (invalidUserId userId, r0)   (* outside the embedding *)
            end
      end.

(** *** [POST /api/webhook/payment-completed] *)

(** [(memory as any).walletInfo.k = v], on the memory object of the user. *)
Definition updateWalletInfo (userId : JsValue) (f : WalletInfo -> WalletInfo)
    (w : World) : World :=
  match userId with
  | JsNumber n =>
      {| users := users w;
         memories := alter (fun m => {| walletInfo := f <$> walletInfo m;
                                        otherMemory := otherMemory m |}) n (memories w) |}
  | _ => w
  end.

Definition setTopUp (amount : JsValue) (t : Z) (i : WalletInfo) : WalletInfo :=
  mkWalletInfo (address i) (crossmintUserId i) (email i) (authToken i) (createdAt i)
    (isVerified i) (Some amount) (Some t) (lastVerifiedBalance i) (lastBalanceCheck i).

Definition setVerifiedBalance (balance : string) (t : Z) (i : WalletInfo) : WalletInfo :=
  mkWalletInfo (address i) (crossmintUserId i) (email i) (authToken i) (createdAt i)
    (isVerified i) (lastTopUpAmount i) (lastTopUpAt i) (Some balance) (Some t).

(** [balances.find(b => b.currency === 'USDC')?.amount || '0.00'] *)
Definition usdcBalanceOf (balances : list (string * string)) : string :=
  match List.find (fun b => String.eqb (fst b) "USDC") balances with
  | Some (_, amt) => if String.eqb amt "" then "0.00" else amt
  | None => "0.00"
  end.

(** [await telegramBot.sendMessage(chat, text)] for a text that a template
    literal builds from the values [interpolated]: the text is built before the
    call, so the [TypeError] of a value without a string leaves no attempt.
    [false] is an exception, of the template or of the transport. *)
Definition sendText (env : Env) (chat : JsValue) (interpolated : list JsValue)
    (n : Notification) (r : Run) : bool * Run :=
  if forallb printable interpolated then sendMessage env chat n r else (false, r).

(** The [catch (balanceError)] block: record the top-up and send the fallback
    notification.  [false] means that the block was left by an exception. *)
Definition balanceCatch (env : Env) (userId amount currency transactionId : JsValue)
    (r : Run) : bool * Run :=
  let '(t, r1) := dateNow env r in
  let r2 := onWorld (updateWalletInfo userId (setTopUp amount t)) r1 in
  sendText env userId [amount; currency; transactionId]
    (PaymentFallbackNotice amount currency transactionId) r2.

(** The inner [try] with its [catch]. *)
Definition verifyAndNotify (env : Env) (userId amount currency transactionId : JsValue)
    (r : Run) : bool * Run :=
  match balanceOf env userId with
  | BalanceData balances =>
      let usdcBalance := usdcBalanceOf balances in
      let '(t1, r1) := dateNow env r in
      let r2 := onWorld (updateWalletInfo userId (setTopUp amount t1)) r1 in
      let '(t2, r3) := dateNow env r2 in
      let r4 := onWorld (updateWalletInfo userId (setVerifiedBalance usdcBalance t2)) r3 in
      let '(ok, r5) :=
        sendText env userId [amount; currency; transactionId]
          (PaymentVerifiedNotice amount currency usdcBalance transactionId) r4 in
      if ok then (true, r5)
      else balanceCatch env userId amount currency transactionId r5
  | BalanceNull =>
      let '(t, r1) := dateNow env r in
      let r2 := onWorld (updateWalletInfo userId (setTopUp amount t)) r1 in
      let '(ok, r3) :=
        sendText env userId [amount; currency; transactionId]
          (PaymentFallbackNotice amount currency transactionId) r2 in
      if ok then (true, r3)
      else balanceCatch env userId amount currency transactionId r3
  | BalanceRejected => balanceCatch env userId amount currency transactionId r
  end.

(** [memory && (memory as any).walletInfo] *)
Definition hasWalletInfo (userId : JsValue) (w : World) : bool :=
  match getUserMemory userId w with
  | Some m => match walletInfo m with Some _ => true | None => false end
  | None => false
  end.

Definition paymentCompleted500 : HttpResponse :=
  errorResponse 500
    [("error", JsString "Internal server error");
     ("message", JsString "Failed to process payment")].

Definition paymentCompleted (env : Env) (reqBody : JsValue) (r0 : Run)
    : HttpResponse * Run :=
  if nullish reqBody then (paymentCompleted500, r0)   (* destructuring throws *)
  else
    let sessionId := prop "sessionId" reqBody in
    let amount := prop "amount" reqBody in
    let currency := prop "currency" reqBody in
    let transactionId := prop "transactionId" reqBody in
    let userId := prop "userId" reqBody in
    if negb (truthy sessionId) || negb (truthy amount) || negb (truthy transactionId)
    then (errorResponse 400
            [("error", JsString
               "Missing required fields: sessionId, amount, transactionId")],
          r0)
    else if negb (printable amount && printable (or_else userId (JsString "unknown")))
    then (paymentCompleted500, r0)   (* the log of the payment throws *)
    else
      let '(ok, r1) :=
        if truthy userId && hasWalletInfo userId (world r0)
        then verifyAndNotify env userId amount currency transactionId r0
        else (true, r0) in
      if ok then
        (mkResponse 200
           (JsObject
              [("success", JsBool true);
               ("message", JsString "Payment processed successfully");
               ("sessionId", sessionId);
               ("amount", amount);
               ("transactionId", transactionId)]),
         r1)
      else (paymentCompleted500, r1).

End Server.

(** ** The approval and delegation webhooks of [BotHttpServer] *)

Module Approvals.

Import Js Server.

(** The texts the two handlers send, as template and interpolated values. *)
Inductive Notice : Type :=
  | ApprovedNotice (usdcBalance : option string) (orderId transactionId : JsValue)
      (* "Payment Approved Successfully!"; with a balance, the line
         [Current Balance: ${parseFloat(usdcBalance).toFixed(2)} USDC] *)
  | ApprovedFallbackNotice (orderId transactionId : JsValue)
      (* "Payment Approved Successfully!", "Use /balance to check ..." *)
  | ApprovalFailedNotice          (* "Transaction Approval Failed" *)
  | DelegationEnabledNotice       (* "Fast Shopping Enabled!" *)
  | DelegationFailedNotice.       (* "Delegation Failed" *)

(** The state one run of these handlers threads: the stores, the messages
    Telegram accepted, and the numbers of clock readings and send attempts. *)
Record Trace : Type := mkTrace {
  stores : World;
  delivered : list (JsValue * Notice);
  clockReadings : nat;
  sendCount : nat
}.

Definition begin (w : World) : Trace := mkTrace w [] 0 0.

(** [await telegramBot.sendMessage(chat, text, options)]: [false] is a
    rejection. *)
Definition send (env : Env) (chat : JsValue) (n : Notice) (s : Trace) : bool * Trace :=
  if delivers env (sendCount s)
  then (true, mkTrace (stores s) (delivered s ++ [(chat, n)]) (clockReadings s)
                (S (sendCount s)))
  else (false, mkTrace (stores s) (delivered s) (clockReadings s) (S (sendCount s))).

(** The same for a text and options that template literals build from the
    values [interpolated]: they are built before the call, so the [TypeError]
    of a value without a string leaves no attempt. *)
Definition sendBuilt (env : Env) (chat : JsValue) (interpolated : list JsValue)
    (n : Notice) (s : Trace) : bool * Trace :=
  if forallb printable interpolated then send env chat n s else (false, s).

(** [v === text] *)
Definition is_text (text : string) (v : JsValue) : bool :=
  match v with
  | JsString s => String.eqb s text
  | _ => false
  end.

(** *** [POST /api/webhook/transaction-approved] *)

(** The two assignments to [memory.walletInfo], made when the memory of the
    user holds wallet info. *)
Definition recordBalance (env : Env) (userId : JsValue) (usdcBalance : string)
    (s : Trace) : Trace :=
  if hasWalletInfo userId (stores s)
  then mkTrace
         (updateWalletInfo userId
            (setVerifiedBalance usdcBalance (now env (clockReadings s))) (stores s))
         (delivered s) (S (clockReadings s)) (sendCount s)
  else s.

(** The inner [try] with its [catch], for [status === 'approved']. *)
Definition notifyApproved (env : Env) (userId orderId transactionId : JsValue)
    (s : Trace) : bool * Trace :=
  let fallback :=
    sendBuilt env userId [orderId; transactionId]
      (ApprovedFallbackNotice orderId transactionId) in
  match balanceOf env userId with
  | BalanceData balances =>
      let usdcBalance := usdcBalanceOf balances in
      let s1 := recordBalance env userId usdcBalance s in
      let '(ok, s2) :=
        sendBuilt env userId [orderId; transactionId]
          (ApprovedNotice (Some usdcBalance) orderId transactionId) s1 in
      if ok then (true, s2) else fallback s2
  | BalanceNull =>
      let '(ok, s1) :=
        sendBuilt env userId [orderId; transactionId]
          (ApprovedNotice None orderId transactionId) s in
      if ok then (true, s1) else fallback s1
  | BalanceRejected => fallback s
  end.

Definition transactionApproved500 : HttpResponse :=
  errorResponse 500
    [("error", JsString "Internal server error");
     ("message", JsString "Failed to process transaction approval")].

Definition transactionApproved (env : Env) (reqBody : JsValue) (s0 : Trace)
    : HttpResponse * Trace :=
  if nullish reqBody then (transactionApproved500, s0)   (* destructuring throws *)
  else
    let userId := prop "userId" reqBody in
    let transactionId := prop "transactionId" reqBody in
    let orderId := prop "orderId" reqBody in
    let status := prop "status" reqBody in
    if negb (truthy userId) || negb (truthy transactionId) || negb (truthy orderId)
       || negb (truthy status)
    then (errorResponse 400
            [("error", JsString
               "Missing required fields: userId, transactionId, orderId, status")],
          s0)
    else if negb (printable transactionId && printable userId && printable status)
    then (transactionApproved500, s0)   (* the log of the approval throws *)
    else
      let '(ok, s1) :=
        if is_text "approved" status
        then notifyApproved env userId orderId transactionId s0
        else send env userId ApprovalFailedNotice s0 in
      if ok then
        (mkResponse 200
           (JsObject
              [("success", JsBool true);
               ("message", JsString "Transaction approval processed successfully");
               ("userId", userId);
               ("transactionId", transactionId);
               ("orderId", orderId);
               ("status", status)]),
         s1)
      else (transactionApproved500, s1).

(** *** [POST /api/webhook/delegation-completed] *)

Definition delegationCompleted500 : HttpResponse :=
  errorResponse 500
    [("error", JsString "Internal server error");
     ("message", JsString "Failed to process delegation completion")].

Definition delegationCompleted (env : Env) (reqBody : JsValue) (s0 : Trace)
    : HttpResponse * Trace :=
  if nullish reqBody then (delegationCompleted500, s0)   (* destructuring throws *)
  else
    let userId := prop "userId" reqBody in
    let botSigner := prop "botSigner" reqBody in
    let status := prop "status" reqBody in
    if negb (truthy userId) || negb (truthy botSigner) || negb (truthy status)
    then (errorResponse 400
            [("error", JsString "Missing required fields: userId, botSigner, status")],
          s0)
    else
      let invalid :=
        if printable userId     (* the log of the refusal interpolates it *)
        then errorResponse 400
               [("error", JsString "Invalid userId format. Must be a number.")]
        else delegationCompleted500 in
      match Number userId with
      | None => (delegationCompleted500, s0)     (* the conversion throws *)
      | Some NaN | Some (Beyond _) =>
          (* [isNaN(numericUserId)]; a double that is no integer is not refused
             by the source, and is outside the embedding *)
          (invalid, s0)
      | Some (Whole numericUserId) =>
          if negb (printable userId && printable status)
          then (delegationCompleted500, s0)      (* the log of the event throws *)
          else
            let notice :=
              if is_text "success" status then DelegationEnabledNotice
              else DelegationFailedNotice in
            let '(ok, s1) := send env (JsNumber numericUserId) notice s0 in
            if ok then
              (mkResponse 200
                 (JsObject
                    [("success", JsBool true);
                     ("message", JsString "Delegation completion processed successfully");
                     ("userId", JsNumber numericUserId);
                     ("status", status)]),
               s1)
            else (delegationCompleted500, s1)
      end.

End Approvals.

(** ** The logout endpoint of [BotHttpServer] *)

Module Logout.

Import Js Server.

Section Handler.

(** [crossmintWalletService.clearUser] and [memoryUtils.clearUserMemory] are
    defined in modules that are not among the sources: the handler is taken
    over any behaviour of theirs on the stores.  [None] is an exception. *)
Variable clearUser : Z -> World -> option bool * World.
Variable clearUserMemory : Z -> World -> option unit * World.

Definition logout500 : HttpResponse :=
  errorResponse 500
    [("error", JsString "Internal server error");
     ("message", JsString "Failed to process logout")].

(** [POST /api/logout]; the test is [!userId || typeof userId !== 'number'].
    The log that follows interpolates [source], whose default ['web'] stands
    in for [undefined] only, and [timestamp || Date.now()]. *)
Definition logout (reqBody : JsValue) (w : World) : HttpResponse * World :=
  if nullish reqBody then (logout500, w)   (* destructuring throws *)
  else
    let source :=
      match prop "source" reqBody with
      | JsUndefined => JsString "web"
      | given => given
      end in
    let timestamp := prop "timestamp" reqBody in
    match prop "userId" reqBody with
    | JsNumber userId =>
        if (userId =? 0)%Z
        then (errorResponse 400 [("error", JsString "Missing or invalid userId")], w)
        else if negb (printable source
                      && (negb (truthy timestamp) || printable timestamp))
        then (logout500, w)   (* the log throws *)
        else
          match clearUser userId w with
          | (None, w1) => (logout500, w1)
          | (Some logoutSuccess, w1) =>
              match (if logoutSuccess then clearUserMemory userId w1
                     else (Some tt, w1)) with
              | (None, w2) => (logout500, w2)
              | (Some _, w2) =>
                  (mkResponse 200
                     (JsObject
                        [("success", JsBool true);
                         ("message", JsString "Logout processed successfully");
                         ("userId", JsNumber userId);
                         ("sessionCleared", JsBool logoutSuccess)]),
                   w2)
              end
          end
    | _ => (errorResponse 400 [("error", JsString "Missing or invalid userId")], w)
    end.

End Handler.

End Logout.

(** ** Sample data for the examples *)

Module Samples.

Import Js Checkout.

Definition money (amt cur : string) : JsValue :=
  JsObject [("amount", JsString amt); ("currency", JsString cur)].

Definition lineItemBody : JsValue :=
  JsObject
    [("chain", JsString "base-sepolia");
     ("quantity", JsNumber 1);
     ("quote", JsObject
        [("status", JsString "valid");
         ("charges", JsObject [("unit", money "19.99" "usdc")]);
         ("totalPrice", money "21.64" "usdc")]);
     ("delivery", JsObject
        [("status", JsString "awaiting-payment");
         ("recipient", JsObject
            [("locator", JsString "email:ada@example.com:base-sepolia");
             ("email", JsString "ada@example.com")])])].

(** A response body of [POST /orders] with the given payment status, quote
    status and payment preparation. *)
Definition orderBody (payStatus quoteSt : string) (prep : JsValue) : JsValue :=
  JsObject
    [("order", JsObject
        [("orderId", JsString "b2959ca5-65e4-466a-bd26-1bd05cb4f837");
         ("phase", JsString "payment");
         ("lineItems", JsArray [lineItemBody]);
         ("quote", JsObject
            [("status", JsString quoteSt); ("totalPrice", money "21.64" "usdc")]);
         ("payment", JsObject
            [("status", JsString payStatus);
             ("method", JsString "base-sepolia");
             ("currency", JsString "usdc");
             ("preparation", prep)])])].

Definition preparationWith (tx : string) : JsValue :=
  JsObject
    [("chain", JsString "base-sepolia");
     ("payerAddress", JsString "0x1234567890abcdef1234567890abcdef12345678");
     ("serializedTransaction", JsString tx)].

Definition product : AmazonProduct :=
  mkProduct "USB cable" "19.99" "https://www.amazon.com/dp/B01DFKC2SO" None None.

Definition usAddress : PhysicalAddress :=
  mkAddress "Ada Lovelace" "1 Main Street" None "Springfield" (Some "IL") "62701" "US".

Definition wallet : string := "0x1234567890abcdef1234567890abcdef12345678".

Definition request : CreateOrderRequest :=
  buildOrderRequest "amazon:B01DFKC2SO" "ada@example.com" wallet usAddress.

(** A provider that answers every request with the same outcome. *)
Definition always (outcome : HttpOutcome) : Provider := fun _ _ => outcome.

(** A provider that answers the requests of a call with the listed outcomes,
    in order, and rejects without a response once the list is used up. *)
Definition scripted (outcomes : list HttpOutcome) : Provider :=
  fun i _ => nth i outcomes (Rejected (mkAxiosError None "timeout of 30000ms exceeded")).

Definition badRequest (message : string) : HttpOutcome :=
  Rejected (mkAxiosError
    (Some (mkErrorResponse 400 "Bad Request" (JsObject [("message", JsString message)])))
    "Request failed with status code 400").

Definition goodBody : JsValue :=
  orderBody "awaiting-payment" "valid" (preparationWith "0xf86c0a8502540be400").

Definition unauthorized : AxiosError :=
  mkAxiosError
    (Some (mkErrorResponse 401 "Unauthorized"
             (JsObject [("message", JsString "Invalid API key")])))
    "Request failed with status code 401".

Definition variations : list string :=
  getProductLocatorVariations "B01DFKC2SO" "https://www.amazon.com/dp/B01DFKC2SO".

Definition searchPage : AmazonProduct :=
  mkProduct "USB cable" "19.99" "https://www.amazon.com/s?k=usb+cable" None None.

Definition canadianAddress : PhysicalAddress :=
  mkAddress "Ada Lovelace" "1 Main Street" None "Toronto" (Some "ON") "M5H 2N2" "CA".

Definition statelessAddress : PhysicalAddress :=
  mkAddress "Ada Lovelace" "1 Main Street" None "Springfield" None "62701" "US".

(** A wallet transaction that waits for two approvals. *)
Definition awaitingTransaction : JsValue :=
  JsObject
    [("id", JsString "tx-7f3a");
     ("status", JsString "awaiting-approval");
     ("approvals", JsObject
        [("pending", JsArray
            [JsObject [("signer", JsString "evm-passkey:ada");
                       ("message", JsString "0x5c1f")];
             JsObject [("signer", JsString "evm-keypair:0xbot");
                       ("message", JsString "0x77aa")]]);
         ("submitted", JsArray [])])].

End Samples.

(** ** Facts about the checkout service *)

Module CheckoutFacts.

Import Js Checkout.

(** *** Locators *)

(** C10: the bare [/dp/<ID>] URL: the extractor accepts it and gives
    [amazon:B01DFKC2SO], while [validateAmazonUrl] refuses it, so a locator can
    be extracted from a URL that pre-validation rejects. *)
Theorem extraction_does_not_imply_validation :
  exists url : string,
    url = "https://www.amazon.com/dp/B01DFKC2SO"
    /\ extractProductLocator url = Some "amazon:B01DFKC2SO"
    /\ validateAmazonUrl url = false.
Proof.
  exists "https://www.amazon.com/dp/B01DFKC2SO".
  repeat split; vm_compute; reflexivity.
Qed.

Lemma extract_of_asin (url asin : string) :
  match_group asinPattern url = Some asin ->
  extractProductLocator url = Some ("amazon:" ++ asin).
Proof. intros H. unfold extractProductLocator. now rewrite H. Qed.

(** *** Outcome classification *)

(** C1, as amended: a parsed order whose payment status is
    [crypto-payer-insufficient-funds] is classified as insufficient funds: the
    classification throws that error, [createWalletAmazonOrder] surfaces it
    wrapped in its own [Error], and no order with a serialized transaction is
    returned. *)
Theorem insufficient_funds_is_classified (validated : OrderResponse) :
  paymentStatus (orderPayment (order validated)) = "crypto-payer-insufficient-funds" ->
  classifyOrder validated = Throw (ThrownError "Insufficient USDC funds in wallet")
  /\ orderCatch (ThrownError "Insufficient USDC funds in wallet")
     = ThrownError
         "Unexpected error during order creation: Error: Insufficient USDC funds in wallet"
  /\ forall w : WalletOrder, classifyOrder validated <> Return w.
Proof.
  intros Hstatus.
  assert (Hc : classifyOrder validated
               = Throw (ThrownError "Insufficient USDC funds in wallet")).
  { unfold classifyOrder. rewrite Hstatus. reflexivity. }
  split; [exact Hc |]. split; [reflexivity |].
  intros w Hw. rewrite Hc in Hw. discriminate Hw.
Qed.

Lemma insufficient_funds_is_classified_witness :
  exists validated : OrderResponse,
    OrderResponseSchema
      (Samples.orderBody "crypto-payer-insufficient-funds" "valid"
         (Samples.preparationWith "0xf86c0a8502540be400"))
    = Some validated
    /\ classifyOrder validated = Throw (ThrownError "Insufficient USDC funds in wallet").
Proof.
  destruct (OrderResponseSchema
              (Samples.orderBody "crypto-payer-insufficient-funds" "valid"
                 (Samples.preparationWith "0xf86c0a8502540be400")))
    as [validated |] eqn:Hparse; [| vm_compute in Hparse; discriminate Hparse].
  exists validated. split; [reflexivity |].
  apply (insufficient_funds_is_classified validated).
  vm_compute in Hparse. injection Hparse as <-. reflexivity.
Defined.

(** C1, as stated, fails: for the payment status [insufficient-funds] the
    classification succeeds, and [createWalletAmazonOrder] hands the serialized
    transaction of the payment preparation to its caller. *)
Lemma insufficient_funds_literal_yields_transaction :
  exists validated : OrderResponse,
    OrderResponseSchema
      (Samples.orderBody "insufficient-funds" "valid"
         (Samples.preparationWith "0xf86c0a8502540be400"))
    = Some validated
    /\ paymentStatus (orderPayment (order validated)) = "insufficient-funds"
    /\ classifyOrder validated
       = Return (mkWalletOrder validated true "0xf86c0a8502540be400")
    /\ createWalletAmazonOrder
         (Samples.always
            (Resolved 201 "Created"
               (Samples.orderBody "insufficient-funds" "valid"
                  (Samples.preparationWith "0xf86c0a8502540be400"))))
         Samples.product "ada@example.com" Samples.wallet Samples.usAddress
       = (Return (mkWalletOrder validated true "0xf86c0a8502540be400"),
          [Samples.request]).
Proof.
  eexists. split; [vm_compute; reflexivity |].
  repeat split; vm_compute; reflexivity.
Qed.

(** A parsed order with neither error condition and a prepared transaction is
    returned with [requiresTransaction] set and that very transaction. *)
Theorem prepared_transaction_is_returned (validated : OrderResponse) (tx : string) :
  paymentStatus (orderPayment (order validated)) <> "crypto-payer-insufficient-funds" ->
  quoteStatus (quote (order validated)) <> "requires-physical-address" ->
  preparedTransaction (order validated) = Some tx ->
  tx <> "" ->
  classifyOrder validated = Return (mkWalletOrder validated true tx).
Proof.
  intros Hpay Hquote Hprep Htx. unfold classifyOrder.
  apply String.eqb_neq in Hpay, Hquote, Htx.
  now rewrite Hpay, Hquote, Hprep, Htx.
Qed.

Lemma prepared_transaction_is_returned_witness :
  exists validated : OrderResponse,
    OrderResponseSchema Samples.goodBody = Some validated
    /\ classifyOrder validated
       = Return (mkWalletOrder validated true "0xf86c0a8502540be400").
Proof.
  destruct (OrderResponseSchema Samples.goodBody) as [validated |] eqn:Hparse;
    [| vm_compute in Hparse; discriminate Hparse].
  exists validated. split; [reflexivity |].
  vm_compute in Hparse. injection Hparse as <-.
  apply prepared_transaction_is_returned; [discriminate | discriminate | reflexivity |
                                           discriminate].
Defined.

(** The locator formats to try: five of them, the [amazon:ASIN] form first,
    which is also the locator that [extractProductLocator] selects. *)
Theorem variations_start_with_selected_locator (asin amazonUrl : string) :
  List.length (getProductLocatorVariations asin amazonUrl) = 5%nat
  /\ head (getProductLocatorVariations asin amazonUrl) = Some ("amazon:" ++ asin)
  /\ (match_group asinPattern amazonUrl = Some asin ->
      extractProductLocator amazonUrl
      = head (getProductLocatorVariations asin amazonUrl)).
Proof.
  split; [reflexivity |]. split; [reflexivity |].
  intros H. now rewrite (extract_of_asin _ _ H).
Qed.

(** *** The retry loop *)

Section RetryLoop.

Variable post : Provider.
Variable orderRequest : CreateOrderRequest.

(** What an attempt ends the loop with, when it does: the parsed response of a
    success, or what the [catch] block throws. *)
Definition ending (outcome : HttpOutcome) : option (Completion OrderResponse) :=
  match outcome with
  | Resolved _ _ data => Return <$> OrderResponseSchema data
  | Rejected e => Throw <$> axiosCatch e
  end.

Lemma nth_error_singleton {A : Type} (x y : A) (j : nat) :
  nth_error [x] j = Some y -> j = 0%nat /\ y = x.
Proof.
  destruct j as [| j]; simpl.
  - intros [= <-]. split; reflexivity.
  - destruct j; discriminate.
Qed.

(** The requests that were issued are those of a prefix of the locators, and
    the attempt that ends the loop is the last one issued. *)
Lemma retryFrom_ending (locators : list string) :
  forall (i : nat) (lastError : Thrown) (j : nat) (rq : CreateOrderRequest)
         (c : Completion OrderResponse),
    nth_error (snd (retryFrom post orderRequest i locators lastError)) j = Some rq ->
    ending (post (i + j)%nat rq) = Some c ->
    retryFrom post orderRequest i locators lastError
    = (c, List.map (withLocator orderRequest) (firstn (S j) locators)).
Proof.
  induction locators as [| locator rest IH]; intros i lastError j rq c Hj Hend.
  - destruct j; discriminate Hj.
  - cbn [retryFrom] in Hj |- *.
    destruct (post i (withLocator orderRequest locator)) as [st stt data | e] eqn:Hpost.
    + destruct (OrderResponseSchema data) as [parsed |] eqn:Hparse.
      * apply nth_error_singleton in Hj as [-> ->].
        rewrite Nat.add_0_r, Hpost in Hend. cbn in Hend. rewrite Hparse in Hend.
        injection Hend as <-. destruct rest; reflexivity.
      * destruct (retryFrom post orderRequest (S i) rest ThrownZod) as [r issued] eqn:Hrest.
        destruct j as [| j]; cbn in Hj.
        -- injection Hj as <-. rewrite Nat.add_0_r, Hpost in Hend. cbn in Hend.
           rewrite Hparse in Hend. discriminate Hend.
        -- rewrite Nat.add_succ_r in Hend.
           specialize (IH (S i) ThrownZod j rq c).
           rewrite Hrest in IH. specialize (IH Hj Hend).
           injection IH as -> ->. reflexivity.
    + destruct (axiosCatch e) as [t |] eqn:Hcatch.
      * apply nth_error_singleton in Hj as [-> ->].
        rewrite Nat.add_0_r, Hpost in Hend. cbn in Hend. rewrite Hcatch in Hend.
        injection Hend as <-. destruct rest; reflexivity.
      * destruct (retryFrom post orderRequest (S i) rest (ThrownAxios e))
          as [r issued] eqn:Hrest.
        destruct j as [| j]; cbn in Hj.
        -- injection Hj as <-. rewrite Nat.add_0_r, Hpost in Hend. cbn in Hend.
           rewrite Hcatch in Hend. discriminate Hend.
        -- rewrite Nat.add_succ_r in Hend.
           specialize (IH (S i) (ThrownAxios e) j rq c).
           rewrite Hrest in IH. specialize (IH Hj Hend).
           injection IH as -> ->. reflexivity.
Qed.

(** The requests issued are always those of a prefix of the locators. *)
Lemma retryFrom_issued_prefix (locators : list string) :
  forall (i : nat) (lastError : Thrown),
    exists n : nat,
      snd (retryFrom post orderRequest i locators lastError)
      = List.map (withLocator orderRequest) (firstn n locators).
Proof.
  induction locators as [| locator rest IH]; intros i lastError.
  - exists 0%nat. reflexivity.
  - cbn [retryFrom].
    destruct (post i (withLocator orderRequest locator)) as [st stt data | e].
    + destruct (OrderResponseSchema data).
      * exists 1%nat. reflexivity.
      * destruct (IH (S i) ThrownZod) as [n Hn].
        destruct (retryFrom post orderRequest (S i) rest ThrownZod) as [r issued].
        exists (S n). cbn in Hn |- *. now rewrite Hn.
    + destruct (axiosCatch e).
      * exists 1%nat. reflexivity.
      * destruct (IH (S i) (ThrownAxios e)) as [n Hn].
        destruct (retryFrom post orderRequest (S i) rest (ThrownAxios e)) as [r issued].
        exists (S n). cbn in Hn |- *. now rewrite Hn.
Qed.

(** The error the [catch] of an attempt records as [lastError] when the
    attempt does not end the loop. *)
Definition recorded (outcome : HttpOutcome) : Thrown :=
  match outcome with
  | Resolved _ _ _ => ThrownZod
  | Rejected e => ThrownAxios e
  end.

(** An attempt that does not end the loop is followed by the request for the
    next locator; after the last locator the recorded error is thrown. *)
Lemma retryFrom_continuing (locators : list string) :
  forall (i : nat) (lastError : Thrown) (j : nat) (rq : CreateOrderRequest),
    nth_error (snd (retryFrom post orderRequest i locators lastError)) j = Some rq ->
    ending (post (i + j)%nat rq) = None ->
    match nth_error locators (S j) with
    | Some next =>
        nth_error (snd (retryFrom post orderRequest i locators lastError)) (S j)
        = Some (withLocator orderRequest next)
    | None =>
        retryFrom post orderRequest i locators lastError
        = (Throw (recorded (post (i + j)%nat rq)),
           List.map (withLocator orderRequest) locators)
    end.
Proof.
  induction locators as [| locator rest IH]; intros i lastError j rq Hj Hend.
  - destruct j; discriminate Hj.
  - cbn [retryFrom] in Hj |- *.
    destruct (post i (withLocator orderRequest locator)) as [st stt data | e] eqn:Hpost.
    + destruct (OrderResponseSchema data) as [parsed |] eqn:Hparse.
      * apply nth_error_singleton in Hj as [-> ->].
        rewrite Nat.add_0_r, Hpost in Hend. cbn in Hend. rewrite Hparse in Hend.
        discriminate Hend.
      * specialize (IH (S i) ThrownZod).
        destruct (retryFrom post orderRequest (S i) rest ThrownZod) as [r issued] eqn:Hrest.
        destruct j as [| j]; cbn in Hj.
        -- injection Hj as <-. rewrite Nat.add_0_r, Hpost. cbn [recorded nth_error snd].
           destruct rest as [| next rest'].
           ++ cbn in Hrest. injection Hrest as <- <-. reflexivity.
           ++ cbn [retryFrom] in Hrest.
              destruct (post (S i) (withLocator orderRequest next)) as [? ? data' | e'].
              ** destruct (OrderResponseSchema data').
                 --- injection Hrest as <- <-. reflexivity.
                 --- destruct (retryFrom post orderRequest (S (S i)) rest' ThrownZod).
                     injection Hrest as <- <-. reflexivity.
              ** destruct (axiosCatch e').
                 --- injection Hrest as <- <-. reflexivity.
                 --- destruct (retryFrom post orderRequest (S (S i)) rest' (ThrownAxios e')).
                     injection Hrest as <- <-. reflexivity.
        -- rewrite Nat.add_succ_r in Hend |- *.
           specialize (IH j rq Hj Hend). cbn [snd] in IH |- *.
           change (nth_error (locator :: rest) (S (S j))) with (nth_error rest (S j)).
           change (nth_error (withLocator orderRequest locator :: issued) (S (S j)))
             with (nth_error issued (S j)).
           destruct (nth_error rest (S j)); [exact IH |].
           injection IH as -> ->. reflexivity.
    + destruct (axiosCatch e) as [t |] eqn:Hcatch.
      * apply nth_error_singleton in Hj as [-> ->].
        rewrite Nat.add_0_r, Hpost in Hend. cbn in Hend. rewrite Hcatch in Hend.
        discriminate Hend.
      * specialize (IH (S i) (ThrownAxios e)).
        destruct (retryFrom post orderRequest (S i) rest (ThrownAxios e))
          as [r issued] eqn:Hrest.
        destruct j as [| j]; cbn in Hj.
        -- injection Hj as <-. rewrite Nat.add_0_r, Hpost. cbn [recorded nth_error snd].
           destruct rest as [| next rest'].
           ++ cbn in Hrest. injection Hrest as <- <-. reflexivity.
           ++ cbn [retryFrom] in Hrest.
              destruct (post (S i) (withLocator orderRequest next)) as [? ? data' | e'].
              ** destruct (OrderResponseSchema data').
                 --- injection Hrest as <- <-. reflexivity.
                 --- destruct (retryFrom post orderRequest (S (S i)) rest' ThrownZod).
                     injection Hrest as <- <-. reflexivity.
              ** destruct (axiosCatch e').
                 --- injection Hrest as <- <-. reflexivity.
                 --- destruct (retryFrom post orderRequest (S (S i)) rest' (ThrownAxios e')).
                     injection Hrest as <- <-. reflexivity.
        -- rewrite Nat.add_succ_r in Hend |- *.
           specialize (IH j rq Hj Hend). cbn [snd] in IH |- *.
           change (nth_error (locator :: rest) (S (S j))) with (nth_error rest (S j)).
           change (nth_error (withLocator orderRequest locator :: issued) (S (S j)))
             with (nth_error issued (S j)).
           destruct (nth_error rest (S j)); [exact IH |].
           injection IH as -> ->. reflexivity.
Qed.

(** An error outside the product-not-found class whose message is text (or
    missing) is thrown on by the [catch] of the attempt. *)
Lemma axiosCatch_rethrows (e : AxiosError) :
  productNotFound e = false -> textMessage e = true ->
  axiosCatch e = Some (ThrownAxios e).
Proof.
  unfold productNotFound, textMessage, axiosCatch.
  destruct (bool_decide (responseStatus e = Some 400));
    destruct (responseMessage e); cbn; try reflexivity; try discriminate.
  intros ->. reflexivity.
Qed.

(** The request for a locator is issued when none of the attempts before it
    ended the loop. *)
Lemma retryFrom_reaches (locators : list string) :
  forall (i : nat) (lastError : Thrown) (j : nat) (locator : string),
    nth_error locators j = Some locator ->
    (forall (k : nat) (earlier : string),
       (k < j)%nat -> nth_error locators k = Some earlier ->
       ending (post (i + k)%nat (withLocator orderRequest earlier)) = None) ->
    nth_error (snd (retryFrom post orderRequest i locators lastError)) j
    = Some (withLocator orderRequest locator).
Proof.
  induction locators as [| first rest IH]; intros i lastError j locator Hj Hbefore.
  - destruct j; discriminate Hj.
  - cbn [retryFrom]. destruct j as [| j].
    + injection Hj as <-.
      destruct (post i (withLocator orderRequest first)) as [? ? data | e].
      * destruct (OrderResponseSchema data); [reflexivity |].
        destruct (retryFrom post orderRequest (S i) rest ThrownZod). reflexivity.
      * destruct (axiosCatch e); [reflexivity |].
        destruct (retryFrom post orderRequest (S i) rest (ThrownAxios e)). reflexivity.
    + pose proof (Hbefore 0%nat first (Nat.lt_0_succ j) eq_refl) as Hfirst.
      rewrite Nat.add_0_r in Hfirst.
      assert (Hrest : forall lastError',
                nth_error (snd (retryFrom post orderRequest (S i) rest lastError')) j
                = Some (withLocator orderRequest locator)).
      { intros lastError'. apply IH; [exact Hj |].
        intros k earlier Hk Hearlier.
        replace (S i + k)%nat with (i + S k)%nat by lia.
        apply Hbefore; [lia | exact Hearlier]. }
      destruct (post i (withLocator orderRequest first)) as [? ? data | e];
        cbn in Hfirst.
      * destruct (OrderResponseSchema data); [discriminate Hfirst |].
        specialize (Hrest ThrownZod).
        destruct (retryFrom post orderRequest (S i) rest ThrownZod). exact Hrest.
      * destruct (axiosCatch e); [discriminate Hfirst |].
        specialize (Hrest (ThrownAxios e)).
        destruct (retryFrom post orderRequest (S i) rest (ThrownAxios e)). exact Hrest.
Qed.

(** An error of the product-not-found class lets the loop go on. *)
Lemma axiosCatch_product_not_found (e : AxiosError) :
  productNotFound e = true -> axiosCatch e = None.
Proof.
  unfold productNotFound, axiosCatch.
  destruct (bool_decide (responseStatus e = Some 400)); cbn; [| discriminate].
  destruct (responseMessage e); cbn; try discriminate.
  intros ->. reflexivity.
Qed.

(** When every request is rejected with an error of the product-not-found
    class, each locator gets its request and the error of the last one is
    thrown. *)
Lemma retryFrom_exhausted (locators : list string) :
  (forall (k : nat) (rq : CreateOrderRequest),
     exists e : AxiosError, post k rq = Rejected e /\ productNotFound e = true) ->
  forall (i : nat) (lastError : Thrown),
    retryFrom post orderRequest i locators lastError
    = (Throw
         match last locators with
         | Some final =>
             recorded (post (i + List.length locators - 1)%nat
                         (withLocator orderRequest final))
         | None => lastError
         end,
       List.map (withLocator orderRequest) locators).
Proof.
  intros Hall. induction locators as [| locator rest IH]; intros i lastError.
  - reflexivity.
  - cbn [retryFrom].
    destruct (Hall i (withLocator orderRequest locator)) as (e & Hpost & Hclass).
    rewrite Hpost, (axiosCatch_product_not_found e Hclass), (IH (S i) (ThrownAxios e)).
    destruct rest as [| next rest'].
    + cbn. replace (i + 1 - 1)%nat with i by lia. now rewrite Hpost.
    + assert (Hfinal : is_Some (last (next :: rest')))
        by (apply last_is_Some; discriminate).
      destruct Hfinal as [final Hfinal].
      change (last (locator :: next :: rest')) with (last (next :: rest')).
      rewrite Hfinal. cbn [List.length List.map].
      replace (S i + S (List.length rest') - 1)%nat
        with (i + S (S (List.length rest')) - 1)%nat by lia.
      reflexivity.
Qed.

End RetryLoop.

(** C3: when the [j]-th request that the loop issues gets a successful answer
    (the promise resolves and the body passes the schema), the loop returns that
    parsed response, and the requests issued are exactly those of the first
    [j + 1] locators: none is issued for the candidates that remain. *)
Theorem first_success_ends_submission
    (post : Provider) (orderRequest : CreateOrderRequest) (locators : list string)
    (j : nat) (rq : CreateOrderRequest) (status : Z) (statusText : string)
    (data : JsValue) (parsed : OrderResponse) :
  nth_error (snd (createOrderWithRetry post orderRequest locators)) j = Some rq ->
  post j rq = Resolved status statusText data ->
  OrderResponseSchema data = Some parsed ->
  createOrderWithRetry post orderRequest locators
  = (Return parsed, List.map (withLocator orderRequest) (firstn (S j) locators)).
Proof.
  intros Hj Hpost Hparse. unfold createOrderWithRetry in *.
  apply retryFrom_ending with (rq := rq); [exact Hj |].
  cbn. rewrite Hpost. cbn. now rewrite Hparse.
Qed.

(** C2, as amended: let the [j]-th request that the loop issues fail.  If it
    is rejected with an axios error that is not of the product-not-found class
    and whose message, if any, is text, the loop throws that very error at
    once, and the requests issued are exactly those of the first [j + 1]
    locators.  If instead it is answered with a body that violates the schema,
    the loop goes on: the request for the next locator is issued, and after the
    last locator the schema violation is what the loop throws. *)
Theorem retry_stops_on_axios_errors_only
    (post : Provider) (orderRequest : CreateOrderRequest) (locators : list string)
    (j : nat) (rq : CreateOrderRequest) :
  nth_error (snd (createOrderWithRetry post orderRequest locators)) j = Some rq ->
  (forall e : AxiosError,
     post j rq = Rejected e ->
     productNotFound e = false ->
     textMessage e = true ->
     createOrderWithRetry post orderRequest locators
     = (Throw (ThrownAxios e),
        List.map (withLocator orderRequest) (firstn (S j) locators)))
  /\ (forall (status : Z) (statusText : string) (data : JsValue),
        post j rq = Resolved status statusText data ->
        OrderResponseSchema data = None ->
        match nth_error locators (S j) with
        | Some next =>
            nth_error (snd (createOrderWithRetry post orderRequest locators)) (S j)
            = Some (withLocator orderRequest next)
        | None =>
            createOrderWithRetry post orderRequest locators
            = (Throw ThrownZod, List.map (withLocator orderRequest) locators)
        end).
Proof.
  intros Hj. unfold createOrderWithRetry in *. split.
  - intros e Hpost Hclass Htext.
    apply retryFrom_ending with (rq := rq); [exact Hj |].
    cbn. rewrite Hpost. cbn. now rewrite axiosCatch_rethrows.
  - intros status statusText data Hpost Hparse.
    pose proof (retryFrom_continuing post orderRequest locators 0 ThrownNull j rq Hj)
      as Hnext.
    cbn [Nat.add] in Hnext. rewrite Hpost in Hnext. cbn in Hnext.
    rewrite Hparse in Hnext. exact (Hnext eq_refl).
Qed.

(** When the provider rejects every request with an error of the
    product-not-found class, all the candidates are tried, one request each, and
    the error of the last attempt is thrown. *)
Theorem exhausted_candidates_throw_last_error
    (post : Provider) (orderRequest : CreateOrderRequest) (locators : list string)
    (final : string) :
  (forall (k : nat) (rq : CreateOrderRequest),
     exists e : AxiosError, post k rq = Rejected e /\ productNotFound e = true) ->
  last locators = Some final ->
  exists e : AxiosError,
    post (List.length locators - 1)%nat (withLocator orderRequest final) = Rejected e
    /\ createOrderWithRetry post orderRequest locators
       = (Throw (ThrownAxios e), List.map (withLocator orderRequest) locators).
Proof.
  intros Hall Hlast. unfold createOrderWithRetry.
  rewrite (retryFrom_exhausted post orderRequest locators Hall), Hlast.
  cbn [Nat.add].
  destruct (Hall (List.length locators - 1)%nat (withLocator orderRequest final))
    as (e & Hpost & _).
  exists e. now rewrite Hpost.
Qed.

Lemma exhausted_candidates_throw_last_error_witness :
  exists e : AxiosError,
    Samples.always (Samples.badRequest "Product not found") 4%nat
      (withLocator Samples.request "https://www.amazon.com/dp/B01DFKC2SO")
    = Rejected e
    /\ createOrderWithRetry (Samples.always (Samples.badRequest "Product not found"))
         Samples.request Samples.variations
       = (Throw (ThrownAxios e),
          List.map (withLocator Samples.request) Samples.variations).
Proof.
  apply (exhausted_candidates_throw_last_error
           (Samples.always (Samples.badRequest "Product not found"))
           Samples.request Samples.variations "https://www.amazon.com/dp/B01DFKC2SO").
  - intros k rq. eexists. split; reflexivity.
  - reflexivity.
Defined.

(** When each of the first [j] candidates is answered with an error of the
    product-not-found class or with a body that violates the schema, and the
    next candidate is answered with a valid body, the loop returns that parsed
    response after [j + 1] requests. *)
Theorem success_after_recoverable_failures
    (post : Provider) (orderRequest : CreateOrderRequest) (locators : list string)
    (j : nat) (locator : string) (status : Z) (statusText : string)
    (data : JsValue) (parsed : OrderResponse) :
  nth_error locators j = Some locator ->
  (forall (k : nat) (earlier : string),
     (k < j)%nat -> nth_error locators k = Some earlier ->
     exists t : Thrown,
       attemptError (post k (withLocator orderRequest earlier)) = Some t
       /\ (recoverable t = true \/ t = ThrownZod)) ->
  post j (withLocator orderRequest locator) = Resolved status statusText data ->
  OrderResponseSchema data = Some parsed ->
  createOrderWithRetry post orderRequest locators
  = (Return parsed, List.map (withLocator orderRequest) (firstn (S j) locators)).
Proof.
  intros Hj Hbefore Hpost Hparse. unfold createOrderWithRetry.
  apply retryFrom_ending with (rq := withLocator orderRequest locator);
    [| cbn; rewrite Hpost; cbn; now rewrite Hparse].
  apply retryFrom_reaches; [exact Hj |].
  intros k earlier Hk Hearlier. cbn [Nat.add].
  destruct (Hbefore k earlier Hk Hearlier) as (t & Herr & Hclass).
  unfold attemptError in Herr. unfold ending.
  destruct (post k (withLocator orderRequest earlier)) as [? ? data' | e].
  - destruct (OrderResponseSchema data'); [discriminate Herr | reflexivity].
  - injection Herr as <-. destruct Hclass as [Hclass | [=]].
    cbn in Hclass. now rewrite (axiosCatch_product_not_found e Hclass).
Qed.

Lemma success_after_recoverable_failures_witness :
  exists parsed : OrderResponse,
    createOrderWithRetry
      (Samples.scripted
         [Samples.badRequest "Product not found: amazon:B01DFKC2SO";
          Resolved 200 "OK" (JsObject []);
          Resolved 201 "Created" Samples.goodBody])
      Samples.request Samples.variations
    = (Return parsed,
       List.map (withLocator Samples.request) (firstn 3 Samples.variations)).
Proof.
  eexists.
  eapply (success_after_recoverable_failures _ _ _ 2%nat
            "amazon:https://www.amazon.com/dp/B01DFKC2SO" 201 "Created"
            Samples.goodBody).
  - reflexivity.
  - intros k earlier Hk Hearlier.
    destruct k as [| [| k]]; [| | lia]; injection Hearlier as <-.
    + eexists. split; [reflexivity | left; reflexivity].
    + eexists. split; [vm_compute; reflexivity | right; reflexivity].
  - reflexivity.
  - vm_compute. reflexivity.
Defined.

Lemma first_success_ends_submission_witness :
  exists parsed : OrderResponse,
    createOrderWithRetry
      (Samples.scripted
         [Samples.badRequest "Product not found: amazon:B01DFKC2SO";
          Resolved 201 "Created" Samples.goodBody])
      Samples.request Samples.variations
    = (Return parsed,
       List.map (withLocator Samples.request) (firstn 2 Samples.variations)).
Proof.
  eexists.
  eapply (first_success_ends_submission _ _ _ 1%nat _ 201 "Created" Samples.goodBody);
    vm_compute; reflexivity.
Defined.

Lemma retry_stops_on_axios_errors_only_witness :
  createOrderWithRetry
    (Samples.scripted
       [Samples.badRequest "Product not found: amazon:B01DFKC2SO";
        Rejected Samples.unauthorized])
    Samples.request Samples.variations
  = (Throw (ThrownAxios Samples.unauthorized),
     List.map (withLocator Samples.request) (firstn 2 Samples.variations)).
Proof.
  refine (proj1 (retry_stops_on_axios_errors_only
                   (Samples.scripted
                      [Samples.badRequest "Product not found: amazon:B01DFKC2SO";
                       Rejected Samples.unauthorized])
                   Samples.request Samples.variations 1%nat
                   (withLocator Samples.request
                      "amazon:https://www.amazon.com/dp/B01DFKC2SO") _)
                Samples.unauthorized _ _ _);
    vm_compute; reflexivity.
Defined.

(** C2, as stated, fails for a schema-violating body: the first attempt is
    answered [200] with the body [{}], which the schema refuses; that error is
    not of the product-not-found class, and still the loop issues the request
    for the second candidate and ends with its answer instead of the error. *)
Lemma schema_violation_does_not_stop_retry :
  let post :=
    Samples.scripted
      [Resolved 200 "OK" (JsObject []); Resolved 201 "Created" Samples.goodBody] in
  attemptError (post 0%nat (withLocator Samples.request "amazon:B01DFKC2SO"))
  = Some ThrownZod
  /\ recoverable ThrownZod = false
  /\ exists parsed : OrderResponse,
       createOrderWithRetry post Samples.request ["amazon:B01DFKC2SO"; "B01DFKC2SO"]
       = (Return parsed,
          [withLocator Samples.request "amazon:B01DFKC2SO";
           withLocator Samples.request "B01DFKC2SO"]).
Proof.
  cbv zeta. split; [vm_compute; reflexivity |]. split; [reflexivity |].
  eexists. vm_compute. reflexivity.
Qed.

(** A schema violation on every attempt: the loop goes through all the
    candidates and throws the last [ZodError]. *)
Example schema_violation_exhausts_candidates :
  createOrderWithRetry (Samples.always (Resolved 200 "OK" (JsObject [])))
    Samples.request Samples.variations
  = (Throw ThrownZod, List.map (withLocator Samples.request) Samples.variations).
Proof. vm_compute. reflexivity. Qed.

(** *** The address checks of [createWalletAmazonOrder] *)

(** C8, as amended: a call whose shipping address is outside the US, or in the
    US without a state, fails with an [Error] and no create-order request is
    issued, whatever the product.  When the product URL holds an ASIN the error
    is the address rejection (the country is checked before the state); when it
    holds none the error is the one of the locator extraction, which runs
    before the address checks. *)
Theorem bad_address_fails_before_any_request
    (post : Provider) (product : AmazonProduct) (userEmail walletAddress : string)
    (shippingAddress : PhysicalAddress) :
  country shippingAddress <> "US" \/ stateMissing shippingAddress = true ->
  let result :=
    createWalletAmazonOrder post product userEmail walletAddress shippingAddress in
  snd result = []
  /\ (forall asin : string,
        match_group asinPattern (amazonUrl product) = Some asin ->
        fst result
        = Throw (ThrownError
            ("Unexpected error during order creation: Error: " ++
             if String.eqb (country shippingAddress) "US"
             then "State is required for US shipping addresses"
             else "Only US shipping addresses are supported at this time")))
  /\ (match_group asinPattern (amazonUrl product) = None ->
      fst result
      = Throw (ThrownError
          "Unexpected error during order creation: Error: Could not extract product locator from Amazon URL")
      \/ fst result
         = Throw (ThrownError
             "Unexpected error during order creation: Error: Could not extract ASIN from Amazon URL")).
Proof.
  intros Hbad. cbv zeta.
  unfold createWalletAmazonOrder, createWalletAmazonOrder_try.
  destruct (match_group asinPattern (amazonUrl product)) as [asin |] eqn:Hasin.
  - rewrite (extract_of_asin _ _ Hasin).
    destruct (String.eqb (country shippingAddress) "US") eqn:Hcountry; cbn.
    + destruct Hbad as [Hne | Hstate].
      * apply String.eqb_eq in Hcountry. contradiction.
      * rewrite Hstate. cbn. split; [reflexivity |].
        split; [intros asin' _; reflexivity | intros [=]].
    + split; [reflexivity |]. split; [intros asin' _; reflexivity | intros [=]].
  - destruct (extractProductLocator (amazonUrl product)); cbn;
      (split; [reflexivity |]; split; [intros asin' [=] | intros _]);
      [right | left]; reflexivity.
Qed.

Lemma bad_address_fails_before_any_request_witness :
  createWalletAmazonOrder (Samples.always (Resolved 201 "Created" Samples.goodBody))
    Samples.product "ada@example.com" Samples.wallet Samples.statelessAddress
  = (Throw (ThrownError
       "Unexpected error during order creation: Error: State is required for US shipping addresses"),
     []).
Proof.
  pose proof (bad_address_fails_before_any_request
                (Samples.always (Resolved 201 "Created" Samples.goodBody))
                Samples.product "ada@example.com" Samples.wallet
                Samples.statelessAddress (or_intror eq_refl)) as H.
  cbv zeta in H. destruct H as [Hissued [Herror _]].
  specialize (Herror "B01DFKC2SO" eq_refl).
  destruct (createWalletAmazonOrder _ _ _ _ _) as [r issued].
  cbn in Hissued, Herror. subst. reflexivity.
Defined.

(** C8, as stated, fails when the product URL holds no ASIN: the address is
    Canadian, and the error is the one of the locator extraction, which runs
    first. *)
Lemma bad_address_with_bad_url_is_a_locator_error :
  country Samples.canadianAddress <> "US"
  /\ createWalletAmazonOrder (Samples.always (Resolved 201 "Created" Samples.goodBody))
       Samples.searchPage "ada@example.com" Samples.wallet Samples.canadianAddress
     = (Throw (ThrownError
          "Unexpected error during order creation: Error: Could not extract product locator from Amazon URL"),
        []).
Proof. split; [discriminate | vm_compute; reflexivity]. Qed.

(** *** Signing *)

(** A value without a string is an object or an array, hence truthy. *)
Lemma unprintable_is_truthy (v : JsValue) : printable v = false -> truthy v = true.
Proof. unfold printable. destruct v as [| | [|] | | | |]; cbn; congruence. Qed.

Lemma printable_or_else_text (v : JsValue) (text : string) :
  printable (or_else v (JsString text)) = printable v.
Proof.
  unfold or_else. destruct (truthy v) eqn:Htruthy; [reflexivity |].
  destruct (printable v) eqn:Hprintable; [reflexivity |].
  apply unprintable_is_truthy in Hprintable. congruence.
Qed.

Lemma failureWith_printable {A : Type} (failure : string -> A) (prefix : string)
    (v : JsValue) :
  printable v = true ->
  exists text : string, failureWith failure prefix v = Return (failure (prefix ++ text)).
Proof.
  unfold printable, failureWith. destruct (to_string v) as [text |]; [eauto | discriminate].
Qed.

Lemma failureWith_unprintable {A : Type} (failure : string -> A) (prefix : string)
    (v : JsValue) :
  printable v = false ->
  failureWith failure prefix v = Throw (ThrownTypeError cannot_convert).
Proof.
  unfold printable, failureWith. destruct (to_string v); [discriminate | reflexivity].
Qed.

(** The message of an error response, [error.response.data?.message]. *)
Definition messageOf (r : ErrorResponse) : JsValue := opt_prop "message" (errData r).



(** *** Pending approvals *)

Lemma is_string_true (lit : string) (v : JsValue) :
  is_string lit v = true <-> v = JsString lit.
Proof.
  destruct v; cbn; try (split; [discriminate | intros [=]]).
  rewrite String.eqb_eq. split; [intros -> | intros [=]]; congruence.
Qed.


Lemma detailsCatch_reports_no_approval (t : Thrown)
    (transaction message signer : JsValue) :
  detailsCatch t <> PendingApproval transaction message signer.
Proof.
  unfold detailsCatch. destruct (thrown_response t);
    match goal with |- context [to_string ?v] => destruct (to_string v) end;
    discriminate.
Qed.

Lemma detailsResolved_pending (data transaction message signer : JsValue) :
  detailsResolved data = Return (PendingApproval transaction message signer) ->
  transaction = data /\ prop "status" data = JsString "awaiting-approval".
Proof.
  unfold detailsResolved.
  destruct (read_prop "status" data) as [st | t] eqn:Hread; [| discriminate].
  assert (Hst : st = prop "status" data).
  { destruct data; cbn in Hread |- *; congruence. }
  destruct (is_string "awaiting-approval" st) eqn:His; cbn [andb].
  - apply is_string_true in His.
    destruct (if truthy (prop "approvals" data)
                 && truthy (prop "pending" (prop "approvals" data))
              then gt_zero (length_of (prop "pending" (prop "approvals" data)))
              else Some false) as [[|] |]; [| | discriminate].
    + destruct (read_prop "message" _); [| discriminate].
      destruct (printable _ && printable _); [| discriminate].
      intros [= <- _ _]. split; congruence.
    + destruct (to_string st); discriminate.
  - destruct (to_string st); discriminate.
Qed.




(** Whatever the provider answers, a pending approval is only ever reported
    for a body whose status is [awaiting-approval]. *)
Lemma pending_approval_only_when_awaiting
    (outcome : HttpOutcome) (walletAddress transactionId : string)
    (transaction message signer : JsValue) :
  getTransactionDetails outcome walletAddress transactionId
  = PendingApproval transaction message signer ->
  exists (status : Z) (statusText : string),
    outcome = Resolved status statusText transaction
    /\ prop "status" transaction = JsString "awaiting-approval".
Proof.
  unfold getTransactionDetails.
  destruct outcome as [status statusText data | e].
  - destruct (detailsResolved data) as [details | t] eqn:Hresolved.
    + intros ->. apply detailsResolved_pending in Hresolved as [-> Hstatus].
      exists status, statusText. split; [reflexivity | exact Hstatus].
    + intros H. destruct (detailsCatch_reports_no_approval _ _ _ _ H).
  - intros H. destruct (detailsCatch_reports_no_approval _ _ _ _ H).
Qed.

Lemma pending_approval_only_when_awaiting_witness :
  exists (status : Z) (statusText : string),
    Resolved 200 "OK" Samples.awaitingTransaction
    = Resolved status statusText Samples.awaitingTransaction
    /\ prop "status" Samples.awaitingTransaction = JsString "awaiting-approval".
Proof.
  apply (pending_approval_only_when_awaiting
           (Resolved 200 "OK" Samples.awaitingTransaction) Samples.wallet "tx-7f3a"
           Samples.awaitingTransaction (JsString "0x5c1f")
           (JsString "evm-passkey:ada")).
  reflexivity.
Defined.

(** *** Approvals *)

(** The promise of [approveTransaction] rejects in one case only: the request
    was rejected with a response whose message has no string, so that the
    template of the [catch] block throws.  In every other case it resolves to a
    result object, whose [success] is [true] exactly when the request resolved
    with status 201, and then the body of the answer is the transaction it
    returns; every other result carries an [error] text. *)
Theorem approval_succeeds_on_201_only
    (outcome : HttpOutcome) (walletAddress transactionId signerLocator : string)
    (signature : Signature) (metadata : AuthenticatorMetadata) :
  let result :=
    approveTransaction outcome walletAddress transactionId signerLocator
      signature metadata in
  ((exists t : Thrown, result = Throw t)
   <-> exists (e : AxiosError) (r : ErrorResponse),
         outcome = Rejected e /\ response e = Some r
         /\ printable (messageOf r) = false)
  /\ ((exists a : ApprovalResult, result = Return a /\ approvalSuccess a = true)
      <-> exists (statusText : string) (data : JsValue),
            outcome = Resolved 201 statusText data)
  /\ (forall a : ApprovalResult,
        result = Return a ->
        (approvalSuccess a = true ->
         approvalError a = None
         /\ exists (statusText : string) (data : JsValue),
              outcome = Resolved 201 statusText data /\ approvedTransaction a = data)
        /\ (approvalSuccess a = false ->
            exists message : string, approvalError a = Some message)).
Proof.
  cbv zeta. unfold approveTransaction.
  destruct outcome as [status statusText data | e].
  - destruct (status =? 201)%Z eqn:Hst.
    + apply Z.eqb_eq in Hst. subst status.
      split; [split; [intros [t [=]] | intros (? & ? & [=] & _)] |].
      split; [split; [eauto | intros _; eexists; split; reflexivity] |].
      intros a [= <-]. cbn. split; [eauto | discriminate].
    + apply Z.eqb_neq in Hst.
      split; [split; [intros [t [=]] | intros (? & ? & [=] & _)] |].
      split; [split; [intros (? & [= <-] & [=])
                     | intros (? & ? & [= -> _ _]); contradiction] |].
      intros a [= <-]. cbn. split; [discriminate | eauto].
  - unfold approvalCatch, thrown_response, thrown_message.
    destruct (response e) as [r |] eqn:Hresponse.
    + fold (messageOf r).
      destruct (printable (messageOf r)) eqn:Hmessage.
      * destruct (failureWith_printable approvalFailure "Approval submission failed: "
                    (or_else (messageOf r) (JsString (errStatusText r))))
          as [text ->]; [rewrite printable_or_else_text; exact Hmessage |].
        split; [split; [intros [t [=]]
                       | intros (e' & r' & [= <-] & Hr & Hbad); congruence] |].
        split; [split; [intros (? & [= <-] & [=]) | intros (? & ? & [=])] |].
        intros a [= <-]. split; [discriminate | eauto].
      * rewrite failureWith_unprintable
          by (rewrite printable_or_else_text; exact Hmessage).
        split; [split; [intros _; exists e, r; auto | eauto] |].
        split; [split; [intros (? & [=] & _) | intros (? & ? & [=])] |].
        intros a [=].
    + cbn.
      split; [split; [intros [t [=]] | intros (e' & r' & [= <-] & Hr & _); congruence] |].
      split; [split; [intros (? & [= <-] & [=]) | intros (? & ? & [=])] |].
      intros a [= <-]. split; [discriminate | eauto].
Qed.

End CheckoutFacts.

(** ** Facts about the webhook server *)

Module ServerSamples.

Import Js Server.

(** Telegram accepts every message; the clock reads a fixed time. *)
Definition calm (t : Z) : Env :=
  mkEnv (fun _ => t) (fun _ => true) (fun _ => BalanceNull).

(** Telegram refuses every message and the balance service rejects. *)
Definition stormy (t : Z) : Env :=
  mkEnv (fun _ => t) (fun _ => false) (fun _ => BalanceRejected).

Definition walletCreatedBody : JsValue :=
  JsObject
    [("userId", JsNumber 42);
     ("walletAddress", JsString "0x1234567890abcdef1234567890abcdef12345678");
     ("crossmintUserId", JsString "cm-user-42");
     ("email", JsString "ada@example.com")].

Definition paymentCompletedBody : JsValue :=
  JsObject
    [("sessionId", JsString "cs_test_a1b2");
     ("amount", JsNumber 25);
     ("currency", JsString "USD");
     ("transactionId", JsString "pay-9001");
     ("userId", JsNumber 42)].

(** No user is known. *)
Definition emptyWorld : World := mkWorld ∅ ∅.

(** User 42 has a memory object, without wallet info yet. *)
Definition freshUser : World :=
  mkWorld ∅ {[ 42 := mkUserMemory None JsNull ]}.

(** User 42 after a wallet was created at time [t]. *)
Definition walletUser (t : Z) : World :=
  world (snd (walletCreated (calm t) walletCreatedBody (start freshUser))).

End ServerSamples.

Module ServerFacts.

Import Js Server.

(** *** Masking of the wallet address *)

Lemma substring_all (s : string) : String.substring 0 (String.length s) s = s.
Proof. induction s as [| c s IH]; cbn; [reflexivity | now rewrite IH]. Qed.

(** [substring] with a negative start and no end is the whole string. *)
Lemma substring_negative_start (s : string) (n : Z) :
  n <= 0 -> substring s n None = s.
Proof.
  intros Hn. unfold substring, clamp.
  replace (Z.min (Z.max n 0) (Z.of_nat (String.length s))) with 0 by lia.
  rewrite Nat2Z.id. cbn [Z.to_nat Nat.min Nat.max].
  rewrite Nat.sub_0_r. apply substring_all.
Qed.

(** The address that the handler shows ends with the whole address. *)
Lemma maskAddress_keeps_whole_address (s : string) :
  maskAddress (JsString s) = Some (substring s 0 (Some 8) ++ "..." ++ s).
Proof.
  unfold maskAddress. now rewrite substring_negative_start by lia.
Qed.

(** The user the handler accepts the request for: the fields are there, the
    identifier converts to an integer, and the identifier and the address have
    a string, so that the log of the request does not throw. *)
Definition acceptedUser (reqBody : JsValue) : option Z :=
  if nullish reqBody then None
  else if negb (truthy (prop "userId" reqBody))
          || negb (truthy (prop "walletAddress" reqBody))
          || negb (truthy (prop "crossmintUserId" reqBody))
  then None
  else
    match Number (prop "userId" reqBody) with
    | Some (Whole numericUserId) =>
        if printable (prop "userId" reqBody) && printable (prop "walletAddress" reqBody)
        then Some numericUserId
        else None
    | _ => None
    end.

(** The run once the stores are written, before the notification. *)
Definition stored (env : Env) (reqBody : JsValue) (numericUserId : Z) (r : Run) : Run :=
  let r1 :=
    onWorld (updateUserAuth numericUserId
               (mkWalletData (prop "crossmintUserId" reqBody)
                  (prop "walletAddress" reqBody) (prop "authToken" reqBody)
                  (prop "email" reqBody))) r in
  match getUserMemory (JsNumber numericUserId) (world r1) with
  | Some _ =>
      let '(t, r2) := dateNow env r1 in
      onWorld (setWalletInfo (JsNumber numericUserId)
                 (mkWalletInfo (prop "walletAddress" reqBody)
                    (prop "crossmintUserId" reqBody) (prop "email" reqBody)
                    (prop "authToken" reqBody) t true None None None None)) r2
  | None => r1
  end.

Lemma stored_outbox (env : Env) (reqBody : JsValue) (numericUserId : Z) (r : Run) :
  outbox (stored env reqBody numericUserId r) = outbox r
  /\ sendAttempts (stored env reqBody numericUserId r) = sendAttempts r.
Proof. unfold stored. destruct (getUserMemory _ _); split; reflexivity. Qed.

(** A request that is not accepted is refused with [400] or [500], and the
    run is as it was. *)
Lemma walletCreated_refused (env : Env) (reqBody : JsValue) (r : Run) :
  acceptedUser reqBody = None ->
  snd (walletCreated env reqBody r) = r
  /\ (statusCode (fst (walletCreated env reqBody r)) = 400
      \/ statusCode (fst (walletCreated env reqBody r)) = 500).
Proof.
  assert (Hrefusal : forall resp : HttpResponse,
            statusCode resp = 400 \/ statusCode resp = 500 ->
            snd (resp, r) = r
            /\ (statusCode (fst (resp, r)) = 400 \/ statusCode (fst (resp, r)) = 500))
    by (intros resp Hcode; split; [reflexivity | exact Hcode]).
  unfold acceptedUser, walletCreated, invalidUserId, registerWallet.
  destruct (nullish reqBody); [intros _; apply Hrefusal; now right |].
  destruct (negb (truthy (prop "userId" reqBody))
            || negb (truthy (prop "walletAddress" reqBody))
            || negb (truthy (prop "crossmintUserId" reqBody)));
    [intros _; apply Hrefusal; now left |].
  destruct (Number (prop "userId" reqBody)) as [[| numericUserId | positive] |].
  - intros _. apply Hrefusal.
    destruct (printable (prop "userId" reqBody)); [now left | now right].
  - destruct (printable (prop "userId" reqBody)
              && printable (prop "walletAddress" reqBody)); [discriminate |].
    intros _. apply Hrefusal. now right.
  - intros _. apply Hrefusal.
    destruct (printable (prop "userId" reqBody)); [now left | now right].
  - intros _. apply Hrefusal. now right.
Qed.

(** An accepted request is stored, and then notified if the address can be
    shown. *)
Lemma walletCreated_accepted (env : Env) (reqBody : JsValue) (r : Run)
    (numericUserId : Z) :
  acceptedUser reqBody = Some numericUserId ->
  Number (prop "userId" reqBody) = Some (Whole numericUserId)
  /\ walletCreated env reqBody r
     = match maskAddress (prop "walletAddress" reqBody) with
       | None => (walletCreated500, stored env reqBody numericUserId r)
       | Some shown =>
           let '(ok, r3) :=
             sendMessage env (JsNumber numericUserId) (WalletCreatedNotice shown)
               (stored env reqBody numericUserId r) in
           if ok then
             (mkResponse 200
                (JsObject
                   [("success", JsBool true);
                    ("message", JsString "Wallet creation processed successfully");
                    ("userId", JsNumber numericUserId);
                    ("walletAddress", JsString shown)]),
              r3)
           else (walletCreated500, r3)
       end.
Proof.
  unfold acceptedUser, walletCreated, registerWallet.
  destruct (nullish reqBody); [discriminate |].
  destruct (negb (truthy (prop "userId" reqBody))
            || negb (truthy (prop "walletAddress" reqBody))
            || negb (truthy (prop "crossmintUserId" reqBody))); [discriminate |].
  destruct (Number (prop "userId" reqBody)) as [[| n | positive] |]; try discriminate.
  destruct (printable (prop "userId" reqBody) && printable (prop "walletAddress" reqBody));
    [| discriminate].
  intros [= ->]. split; reflexivity.
Qed.

(** A [200] answer of the wallet-created handler shows, in its [walletAddress]
    field and in the notification it sent, the first eight characters, three
    dots, and then the whole address. *)
Lemma walletCreated_shows_whole_address
    (env : Env) (reqBody : JsValue) (r : Run) (resp : HttpResponse) (r' : Run) :
  walletCreated env reqBody r = (resp, r') ->
  statusCode resp = 200 ->
  exists (s : string) (numericUserId : Z),
    prop "walletAddress" reqBody = JsString s
    /\ prop "walletAddress" (body resp)
       = JsString (substring s 0 (Some 8) ++ "..." ++ s)
    /\ outbox r'
       = (outbox r ++ [(JsNumber numericUserId,
                        WalletCreatedNotice (substring s 0 (Some 8) ++ "..." ++ s))])%list.
Proof.
  intros Hrun Hstatus.
  destruct (acceptedUser reqBody) as [numericUserId |] eqn:Haccepted.
  - destruct (walletCreated_accepted env reqBody r _ Haccepted) as [_ Heq].
    rewrite Heq in Hrun.
    destruct (prop "walletAddress" reqBody) as [| | | | s | |] eqn:Haddr;
      try (cbn [maskAddress] in Hrun; injection Hrun as <- <-; discriminate Hstatus).
    rewrite maskAddress_keeps_whole_address in Hrun.
    destruct (stored_outbox env reqBody numericUserId r) as [Hout _].
    unfold sendMessage in Hrun.
    destruct (delivers env _); injection Hrun as <- <-; [| discriminate Hstatus].
    exists s, numericUserId. split; [reflexivity |]. split; [reflexivity |].
    cbn [outbox]. rewrite Hout. reflexivity.
  - destruct (walletCreated_refused env reqBody r Haccepted) as [_ Hcode].
    rewrite Hrun in Hcode. cbn [fst] in Hcode.
    destruct Hcode as [Hcode | Hcode]; rewrite Hcode in Hstatus; discriminate Hstatus.
Qed.

(** C4, at the failing input: the handler accepts the request and answers
    [200], and the [walletAddress] field of the answer is the eight-character
    prefix, three dots, and the whole address after them. *)
Theorem wallet_created_response_shows_whole_address :
  fst (walletCreated (ServerSamples.calm 1700000000000)
         ServerSamples.walletCreatedBody (start ServerSamples.freshUser))
  = mkResponse 200
      (JsObject
         [("success", JsBool true);
          ("message", JsString "Wallet creation processed successfully");
          ("userId", JsNumber 42);
          ("walletAddress",
           JsString "0x123456...0x1234567890abcdef1234567890abcdef12345678")]).
Proof. vm_compute. reflexivity. Qed.

(** A request that the wallet-created handler refuses with [400] leaves the
    stores, the outbox and the counters as they were: the fields are validated
    before anything is written or sent. *)
Theorem wallet_created_refusal_writes_nothing
    (env : Env) (reqBody : JsValue) (r : Run) (resp : HttpResponse) (r' : Run) :
  walletCreated env reqBody r = (resp, r') ->
  statusCode resp = 400 ->
  r' = r.
Proof.
  intros Hrun Hstatus.
  destruct (acceptedUser reqBody) as [numericUserId |] eqn:Haccepted.
  - destruct (walletCreated_accepted env reqBody r _ Haccepted) as [_ Heq].
    rewrite Heq in Hrun.
    destruct (maskAddress (prop "walletAddress" reqBody));
      [| injection Hrun as <- <-; discriminate Hstatus].
    unfold sendMessage in Hrun.
    destruct (delivers env _); injection Hrun as <- <-; discriminate Hstatus.
  - destruct (walletCreated_refused env reqBody r Haccepted) as [Hsame _].
    rewrite Hrun in Hsame. exact Hsame.
Qed.

Lemma wallet_created_refusal_writes_nothing_witness :
  snd (walletCreated (ServerSamples.calm 1000)
         (JsObject [("userId", JsString "forty-two");
                    ("walletAddress", JsString "0x1234567890abcdef");
                    ("crossmintUserId", JsString "cm-user-42")])
         (start ServerSamples.freshUser))
  = start ServerSamples.freshUser.
Proof.
  apply (wallet_created_refusal_writes_nothing (ServerSamples.calm 1000)
           (JsObject [("userId", JsString "forty-two");
                      ("walletAddress", JsString "0x1234567890abcdef");
                      ("crossmintUserId", JsString "cm-user-42")])
           (start ServerSamples.freshUser)
           (errorResponse 400
              [("error", JsString "Invalid userId format. Must be a number.")])).
  - reflexivity.
  - reflexivity.
Defined.

(** *** Repeated delivery of a wallet-created event *)

(** The stores after the wallet-created handler ran on [w]. *)
Definition afterWalletCreated (env : Env) (reqBody : JsValue) (w : World) : World :=
  world (snd (walletCreated env reqBody (start w))).

(** What an accepted request writes, at clock reading [t]. *)
Definition written (t : Z) (reqBody : JsValue) (numericUserId : Z) (w : World) : World :=
  let walletData :=
    mkWalletData (prop "crossmintUserId" reqBody) (prop "walletAddress" reqBody)
      (prop "authToken" reqBody) (prop "email" reqBody) in
  let info :=
    mkWalletInfo (prop "walletAddress" reqBody) (prop "crossmintUserId" reqBody)
      (prop "email" reqBody) (prop "authToken" reqBody) t true None None None None in
  {| users := <[numericUserId := walletData]> (users w);
     memories := alter (fun m => {| walletInfo := Some info;
                                    otherMemory := otherMemory m |})
                   numericUserId (memories w) |}.

(** The stores depend on the request and on the first clock reading only: not
    on whether the address could be shown or Telegram took the message. *)
Lemma afterWalletCreated_written (env : Env) (reqBody : JsValue) (w : World) :
  afterWalletCreated env reqBody w
  = match acceptedUser reqBody with
    | Some numericUserId => written (now env 0%nat) reqBody numericUserId w
    | None => w
    end.
Proof.
  unfold afterWalletCreated.
  destruct (acceptedUser reqBody) as [numericUserId |] eqn:Haccepted.
  - destruct (walletCreated_accepted env reqBody (start w) _ Haccepted) as [_ ->].
    assert (Hworld :
      world (stored env reqBody numericUserId (start w))
      = written (now env 0%nat) reqBody numericUserId w).
    { unfold stored, written. cbn.
      destruct (memories w !! numericUserId) eqn:Hmem; cbn; [reflexivity |].
      unfold updateUserAuth. f_equal. symmetry. now apply alter_id'. }
    destruct (maskAddress (prop "walletAddress" reqBody)); [| exact Hworld].
    unfold sendMessage. destruct (delivers env _); exact Hworld.
  - destruct (walletCreated_refused env reqBody (start w) Haccepted) as [-> _].
    reflexivity.
Qed.

(** Writing the same request twice leaves what the second writing leaves. *)
Lemma written_twice (t1 t2 : Z) (reqBody : JsValue) (numericUserId : Z) (w : World) :
  written t2 reqBody numericUserId (written t1 reqBody numericUserId w)
  = written t2 reqBody numericUserId w.
Proof.
  unfold written. cbn. f_equal.
  - apply insert_insert_eq.
  - rewrite alter_alter_eq. apply alter_ext. reflexivity.
Qed.

(** C7, as amended: a second delivery of the same wallet-created event leaves
    the stores (auth records and user memories) as a single delivery made at
    the time of the second one leaves them; they are the stores the first
    delivery left whenever both deliveries read the same clock value. *)
Theorem wallet_created_last_delivery_wins
    (env1 env2 : Env) (reqBody : JsValue) (w : World) :
  afterWalletCreated env2 reqBody (afterWalletCreated env1 reqBody w)
  = afterWalletCreated env2 reqBody w
  /\ (now env1 0%nat = now env2 0%nat ->
      afterWalletCreated env2 reqBody (afterWalletCreated env1 reqBody w)
      = afterWalletCreated env1 reqBody w).
Proof.
  assert (Habsorb :
    afterWalletCreated env2 reqBody (afterWalletCreated env1 reqBody w)
    = afterWalletCreated env2 reqBody w).
  { rewrite !afterWalletCreated_written.
    destruct (acceptedUser reqBody); [apply written_twice | reflexivity]. }
  split; [exact Habsorb |].
  intros Hclock. rewrite Habsorb, !afterWalletCreated_written, Hclock. reflexivity.
Qed.

(** C7, as stated, fails: user 42 has a memory object; the event is delivered
    at clock reading [1000] and again at [2000]; the wallet info in memory then
    carries [createdAt = 2000], not the [1000] of the single delivery. *)
Lemma wallet_created_twice_differs_from_once :
  let once :=
    afterWalletCreated (ServerSamples.calm 1000) ServerSamples.walletCreatedBody
      ServerSamples.freshUser in
  let twice :=
    afterWalletCreated (ServerSamples.calm 2000) ServerSamples.walletCreatedBody once in
  (createdAt <$> (memories once !! 42 ≫= walletInfo)) = Some 1000
  /\ (createdAt <$> (memories twice !! 42 ≫= walletInfo)) = Some 2000
  /\ twice <> once.
Proof.
  cbv zeta.
  assert (H1 : createdAt <$>
                 (memories (afterWalletCreated (ServerSamples.calm 1000)
                              ServerSamples.walletCreatedBody ServerSamples.freshUser)
                    !! 42 ≫= walletInfo) = Some 1000)
    by (vm_compute; reflexivity).
  assert (H2 : createdAt <$>
                 (memories (afterWalletCreated (ServerSamples.calm 2000)
                              ServerSamples.walletCreatedBody
                              (afterWalletCreated (ServerSamples.calm 1000)
                                 ServerSamples.walletCreatedBody ServerSamples.freshUser))
                    !! 42 ≫= walletInfo) = Some 2000)
    by (vm_compute; reflexivity).
  split; [exact H1 |]. split; [exact H2 |].
  intros Heq. rewrite Heq, H1 in H2. discriminate H2.
Qed.

(** *** Payment completed, balance not resolvable *)

(** The identifier of a user with wallet info in memory is a number. *)
Lemma hasWalletInfo_number (userId : JsValue) (w : World) :
  hasWalletInfo userId w = true -> exists n : Z, userId = JsNumber n.
Proof.
  unfold hasWalletInfo, getUserMemory. destruct userId; try discriminate. eauto.
Qed.

(** C5, as amended: the request has its required fields, names a user whose
    memory holds wallet info, its amount, currency and transaction identifier
    have a string, and the balance lookup comes back with nothing or is
    rejected.  Then the only notification the handler tries to send is the
    fallback one: once after a rejected lookup, and up to twice after a lookup
    that came back with nothing (the rejection of the first attempt is caught
    like a failed lookup).  When Telegram accepts one of these attempts the
    handler answers [200] with [success: true] and exactly the fallback
    notification was delivered; when it accepts none, the handler answers
    [500] and nothing was delivered. *)
Theorem payment_completed_fallback
    (env : Env) (reqBody : JsValue) (w : World) :
  nullish reqBody = false ->
  truthy (prop "sessionId" reqBody) = true ->
  truthy (prop "amount" reqBody) = true ->
  truthy (prop "transactionId" reqBody) = true ->
  truthy (prop "userId" reqBody) = true ->
  hasWalletInfo (prop "userId" reqBody) w = true ->
  printable (prop "amount" reqBody) = true ->
  printable (prop "currency" reqBody) = true ->
  printable (prop "transactionId" reqBody) = true ->
  balanceOf env (prop "userId" reqBody) = BalanceNull
  \/ balanceOf env (prop "userId" reqBody) = BalanceRejected ->
  let result := paymentCompleted env reqBody (start w) in
  let accepted :=
    delivers env 0%nat
    || match balanceOf env (prop "userId" reqBody) with
       | BalanceNull => delivers env 1%nat
       | _ => false
       end in
  (accepted = true ->
   statusCode (fst result) = 200
   /\ prop "success" (body (fst result)) = JsBool true
   /\ outbox (snd result)
      = [(prop "userId" reqBody,
          PaymentFallbackNotice (prop "amount" reqBody) (prop "currency" reqBody)
            (prop "transactionId" reqBody))])
  /\ (accepted = false ->
      statusCode (fst result) = 500 /\ outbox (snd result) = []).
Proof.
  intros Hbody Hsession Hamount Htx Huser Hinfo Hpamount Hpcurrency Hptx Hbalance.
  cbv zeta. unfold paymentCompleted.
  rewrite Hbody, Hsession, Hamount, Htx, Huser. cbn [negb orb andb start world].
  assert (Hpuser : printable (or_else (prop "userId" reqBody) (JsString "unknown"))
                   = true).
  { unfold or_else. rewrite Huser.
    destruct (hasWalletInfo_number _ _ Hinfo) as [n ->]. reflexivity. }
  rewrite Hpamount, Hpuser, Hinfo. cbn [andb negb].
  unfold verifyAndNotify, balanceCatch, sendText.
  cbn [forallb]. rewrite Hpamount, Hpcurrency, Hptx. cbn [andb].
  unfold sendMessage, dateNow.
  destruct Hbalance as [-> | ->]; cbn;
    destruct (delivers env 0%nat); cbn; try destruct (delivers env 1%nat); cbn;
    (split; [first [discriminate | intros _; repeat split; reflexivity]
            | first [discriminate | intros _; split; reflexivity]]).
Qed.

Lemma payment_completed_fallback_witness :
  statusCode
    (fst (paymentCompleted (ServerSamples.calm 2000) ServerSamples.paymentCompletedBody
            (start (ServerSamples.walletUser 1000))))
  = 200
  /\ outbox
       (snd (paymentCompleted (ServerSamples.calm 2000)
               ServerSamples.paymentCompletedBody
               (start (ServerSamples.walletUser 1000))))
     = [(JsNumber 42,
         PaymentFallbackNotice (JsNumber 25) (JsString "USD") (JsString "pay-9001"))].
Proof.
  pose proof (payment_completed_fallback (ServerSamples.calm 2000)
                ServerSamples.paymentCompletedBody (ServerSamples.walletUser 1000)
                eq_refl eq_refl eq_refl eq_refl eq_refl
                (eq_refl : hasWalletInfo (JsNumber 42) (ServerSamples.walletUser 1000)
                           = true)
                eq_refl eq_refl eq_refl
                (or_introl eq_refl)) as H.
  cbv zeta in H. destruct H as [H _].
  destruct (H eq_refl) as (Hstatus & _ & Hout).
  split; [exact Hstatus | exact Hout].
Defined.

(** C5, as stated, fails: user 42 has wallet info, the request is complete,
    the balance lookup is rejected, and Telegram rejects the fallback
    notification; the handler answers [500] and nothing was delivered. *)
Lemma payment_completed_answers_500_when_telegram_rejects :
  hasWalletInfo (JsNumber 42) (ServerSamples.walletUser 1000) = true
  /\ balanceOf (ServerSamples.stormy 2000) (JsNumber 42) = BalanceRejected
  /\ paymentCompleted (ServerSamples.stormy 2000) ServerSamples.paymentCompletedBody
       (start (ServerSamples.walletUser 1000))
     = (paymentCompleted500,
        mkRun
          (updateWalletInfo (JsNumber 42) (setTopUp (JsNumber 25) 2000)
             (ServerSamples.walletUser 1000))
          [] 1 1).
Proof.
  split; [vm_compute; reflexivity |]. split; [reflexivity |].
  unfold paymentCompleted.
  cbn [nullish ServerSamples.paymentCompletedBody prop assoc String.eqb Ascii.eqb
       Bool.eqb truthy negb orb andb Z.eqb start world].
  replace (hasWalletInfo (JsNumber 42) (ServerSamples.walletUser 1000)) with true
    by (vm_compute; reflexivity).
  reflexivity.
Qed.

End ServerFacts.

(** ** Facts about the locator patterns *)

Module LocatorFacts.

Import Js Checkout.

(** *** The three patterns, read as functions on the input *)

(** [s] without the pattern characters [p] at its front, compared as the [i]
    flag compares them; [None] when [s] does not start with them. *)
Fixpoint strip (p s : string) : option string :=
  match p with
  | EmptyString => Some s
  | String c p' =>
      match s with
      | String d s' => if (Regex.canon c =? Regex.canon d)%nat then strip p' s' else None
      | EmptyString => None
      end
  end.

(** A character of [[A-Z0-9]] under the [i] flag. *)
Definition is_alnum (d : ascii) : bool :=
  existsb (Regex.in_range d) [("A"%char, "Z"%char); ("0"%char, "9"%char)].

(** [s] without [n] characters of the class at its front. *)
Fixpoint take_alnum (n : nat) (s : string) : option string :=
  match n with
  | O => Some s
  | S n' =>
      match s with
      | String d s' => if is_alnum d then take_alnum n' s' else None
      | EmptyString => None
      end
  end.

(** Ten characters, each a letter or a digit. *)
Fixpoint all_alnum (s : string) : bool :=
  match s with
  | EmptyString => true
  | String d s' => is_alnum d && all_alnum s'
  end.

Definition is_asin (g : string) : Prop :=
  String.length g = 10%nat /\ all_alnum g = true.

Lemma run_lits {R : Type} (p : string) :
  forall (s : string) (cap : option string) (k : string -> option string -> option R),
    Regex.run (Regex.lits p) s cap k
    = match strip p s with
      | Some rest => k rest cap
      | None => None
      end.
Proof.
  induction p as [| c p IH]; intros s cap k; cbn; [reflexivity |].
  destruct s as [| d s]; [reflexivity |].
  destruct (Regex.canon c =? Regex.canon d)%nat; [apply IH | reflexivity].
Qed.

Lemma run_times_alnum {R : Type} (n : nat) :
  forall (s : string) (cap : option string) (k : string -> option string -> option R),
    Regex.run (Regex.times n Regex.alnum) s cap k
    = match take_alnum n s with
      | Some rest => k rest cap
      | None => None
      end.
Proof.
  induction n as [| n IH]; intros s cap k; cbn [Regex.times Regex.run take_alnum];
    [reflexivity |].
  destruct s as [| d s]; [reflexivity |].
  unfold Regex.alnum at 1. cbn [Regex.run]. fold (is_alnum d).
  destruct (is_alnum d); [apply IH | reflexivity].
Qed.

Lemma string_app_nil (b : string) : "" ++ b = b.
Proof. reflexivity. Qed.

Lemma string_app_cons (c : ascii) (a b : string) :
  String c a ++ b = String c (a ++ b).
Proof. reflexivity. Qed.

Lemma string_length_app (a b : string) :
  String.length (a ++ b) = (String.length a + String.length b)%nat.
Proof.
  induction a as [| c a IH]; [reflexivity |].
  rewrite string_app_cons. cbn [String.length Nat.add]. now f_equal.
Qed.

Lemma string_app_assoc (a b c : string) : (a ++ b) ++ c = a ++ b ++ c.
Proof.
  induction a as [| d a IH]; [reflexivity |].
  rewrite !string_app_cons. now f_equal.
Qed.

(** What [take_alnum] removed is what the group captures. *)
Lemma take_alnum_consumed (n : nat) :
  forall s rest : string,
    take_alnum n s = Some rest ->
    exists g : string,
      s = g ++ rest /\ String.length g = n /\ all_alnum g = true
      /\ Regex.consumed s rest = g.
Proof.
  induction n as [| n IH]; intros s rest H; cbn [take_alnum] in H.
  - injection H as <-. exists "". repeat split.
    unfold Regex.consumed. rewrite Nat.sub_diag. destruct s; reflexivity.
  - destruct s as [| d s]; [discriminate H |].
    destruct (is_alnum d) eqn:Hd; [| discriminate H].
    destruct (IH s rest H) as (g & Hs & Hlen & Hall & Hcons).
    assert (Hle : (String.length rest <= String.length s)%nat).
    { rewrite Hs, string_length_app. lia. }
    exists (String d g). rewrite string_app_cons. cbn [String.length all_alnum].
    rewrite Hd, Hall, Hlen, <- Hs. repeat split.
    unfold Regex.consumed in *.
    cbn [String.length]. rewrite Nat.sub_succ_l by exact Hle.
    cbn [String.substring]. now rewrite Hcons.
Qed.

Lemma strip_prefix (p : string) :
  forall s rest : string,
    strip p s = Some rest ->
    exists pre : string, s = pre ++ rest /\ String.length pre = String.length p.
Proof.
  induction p as [| c p IH]; intros s rest H; cbn in H.
  - injection H as <-. exists "". split; reflexivity.
  - destruct s as [| d s]; [discriminate H |].
    destruct (Regex.canon c =? Regex.canon d)%nat; [| discriminate H].
    destruct (IH s rest H) as (pre & -> & Hlen).
    exists (String d pre). rewrite string_app_cons. cbn [String.length].
    now rewrite Hlen.
Qed.

Lemma strip_app (p q : string) :
  forall s : string, strip (p ++ q) s = strip p s ≫= strip q.
Proof.
  induction p as [| c p IH]; intros s; [reflexivity |].
  rewrite string_app_cons. cbn [strip].
  destruct s as [| d s]; [reflexivity |].
  destruct (Regex.canon c =? Regex.canon d)%nat; [apply IH | reflexivity].
Qed.

(** The identifier that follows a slash at the front of [s]. *)
Definition asin_after_slash (s : string) : option string :=
  s3 ← strip "/" s;
  rest ← take_alnum 10 s3;
  Some (Regex.consumed s3 rest).

(** [asinPattern] matched at the front of [s]: [/dp/ID] is tried first, then
    [/gp/product/ID]. *)
Definition asin_here (s : string) : option string :=
  s1 ← strip "/" s;
  match strip "dp" s1 ≫= asin_after_slash with
  | Some g => Some g
  | None => strip "gp/product" s1 ≫= asin_after_slash
  end.

Lemma strip_one (c d : ascii) (s : string) :
  strip (String c "") (String d s)
  = if (Regex.canon c =? Regex.canon d)%nat then Some s else None.
Proof. reflexivity. Qed.

Lemma run_asin_after_slash (s2 : string) :
  Regex.run (Regex.Seq (Regex.Lit "/") (Regex.Group (Regex.times 10 Regex.alnum)))
    s2 None (fun _ cap => Some cap)
  = Some <$> asin_after_slash s2.
Proof.
  unfold asin_after_slash. cbn [Regex.run].
  destruct s2 as [| d0 rest]; [reflexivity |].
  rewrite strip_one. destruct (Regex.canon "/" =? Regex.canon d0)%nat; [| reflexivity].
  cbn [mbind option_bind]. rewrite run_times_alnum.
  destruct (take_alnum 10 rest); reflexivity.
Qed.

Lemma match_here_asinPattern (s : string) :
  Regex.match_here asinPattern s = Some <$> asin_here s.
Proof.
  unfold Regex.match_here, asinPattern, asin_here.
  change (Regex.run
            (Regex.Seq (Regex.Lit "/")
               (Regex.Seq (Regex.Alt (Regex.lits "dp") (Regex.lits "gp/product"))
                  (Regex.Seq (Regex.Lit "/")
                     (Regex.Group (Regex.times 10 Regex.alnum)))))
            s None (fun _ cap => Some cap))
    with (match s with
          | String d rest =>
              if (Regex.canon "/" =? Regex.canon d)%nat
              then
                match Regex.run (Regex.lits "dp") rest None
                        (fun s1 cap1 =>
                           Regex.run
                             (Regex.Seq (Regex.Lit "/")
                                (Regex.Group (Regex.times 10 Regex.alnum)))
                             s1 cap1 (fun _ cap => Some cap)) with
                | Some x => Some x
                | None =>
                    Regex.run (Regex.lits "gp/product") rest None
                      (fun s1 cap1 =>
                         Regex.run
                           (Regex.Seq (Regex.Lit "/")
                              (Regex.Group (Regex.times 10 Regex.alnum)))
                           s1 cap1 (fun _ cap => Some cap))
                end
              else None
          | EmptyString => None
          end).
  destruct s as [| d s]; [reflexivity |].
  rewrite strip_one. destruct (Regex.canon "/" =? Regex.canon d)%nat; [| reflexivity].
  cbn [mbind option_bind]. rewrite !run_lits.
  destruct (strip "dp" s) as [s2 |]; cbn [mbind option_bind].
  - rewrite run_asin_after_slash.
    destruct (asin_after_slash s2); cbn [fmap option_fmap option_map]; [reflexivity |].
    destruct (strip "gp/product" s) as [s2' |]; cbn [mbind option_bind];
      [| reflexivity].
    now rewrite run_asin_after_slash.
  - destruct (strip "gp/product" s) as [s2' |]; cbn [mbind option_bind];
      [| reflexivity].
    now rewrite run_asin_after_slash.
Qed.

(** *** Searching for a match *)

Lemma exec_some_suffix (r : Regex.regex) (s : string) (c : option string) :
  Regex.exec r s = Some c ->
  exists pre s' : string, s = pre ++ s' /\ Regex.match_here r s' = Some c.
Proof.
  induction s as [| d s IH]; cbn [Regex.exec].
  - destruct (Regex.match_here r "") eqn:Hhere; [| discriminate].
    intros [= <-]. exists "", "". split; [reflexivity | exact Hhere].
  - destruct (Regex.match_here r (String d s)) eqn:Hhere.
    + intros [= <-]. exists "", (String d s). split; [reflexivity | exact Hhere].
    + intros H. destruct (IH H) as (pre & s' & -> & Hs').
      exists (String d pre), s'. split; [reflexivity | exact Hs'].
Qed.

Lemma exec_of_suffix (r : Regex.regex) (pre s' : string) :
  is_Some (Regex.match_here r s') -> is_Some (Regex.exec r (pre ++ s')).
Proof.
  intros Hs'. induction pre as [| d pre IH].
  - rewrite string_app_nil. destruct s'; cbn [Regex.exec];
      destruct Hs' as [c ->]; eauto.
  - rewrite string_app_cons. cbn [Regex.exec].
    destruct (Regex.match_here r (String d (pre ++ s'))); [eauto | exact IH].
Qed.

(** A search for [asinPattern] that succeeds captures its group. *)
Lemma match_group_asin_found (url : string) :
  is_Some (Regex.exec asinPattern url) -> is_Some (match_group asinPattern url).
Proof.
  intros [c Hexec]. unfold match_group. rewrite Hexec.
  destruct (exec_some_suffix _ _ _ Hexec) as (pre & s' & _ & Hhere).
  rewrite match_here_asinPattern in Hhere.
  destruct (asin_here s'); [| discriminate Hhere].
  injection Hhere as <-. eauto.
Qed.

Lemma match_group_asin_suffix (url g : string) :
  match_group asinPattern url = Some g ->
  exists pre s' : string, url = pre ++ s' /\ asin_here s' = Some g.
Proof.
  unfold match_group. destruct (Regex.exec asinPattern url) as [[g' |] |] eqn:Hexec;
    try discriminate.
  intros [= <-]. destruct (exec_some_suffix _ _ _ Hexec) as (pre & s' & -> & Hhere).
  rewrite match_here_asinPattern in Hhere.
  destruct (asin_here s') as [g'' |] eqn:Hasin; [| discriminate Hhere].
  injection Hhere as ->. exists pre, s'. split; [reflexivity | exact Hasin].
Qed.

Lemma asin_after_slash_shape (s g : string) :
  asin_after_slash s = Some g ->
  is_asin g /\ exists pre post : string, s = pre ++ g ++ post.
Proof.
  unfold asin_after_slash. intros H.
  destruct (strip "/" s) as [s3 |] eqn:Hstrip; [| discriminate H].
  cbn [mbind option_bind] in H.
  destruct (take_alnum 10 s3) as [rest |] eqn:Htake; [| discriminate H].
  injection H as <-.
  destruct (take_alnum_consumed _ _ _ Htake) as (g & Hs3 & Hlen & Hall & ->).
  destruct (strip_prefix _ _ _ Hstrip) as (pre & -> & _).
  split; [split; assumption |]. exists pre, rest. now rewrite Hs3.
Qed.

Lemma asin_here_shape (s g : string) :
  asin_here s = Some g ->
  is_asin g /\ exists pre post : string, s = pre ++ g ++ post.
Proof.
  unfold asin_here. intros H.
  destruct (strip "/" s) as [s1 |] eqn:Hslash; [| discriminate H].
  cbn [mbind option_bind] in H.
  destruct (strip_prefix _ _ _ Hslash) as (p0 & -> & _).
  assert (Hvia : forall p : string,
            strip p s1 ≫= asin_after_slash = Some g ->
            is_asin g /\ exists pre post : string, p0 ++ s1 = pre ++ g ++ post).
  { intros p Hp. destruct (strip p s1) as [s2 |] eqn:Hs2; [| discriminate Hp].
    cbn [mbind option_bind] in Hp.
    destruct (asin_after_slash_shape _ _ Hp) as (Hg & pre & post & ->).
    destruct (strip_prefix _ _ _ Hs2) as (p1 & -> & _).
    split; [exact Hg |]. exists (p0 ++ p1 ++ pre), post.
    now rewrite !string_app_assoc. }
  destruct (strip "dp" s1 ≫= asin_after_slash) as [g' |] eqn:Hdp.
  - injection H as ->. exact (Hvia "dp" Hdp).
  - exact (Hvia "gp/product" H).
Qed.

(** *** The other two patterns *)

Lemma match_here_urlPattern (s : string) :
  Regex.match_here urlPattern s
  = (s3 ← strip "amazon.com/dp/" s;
     rest ← take_alnum 10 s3;
     Some (Some (Regex.consumed s3 rest))).
Proof.
  unfold Regex.match_here, urlPattern. cbn [Regex.run]. rewrite run_lits.
  destruct (strip "amazon.com/dp/" s) as [s3 |]; cbn [mbind option_bind];
    [| reflexivity].
  rewrite run_times_alnum. destruct (take_alnum 10 s3); reflexivity.
Qed.

(** A slash, [dp], a slash and ten characters of the class at the front of
    [s]: [asinPattern] matches there. *)
Lemma asin_here_of_dp (s s3 rest : string) :
  strip "/dp/" s = Some s3 -> take_alnum 10 s3 = Some rest ->
  is_Some (asin_here s).
Proof.
  change "/dp/" with ("/" ++ "dp" ++ "/"). rewrite strip_app.
  intros Hstrip Htake. unfold asin_here.
  destruct (strip "/" s) as [s1 |]; [| discriminate Hstrip].
  cbn [mbind option_bind] in Hstrip |- *. rewrite strip_app in Hstrip.
  destruct (strip "dp" s1) as [s2 |]; [| discriminate Hstrip].
  cbn [mbind option_bind] in Hstrip |- *.
  unfold asin_after_slash at 1. rewrite Hstrip. cbn [mbind option_bind].
  rewrite Htake. cbn [mbind option_bind]. eauto.
Qed.

(** Wherever [urlPattern] matches, [asinPattern] matches ten characters
    further on: the second method of [extractProductLocator] cannot succeed
    where the first has failed. *)
Lemma urlPattern_implies_asinPattern (url : string) :
  is_Some (Regex.exec urlPattern url) -> is_Some (match_group asinPattern url).
Proof.
  intros [c Hexec]. apply match_group_asin_found.
  destruct (exec_some_suffix _ _ _ Hexec) as (pre & s' & -> & Hhere).
  rewrite match_here_urlPattern in Hhere.
  destruct (strip "amazon.com/dp/" s') as [s3 |] eqn:Hstrip; [| discriminate Hhere].
  cbn [mbind option_bind] in Hhere.
  destruct (take_alnum 10 s3) as [rest |] eqn:Htake; [| discriminate Hhere].
  change "amazon.com/dp/" with ("amazon.com" ++ "/dp/") in Hstrip.
  rewrite strip_app in Hstrip.
  destruct (strip "amazon.com" s') as [s1 |] eqn:Hhost; [| discriminate Hstrip].
  cbn [mbind option_bind] in Hstrip.
  destruct (strip_prefix _ _ _ Hhost) as (host & -> & _).
  rewrite <- string_app_assoc. apply exec_of_suffix.
  rewrite match_here_asinPattern.
  destruct (asin_here_of_dp _ _ _ Hstrip Htake) as [g ->]. cbn. eauto.
Qed.

Section AnyLoop.

Context {R : Type} (k : string -> option string -> option R).

(** The loop of [.*], for the continuation [k]. *)
Fixpoint any_loop (fuel : nat) (s0 : string) (cap0 : option string) : option R :=
  match fuel with
  | O => k s0 cap0
  | S fuel' =>
      match Regex.run Regex.AnyChar s0 cap0
              (fun s1 cap1 =>
                 if (String.length s1 <? String.length s0)%nat
                 then any_loop fuel' s1 cap1 else None) with
      | Some x => Some x
      | None => k s0 cap0
      end
  end.

End AnyLoop.

Lemma run_star_any {R : Type} (k : string -> option string -> option R)
    (s : string) (cap : option string) :
  Regex.run (Regex.Star Regex.AnyChar) s cap k = any_loop k (String.length s) s cap.
Proof. reflexivity. Qed.

(** When [.*] and what follows it match, what follows it matched at some
    suffix of the input. *)
Lemma any_loop_suffix {R : Type} (k : string -> option string -> option R)
    (x : R) (fuel : nat) :
  forall (s0 : string) (cap0 : option string),
    any_loop k fuel s0 cap0 = Some x ->
    exists pre s' : string, s0 = pre ++ s' /\ k s' cap0 = Some x.
Proof.
  induction fuel as [| fuel IH]; intros s0 cap0 H; cbn [any_loop] in H.
  - exists "", s0. split; [reflexivity | exact H].
  - cbn [Regex.run] in H. destruct s0 as [| d rest].
    + exists "", "". split; [reflexivity | exact H].
    + destruct (Regex.line_terminator d).
      * exists "", (String d rest). split; [reflexivity | exact H].
      * destruct (String.length rest <? String.length (String d rest))%nat.
        -- destruct (any_loop k fuel rest cap0) as [y |] eqn:Hloop.
           ++ injection H as ->. destruct (IH _ _ Hloop) as (pre & s' & -> & Hk).
              exists (String d pre), s'. split; [reflexivity | exact Hk].
           ++ exists "", (String d rest). split; [reflexivity | exact H].
        -- exists "", (String d rest). split; [reflexivity | exact H].
Qed.

Lemma amazonUrlPattern_implies_asinPattern (url : string) :
  is_Some (Regex.exec amazonUrlPattern url) -> is_Some (match_group asinPattern url).
Proof.
  intros [c Hexec]. apply match_group_asin_found.
  destruct (exec_some_suffix _ _ _ Hexec) as (pre & s' & -> & Hhere).
  unfold Regex.match_here, amazonUrlPattern in Hhere.
  cbn [Regex.run] in Hhere. rewrite run_lits in Hhere.
  destruct (strip "amazon.com/" s') as [s1 |] eqn:Hhost; [| discriminate Hhere].
  destruct (strip_prefix _ _ _ Hhost) as (host & -> & _).
  change (any_loop
            (fun s2 cap2 =>
               Regex.run (Regex.lits "/dp/") s2 cap2
                 (fun s3 cap3 =>
                    Regex.run (Regex.times 10 Regex.alnum) s3 cap3
                      (fun _ cap => Some cap)))
            (String.length s1) s1 None = Some c) in Hhere.
  destruct (any_loop_suffix _ _ _ _ _ Hhere) as (skipped & s2 & -> & Hrest).
  rewrite run_lits in Hrest.
  destruct (strip "/dp/" s2) as [s3 |] eqn:Hstrip; [| discriminate Hrest].
  rewrite run_times_alnum in Hrest.
  destruct (take_alnum 10 s3) as [rest |] eqn:Htake; [| discriminate Hrest].
  rewrite <- !string_app_assoc. apply exec_of_suffix.
  rewrite match_here_asinPattern.
  destruct (asin_here_of_dp _ _ _ Hstrip Htake) as [g ->]. cbn. eauto.
Qed.

(** *** What [extractProductLocator] returns *)

Lemma extract_by_first_method (url : string) :
  extractProductLocator url
  = (fun g => "amazon:" ++ g) <$> match_group asinPattern url.
Proof.
  unfold extractProductLocator.
  destruct (match_group asinPattern url) as [g |] eqn:Hasin; [reflexivity |].
  destruct (match_group urlPattern url) as [g |] eqn:Hurl; [| reflexivity].
  assert (Hsome : is_Some (Regex.exec urlPattern url)).
  { unfold match_group in Hurl. destruct (Regex.exec urlPattern url); [eauto |].
    discriminate Hurl. }
  apply urlPattern_implies_asinPattern in Hsome.
  rewrite Hasin in Hsome. destruct Hsome as [? [=]].
Qed.

(** The second method never decides: whenever [urlPattern] matches a URL,
    [asinPattern] matches it too, so the locator is always [amazon:] followed
    by the group that [asinPattern] captures, and there is none when that
    pattern does not match. *)
Theorem extraction_is_the_asin_match (url : string) :
  (is_Some (match_group urlPattern url) -> is_Some (match_group asinPattern url))
  /\ extractProductLocator url
     = (fun g => "amazon:" ++ g) <$> match_group asinPattern url.
Proof.
  split; [| apply extract_by_first_method].
  intros [g Hurl].
  assert (Hsome : is_Some (Regex.exec urlPattern url)).
  { unfold match_group in Hurl. destruct (Regex.exec urlPattern url); [eauto |].
    discriminate Hurl. }
  exact (urlPattern_implies_asinPattern _ Hsome).
Qed.

(** A locator, when one is returned, is [amazon:] followed by ten letters or
    digits that stand in the URL exactly as returned. *)
Theorem extracted_locator_shape (url loc : string) :
  extractProductLocator url = Some loc ->
  exists g pre post : string,
    loc = "amazon:" ++ g /\ is_asin g /\ url = pre ++ g ++ post.
Proof.
  rewrite extract_by_first_method.
  destruct (match_group asinPattern url) as [g |] eqn:Hasin; [| discriminate].
  intros [= <-].
  destruct (match_group_asin_suffix _ _ Hasin) as (pre & s' & -> & Hhere).
  destruct (asin_here_shape _ _ Hhere) as (Hg & pre' & post & ->).
  exists g, (pre ++ pre'), post. split; [reflexivity |]. split; [exact Hg |].
  now rewrite string_app_assoc.
Qed.

Lemma extracted_locator_shape_witness :
  exists g pre post : string,
    "amazon:B01DFKC2SO" = "amazon:" ++ g /\ is_asin g
    /\ "https://www.amazon.com/gp/product/B01DFKC2SO?th=1" = pre ++ g ++ post.
Proof.
  apply (extracted_locator_shape "https://www.amazon.com/gp/product/B01DFKC2SO?th=1"
           "amazon:B01DFKC2SO").
  vm_compute. reflexivity.
Defined.

(** Pre-validation is sound for extraction: from a URL that
    [validateAmazonUrl] accepts, [extractProductLocator] returns a locator. *)
Theorem validated_url_has_locator (url : string) :
  validateAmazonUrl url = true ->
  exists g : string, is_asin g /\ extractProductLocator url = Some ("amazon:" ++ g).
Proof.
  unfold validateAmazonUrl, Regex.test. intros Hvalid.
  assert (Hsome : is_Some (Regex.exec amazonUrlPattern url)).
  { destruct (Regex.exec amazonUrlPattern url); [eauto | discriminate Hvalid]. }
  apply amazonUrlPattern_implies_asinPattern in Hsome. destruct Hsome as [g Hg].
  exists g. rewrite extract_by_first_method, Hg. split; [| reflexivity].
  destruct (match_group_asin_suffix _ _ Hg) as (pre & s' & _ & Hhere).
  exact (proj1 (asin_here_shape _ _ Hhere)).
Qed.

Lemma validated_url_has_locator_witness :
  exists g : string,
    is_asin g
    /\ extractProductLocator
         "https://www.amazon.com/Anker-Cable/dp/B01DFKC2SO/ref=sr_1_3"
       = Some ("amazon:" ++ g).
Proof.
  apply (validated_url_has_locator
           "https://www.amazon.com/Anker-Cable/dp/B01DFKC2SO/ref=sr_1_3").
  vm_compute. reflexivity.
Defined.

(** *** URLs of the two supported path shapes *)

Definition is_slash (c : ascii) : bool := (Regex.canon "/" =? Regex.canon c)%nat.

Definition is_d_or_g (c : ascii) : bool :=
  (Regex.canon "d" =? Regex.canon c)%nat || (Regex.canon "g" =? Regex.canon c)%nat.

(** No slash of [s] is followed, inside [s], by a [d] or a [g] of either case:
    neither path shape can start inside [s].  The scheme and host of a URL are
    of this kind unless the host starts with one of the two letters. *)
Fixpoint no_path_start (s : string) : bool :=
  match s with
  | EmptyString => true
  | String c rest =>
      (if is_slash c
       then match rest with
            | String d _ => negb (is_d_or_g d)
            | EmptyString => true
            end
       else true)
      && no_path_start rest
  end.

Lemma exec_here (r : Regex.regex) (s : string) (c : option string) :
  Regex.match_here r s = Some c -> Regex.exec r s = Some c.
Proof. intros H. destruct s; cbn [Regex.exec]; now rewrite H. Qed.

Lemma asin_here_no_path (c d : ascii) (rest : string) :
  is_slash c = false \/ is_d_or_g d = false ->
  asin_here (String c (String d rest)) = None.
Proof.
  unfold asin_here, is_slash, is_d_or_g. rewrite strip_one. intros H.
  destruct (Regex.canon "/" =? Regex.canon c)%nat; [| reflexivity].
  destruct H as [[=] | H]. apply orb_false_elim in H as [Hd Hg].
  cbn [mbind option_bind].
  change (strip "dp" (String d rest))
    with (if (Regex.canon "d" =? Regex.canon d)%nat then strip "p" rest else None).
  change (strip "gp/product" (String d rest))
    with (if (Regex.canon "g" =? Regex.canon d)%nat
          then strip "p/product" rest else None).
  now rewrite Hd, Hg.
Qed.

(** The search passes over a prefix in which no path shape can start. *)
Lemma exec_skips_prefix (pre : string) (c : ascii) (t : string) :
  no_path_start pre = true -> is_d_or_g c = false ->
  Regex.exec asinPattern (pre ++ String c t) = Regex.exec asinPattern (String c t).
Proof.
  intros Hpre Hc. induction pre as [| a pre IH]; [reflexivity |].
  cbn [no_path_start] in Hpre. apply andb_prop in Hpre as [Ha Hpre].
  rewrite string_app_cons.
  change (Regex.exec asinPattern (String a (pre ++ String c t)))
    with (match Regex.match_here asinPattern (String a (pre ++ String c t)) with
          | Some cap => Some cap
          | None => Regex.exec asinPattern (pre ++ String c t)
          end).
  rewrite match_here_asinPattern.
  replace (asin_here (String a (pre ++ String c t))) with (@None string);
    [exact (IH Hpre) |].
  symmetry. destruct pre as [| d pre'].
  - rewrite string_app_nil. apply asin_here_no_path. now right.
  - rewrite string_app_cons. apply asin_here_no_path.
    destruct (is_slash a); [right | now left]. now apply negb_true_iff.
Qed.

Lemma take_alnum_app (g post : string) :
  all_alnum g = true -> take_alnum (String.length g) (g ++ post) = Some post.
Proof.
  induction g as [| c g IH]; [reflexivity |].
  cbn [all_alnum]. intros H. apply andb_prop in H as [Hc Hg].
  rewrite string_app_cons. cbn [String.length take_alnum]. rewrite Hc. exact (IH Hg).
Qed.

Lemma consumed_app (g post : string) : Regex.consumed (g ++ post) post = g.
Proof.
  unfold Regex.consumed. rewrite string_length_app, Nat.add_sub.
  induction g as [| c g IH].
  - rewrite string_app_nil. destruct post; reflexivity.
  - rewrite string_app_cons. cbn [String.length String.substring]. now rewrite IH.
Qed.

Lemma strip_exact (p : string) :
  forall sep t : string, strip p sep = Some "" -> strip p (sep ++ t) = Some t.
Proof.
  induction p as [| c p IH]; intros sep t H.
  - cbn [strip] in H. injection H as ->. reflexivity.
  - destruct sep as [| d sep]; [discriminate H |].
    rewrite string_app_cons. cbn [strip] in H |- *.
    destruct (Regex.canon c =? Regex.canon d)%nat; [exact (IH _ _ H) | discriminate H].
Qed.

(** A path shape and ten characters of the class at the front of [s]: the
    pattern matches there and captures the ten characters. *)
Lemma asin_here_of_path (s s3 rest : string) :
  strip "/dp/" s = Some s3 \/ strip "/gp/product/" s = Some s3 ->
  take_alnum 10 s3 = Some rest ->
  asin_here s = Some (Regex.consumed s3 rest).
Proof.
  intros Hpath Htake. unfold asin_here.
  assert (Hafter : forall s2 : string,
            strip "/" s2 = Some s3 ->
            asin_after_slash s2 = Some (Regex.consumed s3 rest)).
  { intros s2 Hs2. unfold asin_after_slash. rewrite Hs2. cbn [mbind option_bind].
    now rewrite Htake. }
  destruct Hpath as [Hdp | Hgp].
  - change "/dp/" with ("/" ++ "dp" ++ "/") in Hdp. rewrite strip_app in Hdp.
    destruct (strip "/" s) as [s1 |]; [| discriminate Hdp].
    cbn [mbind option_bind] in Hdp |- *. rewrite strip_app in Hdp.
    destruct (strip "dp" s1) as [s2 |]; [| discriminate Hdp].
    cbn [mbind option_bind] in Hdp |- *. now rewrite (Hafter _ Hdp).
  - change "/gp/product/" with ("/" ++ "gp/product" ++ "/") in Hgp.
    rewrite strip_app in Hgp.
    destruct (strip "/" s) as [s1 |]; [| discriminate Hgp].
    cbn [mbind option_bind] in Hgp |- *. rewrite strip_app in Hgp.
    destruct (strip "gp/product" s1) as [s2 |] eqn:Hs2; [| discriminate Hgp].
    cbn [mbind option_bind] in Hgp |- *.
    assert (Hnodp : strip "dp" s1 = None).
    { destruct s1 as [| d s1]; [discriminate Hs2 |].
      change (strip "gp/product" (String d s1))
        with (if (Regex.canon "g" =? Regex.canon d)%nat
              then strip "p/product" s1 else None) in Hs2.
      change (strip "dp" (String d s1))
        with (if (Regex.canon "d" =? Regex.canon d)%nat then strip "p" s1 else None).
      destruct (Regex.canon "g" =? Regex.canon d)%nat eqn:Hg; [| discriminate Hs2].
      apply Nat.eqb_eq in Hg. rewrite <- Hg. reflexivity. }
    rewrite Hnodp. cbn [mbind option_bind]. exact (Hafter _ Hgp).
Qed.

(** A URL made of a prefix in which no path shape can start, then [/dp/] or
    [/gp/product/] in any letter case, then ten letters or digits: the locator
    is [amazon:] followed by those ten characters as they are written. *)
Theorem detail_page_locator (pre sep g post : string) :
  no_path_start pre = true ->
  strip "/dp/" sep = Some "" \/ strip "/gp/product/" sep = Some "" ->
  is_asin g ->
  extractProductLocator (pre ++ sep ++ g ++ post) = Some ("amazon:" ++ g).
Proof.
  intros Hpre Hsep [Hlen Hall].
  rewrite extract_by_first_method. unfold match_group.
  assert (Hfirst : exists (c : ascii) (t : string),
            sep ++ g ++ post = String c t /\ is_d_or_g c = false).
  { destruct sep as [| c sep]; [destruct Hsep as [[=] | [=]] |].
    exists c, (sep ++ g ++ post). split; [reflexivity |].
    assert (Hc : (Regex.canon "/" =? Regex.canon c)%nat = true).
    { destruct Hsep as [H | H]; cbn [strip] in H;
        destruct (Regex.canon "/" =? Regex.canon c)%nat; congruence. }
    apply Nat.eqb_eq in Hc. unfold is_d_or_g. rewrite <- Hc. reflexivity. }
  destruct Hfirst as (c & t & Hs' & Hc).
  rewrite Hs', (exec_skips_prefix _ _ _ Hpre Hc), <- Hs'.
  assert (Hhere : asin_here (sep ++ g ++ post) = Some g).
  { rewrite (asin_here_of_path _ (g ++ post) post).
    - now rewrite consumed_app.
    - destruct Hsep as [H | H]; [left | right]; now apply strip_exact.
    - rewrite <- Hlen. now apply take_alnum_app. }
  rewrite (exec_here _ _ (Some g)); [reflexivity |].
  now rewrite match_here_asinPattern, Hhere.
Qed.

Lemma detail_page_locator_witness :
  extractProductLocator
    ("https://www.amazon.com" ++ "/GP/Product/" ++ "b01dfkc2so" ++ "?th=1")
  = Some ("amazon:" ++ "b01dfkc2so").
Proof.
  apply (detail_page_locator "https://www.amazon.com" "/GP/Product/" "b01dfkc2so"
           "?th=1").
  - reflexivity.
  - right. reflexivity.
  - split; reflexivity.
Defined.

End LocatorFacts.

(** ** Facts about order creation as a whole *)

Module OrderFacts.

Import Js Checkout.

(** *** More on the retry loop *)

Section Loop.

Variable post : Provider.
Variable orderRequest : CreateOrderRequest.

Lemma in_firstn {A : Type} (n : nat) (l : list A) (x : A) :
  List.In x (firstn n l) -> List.In x l.
Proof.
  intros H. rewrite <- (firstn_skipn n l). apply in_or_app. now left.
Qed.

(** Every request issued is the order request with one of the locators. *)
Lemma retryFrom_issued_in (locators : list string) (i : nat) (lastError : Thrown)
    (rq : CreateOrderRequest) :
  List.In rq (snd (retryFrom post orderRequest i locators lastError)) ->
  exists locator : string,
    List.In locator locators /\ rq = withLocator orderRequest locator.
Proof.
  destruct (CheckoutFacts.retryFrom_issued_prefix post orderRequest locators i lastError)
    as [n ->].
  intros H. apply in_map_iff in H as (locator & <- & Hin).
  exists locator. split; [exact (in_firstn _ _ _ Hin) | reflexivity].
Qed.

(** No more requests than locators. *)
Lemma retryFrom_issued_length (locators : list string) (i : nat) (lastError : Thrown) :
  (List.length (snd (retryFrom post orderRequest i locators lastError))
   <= List.length locators)%nat.
Proof.
  destruct (CheckoutFacts.retryFrom_issued_prefix post orderRequest locators i lastError)
    as [n ->].
  rewrite length_map, length_firstn. lia.
Qed.

(** What the loop throws is the error it started with, a schema violation, an
    axios error, or the [TypeError] of a message without [includes]. *)
Lemma retryFrom_throws (locators : list string) :
  forall (i : nat) (lastError t : Thrown),
    fst (retryFrom post orderRequest i locators lastError) = Throw t ->
    t = lastError \/ t = ThrownZod
    \/ (exists e : AxiosError,
          t = ThrownAxios e /\ printable (responseMessage e) = true)
    \/ (exists m : string, t = ThrownTypeError m).
Proof.
  assert (Hlogged : forall (e : AxiosError) (t' : Thrown),
            axiosCatch e = Some t' ->
            (t' = ThrownAxios e /\ printable (responseMessage e) = true)
            \/ exists m : string, t' = ThrownTypeError m).
  { intros e t' Hcatch. unfold axiosCatch in Hcatch. unfold printable.
    destruct (to_string (responseMessage e)); [| injection Hcatch as <-; eauto].
    destruct (negb (bool_decide (responseStatus e = Some 400)));
      [injection Hcatch as <-; auto |].
    destruct (opt_includes "Product not found" (responseMessage e)) as [| [|] |];
      try discriminate Hcatch; injection Hcatch as <-; eauto. }
  assert (Hcontinued : forall e : AxiosError,
            axiosCatch e = None -> printable (responseMessage e) = true).
  { intros e Hcatch. unfold axiosCatch in Hcatch. unfold printable.
    destruct (to_string (responseMessage e)); [reflexivity | discriminate Hcatch]. }
  induction locators as [| locator rest IH]; intros i lastError t H.
  - cbn in H. injection H as <-. now left.
  - cbn [retryFrom] in H.
    destruct (post i (withLocator orderRequest locator)) as [? ? data | e].
    + destruct (OrderResponseSchema data); [discriminate H |].
      specialize (IH (S i) ThrownZod t).
      destruct (retryFrom post orderRequest (S i) rest ThrownZod). cbn [fst] in *.
      destruct (IH H) as [-> | Hrest]; [right; now left | now right].
    + destruct (axiosCatch e) as [t' |] eqn:Hcatch.
      * cbn in H. injection H as <-.
        destruct (Hlogged _ _ Hcatch) as [[-> Hp] | Hm];
          [right; right; left; eauto | right; right; right; exact Hm].
      * specialize (IH (S i) (ThrownAxios e) t).
        destruct (retryFrom post orderRequest (S i) rest (ThrownAxios e)).
        cbn [fst] in *.
        destruct (IH H) as [-> | Hrest]; [right; right; left; eauto | now right].
Qed.

(** A response is returned in answer to the last request issued. *)
Lemma retryFrom_returns (locators : list string) :
  forall (i : nat) (lastError : Thrown) (parsed : OrderResponse)
         (issued : list CreateOrderRequest),
    retryFrom post orderRequest i locators lastError = (Return parsed, issued) ->
    exists (rq : CreateOrderRequest) (status : Z) (statusText : string) (data : JsValue),
      last issued = Some rq
      /\ post (i + List.length issued - 1)%nat rq = Resolved status statusText data
      /\ OrderResponseSchema data = Some parsed.
Proof.
  induction locators as [| locator rest IH]; intros i lastError parsed issued H.
  - discriminate H.
  - cbn [retryFrom] in H.
    destruct (post i (withLocator orderRequest locator)) as [st stt data | e] eqn:Hpost.
    + destruct (OrderResponseSchema data) as [parsed' |] eqn:Hparse.
      * injection H as <- <-. exists (withLocator orderRequest locator), st, stt, data.
        cbn. replace (i + 1 - 1)%nat with i by lia. auto.
      * specialize (IH (S i) ThrownZod parsed).
        destruct (retryFrom post orderRequest (S i) rest ThrownZod) as [r issued'].
        injection H as -> <-.
        destruct (IH issued' eq_refl) as (rq & st' & stt' & data' & Hlast & Hp & Hs).
        exists rq, st', stt', data'. split; [| split; [| exact Hs]].
        -- destruct issued'; [discriminate Hlast | exact Hlast].
        -- cbn [List.length].
           replace (i + S (List.length issued') - 1)%nat
             with (S i + List.length issued' - 1)%nat; [exact Hp |].
           destruct issued'; [discriminate Hlast | cbn [List.length]; lia].
    + destruct (axiosCatch e); [discriminate H |].
      specialize (IH (S i) (ThrownAxios e) parsed).
      destruct (retryFrom post orderRequest (S i) rest (ThrownAxios e)) as [r issued'].
      injection H as -> <-.
      destruct (IH issued' eq_refl) as (rq & st' & stt' & data' & Hlast & Hp & Hs).
      exists rq, st', stt', data'. split; [| split; [| exact Hs]].
      * destruct issued'; [discriminate Hlast | exact Hlast].
      * cbn [List.length].
        replace (i + S (List.length issued') - 1)%nat
          with (S i + List.length issued' - 1)%nat; [exact Hp |].
        destruct issued'; [discriminate Hlast | cbn [List.length]; lia].
Qed.

(** When no attempt ends the loop, every locator gets its request and the
    error recorded for the last one is thrown. *)
Lemma retryFrom_all_continue (locators : list string) :
  (forall (k : nat) (rq : CreateOrderRequest),
     CheckoutFacts.ending (post k rq) = None) ->
  forall (i : nat) (lastError : Thrown),
    retryFrom post orderRequest i locators lastError
    = (Throw
         match last locators with
         | Some final =>
             CheckoutFacts.recorded
               (post (i + List.length locators - 1)%nat
                  (withLocator orderRequest final))
         | None => lastError
         end,
       List.map (withLocator orderRequest) locators).
Proof.
  intros Hall. induction locators as [| locator rest IH]; intros i lastError.
  - reflexivity.
  - cbn [retryFrom]. pose proof (Hall i (withLocator orderRequest locator)) as Hend.
    assert (Hnext : forall lastError' : Thrown,
              lastError' = CheckoutFacts.recorded
                             (post i (withLocator orderRequest locator)) ->
              (let '(r, issued) := retryFrom post orderRequest (S i) rest lastError' in
               (r, withLocator orderRequest locator :: issued))
              = (Throw
                   match last (locator :: rest) with
                   | Some final =>
                       CheckoutFacts.recorded
                         (post (i + List.length (locator :: rest) - 1)%nat
                            (withLocator orderRequest final))
                   | None => lastError
                   end,
                 List.map (withLocator orderRequest) (locator :: rest))).
    { intros lastError' ->. rewrite IH. destruct rest as [| next rest'].
      - cbn. replace (i + 1 - 1)%nat with i by lia. reflexivity.
      - assert (Hfinal : is_Some (last (next :: rest')))
          by (apply last_is_Some; discriminate).
        destruct Hfinal as [final Hfinal].
        change (last (locator :: next :: rest')) with (last (next :: rest')).
        rewrite Hfinal. cbn [List.length List.map].
        replace (S i + S (List.length rest') - 1)%nat
          with (i + S (S (List.length rest')) - 1)%nat by lia.
        reflexivity. }
    destruct (post i (withLocator orderRequest locator)) as [? ? data | e];
      cbn in Hend.
    + destruct (OrderResponseSchema data); [discriminate Hend |].
      now apply Hnext.
    + destruct (axiosCatch e); [discriminate Hend |]. now apply Hnext.
Qed.

End Loop.

(** *** [createWalletAmazonOrder], from the checks to the [catch] *)

(** The three checks that come before the first request. *)
Definition rejectedEarly (m : string) : Prop :=
  m = "Could not extract product locator from Amazon URL"
  \/ m = "Only US shipping addresses are supported at this time"
  \/ m = "State is required for US shipping addresses".

(** What the method comes to once the loop has run. *)
Definition afterLoop (loop : Completion OrderResponse * list CreateOrderRequest)
    : Completion WalletOrder * list CreateOrderRequest :=
  (match fst loop with
   | Return validated =>
       match classifyOrder validated with
       | Return w => Return w
       | Throw t => Throw (orderCatch t)
       end
   | Throw t => Throw (orderCatch t)
   end,
   snd loop).

(** Either a check fails and nothing is requested, or the loop runs on the
    five locator formats of the identifier found in the URL. *)
Lemma order_reaches_loop
    (post : Provider) (product : AmazonProduct) (userEmail walletAddress : string)
    (shippingAddress : PhysicalAddress) :
  (exists m : string,
     rejectedEarly m
     /\ createWalletAmazonOrder post product userEmail walletAddress shippingAddress
        = (Throw (ThrownError
             ("Unexpected error during order creation: Error: " ++ m)), []))
  \/ (exists asin : string,
        match_group asinPattern (amazonUrl product) = Some asin
        /\ country shippingAddress = "US"
        /\ stateMissing shippingAddress = false
        /\ createWalletAmazonOrder post product userEmail walletAddress shippingAddress
           = afterLoop
               (createOrderWithRetry post
                  (buildOrderRequest ("amazon:" ++ asin) userEmail walletAddress
                     shippingAddress)
                  (getProductLocatorVariations asin (amazonUrl product)))).
Proof.
  unfold createWalletAmazonOrder, createWalletAmazonOrder_try, rejectedEarly.
  rewrite LocatorFacts.extract_by_first_method.
  destruct (match_group asinPattern (amazonUrl product)) as [asin |] eqn:Hasin;
    cbn [fmap option_fmap option_map]; [| left; eexists; split; [left |]; reflexivity].
  destruct (String.eqb (country shippingAddress) "US") eqn:Hcountry; cbn [negb];
    [| left; eexists; split; [right; left |]; reflexivity].
  destruct (stateMissing shippingAddress) eqn:Hstate;
    [left; eexists; split; [right; right |]; reflexivity |].
  right. exists asin. apply String.eqb_eq in Hcountry.
  split; [reflexivity |]. split; [exact Hcountry |]. split; [reflexivity |].
  unfold afterLoop.
  destruct (createOrderWithRetry _ _ _) as [[validated | t] issued]; cbn [fst snd];
    [| reflexivity].
  destruct (classifyOrder validated); reflexivity.
Qed.

(** Every create-order request that the method issues is for a US address with
    a state, pays in USDC on [base-sepolia] from the caller's wallet, goes to
    the caller's e-mail address, and names one of the five locator formats of
    the identifier found in the product URL. *)
Theorem order_requests_are_well_formed
    (post : Provider) (product : AmazonProduct) (userEmail walletAddress : string)
    (shippingAddress : PhysicalAddress) (rq : CreateOrderRequest) :
  List.In rq
    (snd (createWalletAmazonOrder post product userEmail walletAddress shippingAddress)) ->
  country shippingAddress = "US"
  /\ stateMissing shippingAddress = false
  /\ recipient rq = mkRecipient userEmail (Some shippingAddress)
  /\ payment rq = mkPayment "base-sepolia" "usdc" walletAddress (Some userEmail)
  /\ exists asin : string,
       match_group asinPattern (amazonUrl product) = Some asin
       /\ LocatorFacts.is_asin asin
       /\ List.In (productLocator (lineItems rq))
            (getProductLocatorVariations asin (amazonUrl product)).
Proof.
  intros Hin.
  destruct (order_reaches_loop post product userEmail walletAddress shippingAddress)
    as [(m & _ & Heq) | (asin & Hasin & Hcountry & Hstate & Heq)];
    rewrite Heq in Hin; [destruct Hin |].
  cbn [afterLoop snd] in Hin. unfold createOrderWithRetry in Hin.
  apply retryFrom_issued_in in Hin as (locator & Hloc & ->).
  split; [exact Hcountry |]. split; [exact Hstate |].
  split; [reflexivity |]. split; [reflexivity |].
  exists asin. split; [exact Hasin |]. split; [| exact Hloc].
  destruct (LocatorFacts.match_group_asin_suffix _ _ Hasin) as (pre & s' & _ & Hhere).
  exact (proj1 (LocatorFacts.asin_here_shape _ _ Hhere)).
Qed.

Lemma order_requests_are_well_formed_witness :
  recipient Samples.request = mkRecipient "ada@example.com" (Some Samples.usAddress)
  /\ payment Samples.request
     = mkPayment "base-sepolia" "usdc" Samples.wallet (Some "ada@example.com").
Proof.
  pose proof (order_requests_are_well_formed
                (Samples.always (Resolved 201 "Created" Samples.goodBody))
                Samples.product "ada@example.com" Samples.wallet Samples.usAddress
                Samples.request) as H.
  assert (Hin : List.In Samples.request
                  (snd (createWalletAmazonOrder
                          (Samples.always (Resolved 201 "Created" Samples.goodBody))
                          Samples.product "ada@example.com" Samples.wallet
                          Samples.usAddress)))
    by (vm_compute; left; reflexivity).
  destruct (H Hin) as (_ & _ & Hrecipient & Hpayment & _).
  split; [exact Hrecipient | exact Hpayment].
Defined.

(** The method never issues more than five requests. *)
Lemma at_most_five_requests
    (post : Provider) (product : AmazonProduct) (userEmail walletAddress : string)
    (shippingAddress : PhysicalAddress) :
  (List.length
     (snd (createWalletAmazonOrder post product userEmail walletAddress shippingAddress))
   <= 5)%nat.
Proof.
  destruct (order_reaches_loop post product userEmail walletAddress shippingAddress)
    as [(m & _ & ->) | (asin & _ & _ & _ & ->)]; [cbn; lia |].
  cbn [afterLoop snd]. unfold createOrderWithRetry.
  exact (retryFrom_issued_length _ _
           (getProductLocatorVariations asin (amazonUrl product)) _ _).
Qed.

Lemma classifyOrder_returns (validated : OrderResponse) (w : WalletOrder) :
  classifyOrder validated = Return w ->
  w = mkWalletOrder validated true (walletSerializedTransaction w)
  /\ walletSerializedTransaction w <> ""
  /\ preparedTransaction (order validated) = Some (walletSerializedTransaction w)
  /\ paymentStatus (orderPayment (order validated)) <> "crypto-payer-insufficient-funds"
  /\ quoteStatus (quote (order validated)) <> "requires-physical-address".
Proof.
  unfold classifyOrder.
  destruct (String.eqb (paymentStatus _) _) eqn:Hpay; [discriminate |].
  destruct (String.eqb (quoteStatus _) _) eqn:Hquote; [discriminate |].
  destruct (preparedTransaction (order validated)) as [tx |]; [| discriminate].
  destruct (String.eqb tx "") eqn:Htx; [discriminate |].
  intros [= <-]. cbn. apply String.eqb_neq in Hpay, Hquote, Htx. auto.
Qed.

(** An order that the method returns is the provider's answer to the last
    request issued (between one and five were): it passed the schema, its
    payment is not short of funds, its quote does not ask for an address, and
    the transaction handed to the caller is the non-empty serialized
    transaction of its payment preparation. *)
Theorem returned_order_is_the_last_answer
    (post : Provider) (product : AmazonProduct) (userEmail walletAddress : string)
    (shippingAddress : PhysicalAddress) (w : WalletOrder)
    (issued : list CreateOrderRequest) :
  createWalletAmazonOrder post product userEmail walletAddress shippingAddress
  = (Return w, issued) ->
  requiresTransaction w = true
  /\ walletSerializedTransaction w <> ""
  /\ preparedTransaction (order (validatedResponse w))
     = Some (walletSerializedTransaction w)
  /\ paymentStatus (orderPayment (order (validatedResponse w)))
     <> "crypto-payer-insufficient-funds"
  /\ quoteStatus (quote (order (validatedResponse w))) <> "requires-physical-address"
  /\ (1 <= List.length issued <= 5)%nat
  /\ exists (rq : CreateOrderRequest) (status : Z) (statusText : string)
            (data : JsValue),
       last issued = Some rq
       /\ post (List.length issued - 1)%nat rq = Resolved status statusText data
       /\ OrderResponseSchema data = Some (validatedResponse w).
Proof.
  intros Hrun.
  pose proof (at_most_five_requests post product userEmail walletAddress
                shippingAddress) as Hfive.
  rewrite Hrun in Hfive. cbn [snd] in Hfive.
  destruct (order_reaches_loop post product userEmail walletAddress shippingAddress)
    as [(m & _ & Heq) | (asin & _ & _ & _ & Heq)];
    rewrite Heq in Hrun; [discriminate Hrun |].
  unfold afterLoop in Hrun.
  destruct (createOrderWithRetry _ _ _) as [[validated | t] issued'] eqn:Hloop;
    cbn [fst snd] in Hrun; [| discriminate Hrun].
  destruct (classifyOrder validated) as [w' | t] eqn:Hclass; [| discriminate Hrun].
  injection Hrun as -> ->.
  destruct (classifyOrder_returns _ _ Hclass) as (Hw & Htx & Hprep & Hpay & Hquote).
  assert (Hvalidated : validatedResponse w = validated) by (rewrite Hw; reflexivity).
  assert (Hrequires : requiresTransaction w = true) by (rewrite Hw; reflexivity).
  rewrite Hvalidated.
  destruct (retryFrom_returns _ _ _ _ _ _ _ Hloop)
    as (rq & st & stt & data & Hlast & Hpost & Hparse).
  repeat (split; [assumption |]).
  split; [| exists rq, st, stt, data; auto].
  split; [| exact Hfive]. destruct issued; [discriminate Hlast | cbn; lia].
Qed.

Lemma returned_order_is_the_last_answer_witness :
  exists (w : WalletOrder) (issued : list CreateOrderRequest),
    createWalletAmazonOrder
      (Samples.scripted
         [Samples.badRequest "Product not found: amazon:B01DFKC2SO";
          Resolved 201 "Created" Samples.goodBody])
      Samples.product "ada@example.com" Samples.wallet Samples.usAddress
    = (Return w, issued)
    /\ walletSerializedTransaction w <> ""
    /\ (1 <= List.length issued <= 5)%nat.
Proof.
  destruct (createWalletAmazonOrder
              (Samples.scripted
                 [Samples.badRequest "Product not found: amazon:B01DFKC2SO";
                  Resolved 201 "Created" Samples.goodBody])
              Samples.product "ada@example.com" Samples.wallet Samples.usAddress)
    as [[w | t] issued] eqn:Hrun; [| vm_compute in Hrun; discriminate Hrun].
  exists w, issued. split; [reflexivity |].
  destruct (returned_order_is_the_last_answer _ _ _ _ _ _ _ Hrun)
    as (_ & Htx & _ & _ & _ & Hlen & _).
  split; [exact Htx | exact Hlen].
Defined.

(** Every failure of the method leaves as a plain [Error] with a message, and
    the message is never the one of the second identifier check ("Could not
    extract ASIN from Amazon URL"): that check cannot fail once a locator was
    extracted. *)
Theorem order_failures_are_errors
    (post : Provider) (product : AmazonProduct) (userEmail walletAddress : string)
    (shippingAddress : PhysicalAddress) (t : Thrown)
    (issued : list CreateOrderRequest) :
  createWalletAmazonOrder post product userEmail walletAddress shippingAddress
  = (Throw t, issued) ->
  exists m : string,
    t = ThrownError m
    /\ m <> "Unexpected error during order creation: Error: Could not extract ASIN from Amazon URL".
Proof.
  intros Hrun.
  destruct (order_reaches_loop post product userEmail walletAddress shippingAddress)
    as [(m & Hm & Heq) | (asin & _ & _ & _ & Heq)]; rewrite Heq in Hrun.
  - injection Hrun as <- _. eexists. split; [reflexivity |].
    destruct Hm as [-> | [-> | ->]]; discriminate.
  - unfold afterLoop in Hrun.
    assert (Herror : forall (prefix : string) (c : ascii) (rest : string) (v : JsValue),
              prefix = String c rest -> c <> "U"%char ->
              printable v = true ->
              exists m : string,
                errorWith prefix v = ThrownError m
                /\ m <> "Unexpected error during order creation: Error: Could not extract ASIN from Amazon URL").
    { intros prefix c rest v -> Hc Hv. unfold errorWith. unfold printable in Hv.
      destruct (to_string v) as [text |]; [| discriminate Hv].
      eexists. split; [reflexivity |]. unfold String.append. congruence. }
    assert (Hcatch : forall t0 : Thrown,
              (forall m0 : string, t0 = ThrownError m0 ->
                 m0 <> "Could not extract ASIN from Amazon URL") ->
              (forall e : AxiosError, t0 = ThrownAxios e ->
                 printable (responseMessage e) = true) ->
              exists m : string,
                orderCatch t0 = ThrownError m
                /\ m <> "Unexpected error during order creation: Error: Could not extract ASIN from Amazon URL").
    { intros t0 Hnot Hlogged. destruct t0 as [e | | m0 | m0 |]; cbn [orderCatch].
      - specialize (Hlogged e eq_refl).
        assert (Hmessage :
          forall fallback : string,
            printable (or_else (or_else (responseMessage e) (responseStatusText e))
                         (JsString fallback)) = true).
        { intros fallback. rewrite CheckoutFacts.printable_or_else_text.
          unfold or_else. destruct (truthy (responseMessage e)); [exact Hlogged |].
          unfold responseStatusText. destruct (response e); reflexivity. }
        destruct (responseStatus e) as [[| n | n] |];
          repeat match goal with
                 | |- context [match ?p with xH => _ | xO _ => _ | xI _ => _ end] =>
                     destruct p
                 | |- context [if ?b then _ else _] => destruct b
                 end;
          first [ eapply Herror; [reflexivity | discriminate | apply Hmessage]
                | eexists; (split; [reflexivity |]); discriminate ].
      - eexists. split; [reflexivity | discriminate].
      - eexists. split; [reflexivity |]. intros Heqm.
        apply (Hnot m0 eq_refl).
        unfold thrown_to_string, String.append in Heqm. fold String.append in Heqm.
        congruence.
      - eexists. split; [reflexivity |]. unfold thrown_to_string, String.append.
        discriminate.
      - eexists. split; [reflexivity | discriminate]. }
    destruct (createOrderWithRetry _ _ _) as [[validated | t0] issued'] eqn:Hloop;
      cbn [fst snd] in Hrun.
    + destruct (classifyOrder validated) as [w | t0] eqn:Hclass; [discriminate Hrun |].
      injection Hrun as <- _.
      assert (Hkind : exists m0 : string,
                t0 = ThrownError m0 /\ m0 <> "Could not extract ASIN from Amazon URL").
      { unfold classifyOrder in Hclass.
        repeat match type of Hclass with
               | context [if ?b then _ else _] => destruct b
               | context [match ?o with Some _ => _ | None => _ end] => destruct o
               end; try discriminate Hclass; injection Hclass as <-;
          eexists; (split; [reflexivity | discriminate]). }
      destruct Hkind as (m0 & -> & Hm0).
      apply Hcatch; [intros ? [= <-]; exact Hm0 | intros e [=]].
    + injection Hrun as <- _.
      unfold createOrderWithRetry in Hloop.
      apply (f_equal fst) in Hloop. cbn [fst] in Hloop.
      apply retryFrom_throws in Hloop.
      destruct Hloop as [-> | [-> | [(e & -> & Hp) | (m0 & ->)]]];
        apply Hcatch; try (intros ? [=]; fail).
      intros ? [= <-]. exact Hp.
Qed.

Lemma order_failures_are_errors_witness :
  exists m : string,
    fst (createWalletAmazonOrder (Samples.always (Rejected Samples.unauthorized))
           Samples.product "ada@example.com" Samples.wallet Samples.usAddress)
    = Throw (ThrownError m).
Proof.
  destruct (order_failures_are_errors (Samples.always (Rejected Samples.unauthorized))
              Samples.product "ada@example.com" Samples.wallet Samples.usAddress
              (ThrownError "Invalid Crossmint API key or insufficient permissions")
              [buildOrderRequest "amazon:B01DFKC2SO" "ada@example.com" Samples.wallet
                 Samples.usAddress]
              eq_refl) as (m & Hm & _).
  exists m. rewrite <- Hm. reflexivity.
Defined.

Lemma order_runs_loop
    (post : Provider) (product : AmazonProduct) (userEmail walletAddress : string)
    (shippingAddress : PhysicalAddress) (asin : string) :
  extractProductLocator (amazonUrl product) = Some ("amazon:" ++ asin) ->
  country shippingAddress = "US" ->
  stateMissing shippingAddress = false ->
  createWalletAmazonOrder post product userEmail walletAddress shippingAddress
  = afterLoop
      (createOrderWithRetry post
         (buildOrderRequest ("amazon:" ++ asin) userEmail walletAddress shippingAddress)
         (getProductLocatorVariations asin (amazonUrl product))).
Proof.
  intros Hlocator Hcountry Hstate.
  unfold createWalletAmazonOrder, createWalletAmazonOrder_try, afterLoop.
  pose proof (LocatorFacts.extract_by_first_method (amazonUrl product)) as Hfirst.
  rewrite Hlocator in Hfirst.
  destruct (match_group asinPattern (amazonUrl product)) as [asin' |];
    cbn [fmap option_fmap option_map] in Hfirst; [| discriminate Hfirst].
  injection Hfirst as Hsame. change (asin = asin') in Hsame.
  subst asin'. rewrite Hlocator, Hcountry, Hstate. cbn [String.eqb negb].
  change (String.eqb "US" "US") with true. cbn [negb].
  destruct (createOrderWithRetry _ _ _) as [[validated | t] issued]; cbn [fst snd];
    [destruct (classifyOrder validated) |]; reflexivity.
Qed.

(** While every answer is a body that fails the schema or an error of the
    product-not-found class (status 400 with a text message that contains
    "Product not found"), the method issues exactly five requests, one per
    locator format and in the order of the list, and then fails with the
    translation of what the fifth attempt recorded. *)
Theorem every_format_is_tried
    (post : Provider) (product : AmazonProduct) (userEmail walletAddress : string)
    (shippingAddress : PhysicalAddress) (asin : string) :
  extractProductLocator (amazonUrl product) = Some ("amazon:" ++ asin) ->
  country shippingAddress = "US" ->
  stateMissing shippingAddress = false ->
  (forall (k : nat) (rq : CreateOrderRequest),
     exists t : Thrown,
       attemptError (post k rq) = Some t
       /\ (recoverable t = true \/ t = ThrownZod)) ->
  let orderRequest :=
    buildOrderRequest ("amazon:" ++ asin) userEmail walletAddress shippingAddress in
  createWalletAmazonOrder post product userEmail walletAddress shippingAddress
  = (Throw (orderCatch
              (CheckoutFacts.recorded
                 (post 4%nat
                    (withLocator orderRequest ("https://www.amazon.com/dp/" ++ asin))))),
     [ withLocator orderRequest ("amazon:" ++ asin);
       withLocator orderRequest ("amazon:https://www.amazon.com/dp/" ++ asin);
       withLocator orderRequest ("amazon:" ++ amazonUrl product);
       withLocator orderRequest asin;
       withLocator orderRequest ("https://www.amazon.com/dp/" ++ asin) ]).
Proof.
  intros Hlocator Hcountry Hstate Hall orderRequest.
  assert (Hcontinue : forall (k : nat) (rq : CreateOrderRequest),
            CheckoutFacts.ending (post k rq) = None).
  { intros k rq. destruct (Hall k rq) as (t & Herr & Hclass).
    unfold attemptError in Herr. unfold CheckoutFacts.ending.
    destruct (post k rq) as [? ? data | e].
    - destruct (OrderResponseSchema data); [discriminate Herr | reflexivity].
    - injection Herr as <-. destruct Hclass as [Hclass | [=]].
      cbn in Hclass. now rewrite (CheckoutFacts.axiosCatch_product_not_found e Hclass). }
  rewrite (order_runs_loop _ _ _ _ _ _ Hlocator Hcountry Hstate).
  unfold createOrderWithRetry. fold orderRequest.
  rewrite (retryFrom_all_continue post orderRequest _ Hcontinue).
  reflexivity.
Qed.

Lemma every_format_is_tried_witness :
  snd (createWalletAmazonOrder
         (Samples.always (Samples.badRequest "Product not found: amazon:B01DFKC2SO"))
         Samples.product "ada@example.com" Samples.wallet Samples.usAddress)
  = List.map
      (withLocator
         (buildOrderRequest "amazon:B01DFKC2SO" "ada@example.com" Samples.wallet
            Samples.usAddress))
      (getProductLocatorVariations "B01DFKC2SO" (amazonUrl Samples.product)).
Proof.
  rewrite (every_format_is_tried
             (Samples.always (Samples.badRequest "Product not found: amazon:B01DFKC2SO"))
             Samples.product "ada@example.com" Samples.wallet Samples.usAddress
             "B01DFKC2SO");
    [reflexivity | reflexivity | reflexivity | reflexivity |].
  intros k rq. eexists. split; [reflexivity | left; reflexivity].
Defined.

(** A first answer that axios rejects with a status other than 400, and with
    a message that has a string (the loop logs it), ends the method after that
    single request; the message of the [Error] depends on the status alone for
    401, 403, 404 and the statuses from 500 on, and is the axios message when
    there was no response at all. *)
Theorem provider_refusal_stops_order
    (post : Provider) (product : AmazonProduct) (userEmail walletAddress : string)
    (shippingAddress : PhysicalAddress) (asin : string) (e : AxiosError) :
  extractProductLocator (amazonUrl product) = Some ("amazon:" ++ asin) ->
  country shippingAddress = "US" ->
  stateMissing shippingAddress = false ->
  let orderRequest :=
    buildOrderRequest ("amazon:" ++ asin) userEmail walletAddress shippingAddress in
  post 0%nat orderRequest = Rejected e ->
  responseStatus e <> Some 400 ->
  printable (responseMessage e) = true ->
  exists m : string,
    createWalletAmazonOrder post product userEmail walletAddress shippingAddress
    = (Throw (ThrownError m), [orderRequest])
    /\ (responseStatus e = Some 401 \/ responseStatus e = Some 403 ->
        m = "Invalid Crossmint API key or insufficient permissions")
    /\ (responseStatus e = Some 404 ->
        m = "Product not found or not supported for Amazon purchases")
    /\ (forall status : Z, responseStatus e = Some status -> 500 <= status ->
        m = "Crossmint service is temporarily unavailable")
    /\ (response e = None -> m = "Order creation failed: " ++ axiosMessage e).
Proof.
  intros Hlocator Hcountry Hstate orderRequest Hpost Hstatus Hlogged.
  rewrite (order_runs_loop _ _ _ _ _ _ Hlocator Hcountry Hstate).
  fold orderRequest. unfold createOrderWithRetry, getProductLocatorVariations.
  cbn [retryFrom].
  change (withLocator orderRequest ("amazon:" ++ asin)) with orderRequest.
  rewrite Hpost. unfold axiosCatch.
  assert (Hlog : exists text, to_string (responseMessage e) = Some text).
  { unfold printable in Hlogged. destruct (to_string (responseMessage e)); [eauto |].
    discriminate Hlogged. }
  destruct Hlog as [logged ->].
  rewrite (bool_decide_eq_false_2 _ Hstatus). cbn [negb afterLoop fst snd].
  assert (Hmessage :
    forall fallback : string,
      exists text : string,
        to_string (or_else (or_else (responseMessage e) (responseStatusText e))
                     (JsString fallback)) = Some text).
  { intros fallback.
    assert (Hp : printable (or_else (or_else (responseMessage e) (responseStatusText e))
                              (JsString fallback)) = true).
    { rewrite CheckoutFacts.printable_or_else_text.
      unfold or_else. destruct (truthy (responseMessage e)); [exact Hlogged |].
      unfold responseStatusText. destruct (response e); reflexivity. }
    unfold printable in Hp. destruct (to_string _); [eauto | discriminate Hp]. }
  assert (Hshape : exists m : string, orderCatch (ThrownAxios e) = ThrownError m).
  { cbn [orderCatch]. unfold errorWith.
    destruct (Hmessage "Check product locator and payment details") as [t1 ->].
    destruct (Hmessage (axiosMessage e)) as [t2 ->].
    destruct (responseStatus e) as [[| n | n] |];
      repeat match goal with
             | |- context [match ?p with xH => _ | xO _ => _ | xI _ => _ end] =>
                 destruct p
             | |- context [if ?b then _ else _] => destruct b
             end; eexists; reflexivity. }
  destruct Hshape as [m Hm]. exists m. unfold afterLoop. cbn [fst snd].
  rewrite Hm. split; [reflexivity |].
  repeat split.
  - unfold orderCatch in Hm. intros [H | H]; rewrite H in Hm; congruence.
  - unfold orderCatch in Hm. intros H; rewrite H in Hm; congruence.
  - intros status H Hbig. unfold orderCatch in Hm. rewrite H in Hm.
    assert (Hguard : negb (status =? 0)%Z && (500 <=? status)%Z = true).
    { apply andb_true_intro. split; [apply negb_true_iff, Z.eqb_neq | apply Z.leb_le]; lia. }
    rewrite Hguard in Hm.
    destruct status as [| n | n]; [lia | | lia].
    assert (Hn : (500 <= n)%positive) by lia.
    do 9 (destruct n as [n | n |]; try (exfalso; lia); try congruence).
  - intros H. unfold orderCatch, errorWith, responseStatus, responseMessage,
      responseStatusText in Hm.
    rewrite H in Hm. cbn in Hm. congruence.
Qed.

Lemma provider_refusal_stops_order_witness :
  exists m : string,
    createWalletAmazonOrder (Samples.always (Rejected Samples.unauthorized))
      Samples.product "ada@example.com" Samples.wallet Samples.usAddress
    = (Throw (ThrownError m),
       [buildOrderRequest "amazon:B01DFKC2SO" "ada@example.com" Samples.wallet
          Samples.usAddress])
    /\ m = "Invalid Crossmint API key or insufficient permissions".
Proof.
  destruct (provider_refusal_stops_order (Samples.always (Rejected Samples.unauthorized))
              Samples.product "ada@example.com" Samples.wallet Samples.usAddress
              "B01DFKC2SO"
              Samples.unauthorized eq_refl eq_refl eq_refl eq_refl ltac:(discriminate)
              eq_refl)
    as (m & Hrun & Hauth & _).
  exists m. split; [exact Hrun | apply Hauth; left; reflexivity].
Defined.

End OrderFacts.

(** * The two session handlers: what they write and what they send *)

Module SessionFacts.

Import Js Server.

(** *** Wallet created *)

(** An accepted wallet-created request registers the wallet before anything is
    sent: the auth record of the user is the one of the request whatever
    Telegram does with the notification (also when the answer is [500]), and
    the wallet info of a user who has a memory object is replaced as a whole,
    so that the top-up and balance fields written by earlier payments are
    gone. *)
Theorem wallet_created_registers_before_notifying
    (env : Env) (reqBody : JsValue) (w : World) (numericUserId : Z) :
  ServerFacts.acceptedUser reqBody = Some numericUserId ->
  let after := ServerFacts.afterWalletCreated env reqBody w in
  users after !! numericUserId
  = Some (mkWalletData (prop "crossmintUserId" reqBody) (prop "walletAddress" reqBody)
            (prop "authToken" reqBody) (prop "email" reqBody))
  /\ (walletInfo <$> memories after !! numericUserId)
     = ((fun _ =>
           Some (mkWalletInfo (prop "walletAddress" reqBody)
                   (prop "crossmintUserId" reqBody) (prop "email" reqBody)
                   (prop "authToken" reqBody) (now env 0%nat) true
                   None None None None))
        <$> memories w !! numericUserId).
Proof.
  intros Haccepted after. subst after.
  rewrite ServerFacts.afterWalletCreated_written, Haccepted.
  unfold ServerFacts.written. cbn [users memories]. split.
  - apply lookup_insert_eq.
  - rewrite lookup_alter_eq. destruct (memories w !! numericUserId); reflexivity.
Qed.

Lemma wallet_created_registers_before_notifying_witness :
  statusCode (fst (walletCreated (ServerSamples.stormy 3000)
                     ServerSamples.walletCreatedBody
                     (start (ServerSamples.walletUser 1000))))
  = 500
  /\ users (ServerFacts.afterWalletCreated (ServerSamples.stormy 3000)
              ServerSamples.walletCreatedBody (ServerSamples.walletUser 1000))
     !! 42
     = Some (mkWalletData (JsString "cm-user-42")
               (JsString "0x1234567890abcdef1234567890abcdef12345678")
               JsUndefined (JsString "ada@example.com")).
Proof.
  split; [vm_compute; reflexivity |].
  exact (proj1 (wallet_created_registers_before_notifying
                  (ServerSamples.stormy 3000) ServerSamples.walletCreatedBody
                  (ServerSamples.walletUser 1000) 42 eq_refl)).
Defined.

(** The wallet-created handler writes under the user of the request only:
    the auth record and the memory of every other user are as before, no
    memory object is created or removed, and what a memory object holds besides
    the wallet info stays. *)
Theorem wallet_created_touches_one_user
    (env : Env) (reqBody : JsValue) (w : World) (other : Z) :
  let after := ServerFacts.afterWalletCreated env reqBody w in
  (ServerFacts.acceptedUser reqBody <> Some other ->
   users after !! other = users w !! other
   /\ memories after !! other = memories w !! other)
  /\ (otherMemory <$> memories after !! other) = (otherMemory <$> memories w !! other).
Proof.
  cbv zeta. rewrite ServerFacts.afterWalletCreated_written.
  destruct (ServerFacts.acceptedUser reqBody) as [numericUserId |];
    [| split; [intros _; split |]; reflexivity].
  unfold ServerFacts.written. cbn [users memories]. split.
  - intros Hother.
    assert (Hne : numericUserId <> other) by congruence.
    split; [apply lookup_insert_ne | apply lookup_alter_ne]; exact Hne.
  - destruct (decide (numericUserId = other)) as [-> | Hne].
    + rewrite lookup_alter_eq. destruct (memories w !! other); reflexivity.
    + rewrite lookup_alter_ne by exact Hne. reflexivity.
Qed.

(** For an identifier that converts to an integer or to no number at all, a
    notification is delivered by the wallet-created handler exactly when it
    answers [200]: then a single message went to the chat of that integer;
    with any other answer the outbox is as before. *)
Theorem wallet_created_notifies_iff_200
    (env : Env) (reqBody : JsValue) (r : Run) :
  (forall positive : bool,
     Number (prop "userId" reqBody) <> Some (Beyond positive)) ->
  let result := walletCreated env reqBody r in
  (statusCode (fst result) = 200
   /\ exists (numericUserId : Z) (shown : string),
        Number (prop "userId" reqBody) = Some (Whole numericUserId)
        /\ maskAddress (prop "walletAddress" reqBody) = Some shown
        /\ outbox (snd result)
           = (outbox r ++ [(JsNumber numericUserId, WalletCreatedNotice shown)])%list)
  \/ ((statusCode (fst result) = 400 \/ statusCode (fst result) = 500)
      /\ outbox (snd result) = outbox r).
Proof.
  intros _. cbv zeta.
  destruct (ServerFacts.acceptedUser reqBody) as [numericUserId |] eqn:Haccepted.
  - destruct (ServerFacts.walletCreated_accepted env reqBody r _ Haccepted)
      as [Hnumber ->].
    destruct (ServerFacts.stored_outbox env reqBody numericUserId r) as [Hout _].
    destruct (maskAddress (prop "walletAddress" reqBody)) as [shown |];
      [| right; split; [right; reflexivity | exact Hout]].
    unfold sendMessage. destruct (delivers env _); cbn.
    + left. split; [reflexivity |]. exists numericUserId, shown. rewrite Hout. auto.
    + right. split; [right; reflexivity | exact Hout].
  - destruct (ServerFacts.walletCreated_refused env reqBody r Haccepted) as [-> Hcode].
    right. split; [exact Hcode | reflexivity].
Qed.

Lemma wallet_created_notifies_iff_200_witness :
  statusCode
    (fst (walletCreated (ServerSamples.calm 1000)
            (JsObject [("userId", JsString "0x2a");
                       ("walletAddress", JsString "0x1234567890abcdef");
                       ("crossmintUserId", JsString "cm-user-42")])
            (start ServerSamples.freshUser)))
  = 200
  /\ outbox
       (snd (walletCreated (ServerSamples.calm 1000)
               (JsObject [("userId", JsString "0x2a");
                          ("walletAddress", JsString "0x1234567890abcdef");
                          ("crossmintUserId", JsString "cm-user-42")])
               (start ServerSamples.freshUser)))
     = [(JsNumber 42, WalletCreatedNotice "0x123456...0x1234567890abcdef")].
Proof.
  destruct (wallet_created_notifies_iff_200 (ServerSamples.calm 1000)
              (JsObject [("userId", JsString "0x2a");
                         ("walletAddress", JsString "0x1234567890abcdef");
                         ("crossmintUserId", JsString "cm-user-42")])
              (start ServerSamples.freshUser)
              ltac:(intros positive; vm_compute; discriminate))
    as [(Hcode & _) | ([Hcode | Hcode] & _)].
  - split; [exact Hcode | vm_compute; reflexivity].
  - vm_compute in Hcode. discriminate Hcode.
  - vm_compute in Hcode. discriminate Hcode.
Defined.

(** *** Payment completed *)

(** A complete payment-completed request for a user without wallet info in
    memory (or without a user at all), whose amount and user identifier have a
    string (the handler logs them), is answered [200] with [success: true]
    and has no effect: nothing is recorded, no balance is looked up, nothing is
    sent. *)
Theorem payment_completed_unknown_user_is_silent
    (env : Env) (reqBody : JsValue) (r : Run) :
  nullish reqBody = false ->
  truthy (prop "sessionId" reqBody) = true ->
  truthy (prop "amount" reqBody) = true ->
  truthy (prop "transactionId" reqBody) = true ->
  printable (prop "amount" reqBody) = true ->
  printable (prop "userId" reqBody) = true ->
  truthy (prop "userId" reqBody) = false
  \/ hasWalletInfo (prop "userId" reqBody) (world r) = false ->
  paymentCompleted env reqBody r
  = (mkResponse 200
       (JsObject
          [("success", JsBool true);
           ("message", JsString "Payment processed successfully");
           ("sessionId", prop "sessionId" reqBody);
           ("amount", prop "amount" reqBody);
           ("transactionId", prop "transactionId" reqBody)]),
     r).
Proof.
  intros Hbody Hsession Hamount Htx Hpamount Hpuser Hunknown. unfold paymentCompleted.
  rewrite Hbody, Hsession, Hamount, Htx. cbn [negb orb].
  assert (Hlog : printable (or_else (prop "userId" reqBody) (JsString "unknown")) = true)
    by (rewrite CheckoutFacts.printable_or_else_text; exact Hpuser).
  rewrite Hpamount, Hlog. cbn [andb negb].
  destruct Hunknown as [-> | ->]; [| rewrite andb_false_r]; reflexivity.
Qed.

Lemma payment_completed_unknown_user_is_silent_witness :
  snd (paymentCompleted (ServerSamples.calm 2000) ServerSamples.paymentCompletedBody
         (start ServerSamples.freshUser))
  = start ServerSamples.freshUser.
Proof.
  rewrite (payment_completed_unknown_user_is_silent (ServerSamples.calm 2000)
             ServerSamples.paymentCompletedBody (start ServerSamples.freshUser)
             eq_refl eq_refl eq_refl eq_refl eq_refl eq_refl (or_intror eq_refl)).
  reflexivity.
Defined.

(** What both writes of the handler keep of a wallet info. *)
Definition sameWallet (i j : WalletInfo) : Prop :=
  address j = address i /\ crossmintUserId j = crossmintUserId i
  /\ email j = email i /\ authToken j = authToken i
  /\ createdAt j = createdAt i /\ isVerified j = isVerified i.

(** The stores [w'] differ from [w] at most in the top-up and balance fields of
    the wallet info of [userId]. *)
Definition onlyPaymentFields (userId : JsValue) (w w' : World) : Prop :=
  users w' = users w
  /\ forall k : Z,
       (userId <> JsNumber k -> memories w' !! k = memories w !! k)
       /\ option_Forall2
            (fun m m' =>
               otherMemory m' = otherMemory m
               /\ option_Forall2 sameWallet (walletInfo m) (walletInfo m'))
            (memories w !! k) (memories w' !! k).

Lemma sameWallet_refl (i : WalletInfo) : sameWallet i i.
Proof. repeat split. Qed.

Lemma sameWallet_trans (i j k : WalletInfo) :
  sameWallet i j -> sameWallet j k -> sameWallet i k.
Proof.
  unfold sameWallet. intros (?&?&?&?&?&?) (?&?&?&?&?&?).
  repeat split; congruence.
Qed.

Lemma onlyPaymentFields_refl (userId : JsValue) (w : World) :
  onlyPaymentFields userId w w.
Proof.
  split; [reflexivity |]. intros k. split; [reflexivity |].
  destruct (memories w !! k) as [m |]; constructor.
  split; [reflexivity |].
  destruct (walletInfo m); constructor. apply sameWallet_refl.
Qed.

Lemma onlyPaymentFields_trans (userId : JsValue) (w1 w2 w3 : World) :
  onlyPaymentFields userId w1 w2 -> onlyPaymentFields userId w2 w3 ->
  onlyPaymentFields userId w1 w3.
Proof.
  intros [Husers12 H12] [Husers23 H23]. split; [congruence |].
  intros k. destruct (H12 k) as [Hother12 Hsame12], (H23 k) as [Hother23 Hsame23].
  split; [intros Hne; rewrite Hother23, Hother12 by exact Hne; reflexivity |].
  destruct Hsame12 as [m1 m2 [Hrest12 Hinfo12] |]; inversion Hsame23 as [? m3 [Hrest23 Hinfo23] |];
    subst; constructor.
  split; [congruence |].
  destruct Hinfo12 as [i1 i2 Hw12 |]; inversion Hinfo23 as [? i3 Hw23 |]; subst;
    constructor.
  exact (sameWallet_trans _ _ _ Hw12 Hw23).
Qed.

Lemma updateWalletInfo_onlyPaymentFields
    (userId : JsValue) (f : WalletInfo -> WalletInfo) (w : World) :
  (forall i : WalletInfo, sameWallet i (f i)) ->
  onlyPaymentFields userId w (updateWalletInfo userId f w).
Proof.
  intros Hf. destruct userId as [| | | n | | |];
    try apply onlyPaymentFields_refl.
  split; [reflexivity |]. intros k. cbn [updateWalletInfo memories]. split.
  - intros Hne. apply lookup_alter_ne. congruence.
  - destruct (decide (n = k)) as [-> | Hne].
    + rewrite lookup_alter_eq. destruct (memories w !! k) as [m |]; constructor.
      split; [reflexivity |]. cbn [walletInfo].
      destruct (walletInfo m); constructor. apply Hf.
    + rewrite lookup_alter_ne by exact Hne.
      destruct (memories w !! k) as [m |]; constructor.
      split; [reflexivity |]. destruct (walletInfo m); constructor.
      apply sameWallet_refl.
Qed.

Lemma setTopUp_sameWallet (amount : JsValue) (t : Z) (i : WalletInfo) :
  sameWallet i (setTopUp amount t i).
Proof. repeat split. Qed.

Lemma setVerifiedBalance_sameWallet (balance : string) (t : Z) (i : WalletInfo) :
  sameWallet i (setVerifiedBalance balance t i).
Proof. repeat split. Qed.

Lemma sendText_world (env : Env) (chat : JsValue) (interpolated : list JsValue)
    (n : Notification) (r : Run) :
  world (snd (sendText env chat interpolated n r)) = world r.
Proof.
  unfold sendText, sendMessage.
  destruct (forallb printable interpolated); [destruct (delivers env _) |]; reflexivity.
Qed.

Lemma balanceCatch_frame (env : Env) (userId amount currency transactionId : JsValue)
    (r : Run) :
  onlyPaymentFields userId (world r)
    (world (snd (balanceCatch env userId amount currency transactionId r))).
Proof.
  unfold balanceCatch, dateNow, onWorld. cbn -[sendText].
  rewrite sendText_world. cbn.
  apply updateWalletInfo_onlyPaymentFields, setTopUp_sameWallet.
Qed.

Lemma verifyAndNotify_frame (env : Env) (userId amount currency transactionId : JsValue)
    (r : Run) :
  onlyPaymentFields userId (world r)
    (world (snd (verifyAndNotify env userId amount currency transactionId r))).
Proof.
  unfold verifyAndNotify.
  destruct (balanceOf env userId) as [balances | |].
  - unfold dateNow, onWorld. cbn -[balanceCatch sendText].
    match goal with
    | |- context [sendText env userId ?vs ?n ?r4] =>
        pose proof (sendText_world env userId vs n r4) as Hsent;
        destruct (sendText env userId vs n r4) as [ok r5]
    end.
    cbn [snd world] in Hsent.
    assert (Hwritten : onlyPaymentFields userId (world r) (world r5)).
    { rewrite Hsent. eapply onlyPaymentFields_trans;
        apply updateWalletInfo_onlyPaymentFields;
        [apply setTopUp_sameWallet | apply setVerifiedBalance_sameWallet]. }
    destruct ok; [exact Hwritten |].
    eapply onlyPaymentFields_trans; [exact Hwritten | apply balanceCatch_frame].
  - unfold dateNow, onWorld. cbn -[balanceCatch sendText].
    match goal with
    | |- context [sendText env userId ?vs ?n ?r2] =>
        pose proof (sendText_world env userId vs n r2) as Hsent;
        destruct (sendText env userId vs n r2) as [ok r3]
    end.
    cbn [snd world] in Hsent.
    assert (Hwritten : onlyPaymentFields userId (world r) (world r3)).
    { rewrite Hsent. apply updateWalletInfo_onlyPaymentFields, setTopUp_sameWallet. }
    destruct ok; [exact Hwritten |].
    eapply onlyPaymentFields_trans; [exact Hwritten | apply balanceCatch_frame].
  - apply balanceCatch_frame.
Qed.

(** Whatever the request and the outside world, the payment-completed handler
    leaves the auth records alone, creates and removes no memory object,
    touches the memory of no user but the one named by the request, and keeps
    there the address, identifiers, token, creation time and verification
    flag of the wallet info: only the top-up and balance fields can change. *)
Theorem payment_completed_writes_payment_fields_only
    (env : Env) (reqBody : JsValue) (r : Run) :
  onlyPaymentFields (prop "userId" reqBody) (world r)
    (world (snd (paymentCompleted env reqBody r))).
Proof.
  unfold paymentCompleted.
  destruct (nullish reqBody); [apply onlyPaymentFields_refl |].
  destruct (negb (truthy (prop "sessionId" reqBody))
            || negb (truthy (prop "amount" reqBody))
            || negb (truthy (prop "transactionId" reqBody)));
    [apply onlyPaymentFields_refl |].
  destruct (negb (printable (prop "amount" reqBody)
                  && printable (or_else (prop "userId" reqBody) (JsString "unknown"))));
    [apply onlyPaymentFields_refl |].
  destruct (truthy (prop "userId" reqBody)
            && hasWalletInfo (prop "userId" reqBody) (world r));
    [| apply onlyPaymentFields_refl].
  pose proof (verifyAndNotify_frame env (prop "userId" reqBody) (prop "amount" reqBody)
                (prop "currency" reqBody) (prop "transactionId" reqBody) r) as Hframe.
  destruct (verifyAndNotify env (prop "userId" reqBody) (prop "amount" reqBody)
              (prop "currency" reqBody) (prop "transactionId" reqBody) r) as [[|] r1];
    exact Hframe.
Qed.

(** The balance shown and stored is never empty: it is the amount of the
    first entry whose currency is exactly [USDC], and [0.00] when there is no
    such entry or its amount is the empty string. *)
Theorem usdc_balance_is_first_entry_or_default (balances : list (string * string)) :
  usdcBalanceOf balances <> ""
  /\ (usdcBalanceOf balances = "0.00"
      \/ exists before after : list (string * string),
           balances = (before ++ ("USDC", usdcBalanceOf balances) :: after)%list
           /\ Forall (fun b => fst b <> "USDC") before).
Proof.
  unfold usdcBalanceOf.
  induction balances as [| [cur amt] rest IH]; [split; [discriminate | now left] |].
  cbn [List.find fst].
  destruct (String.eqb cur "USDC") eqn:Hcur.
  - apply String.eqb_eq in Hcur. subst cur.
    destruct (String.eqb amt "") eqn:Hamt; [split; [discriminate | now left] |].
    apply String.eqb_neq in Hamt. split; [exact Hamt |].
    right. exists [], rest. split; [reflexivity | constructor].
  - apply String.eqb_neq in Hcur. destruct IH as [Hne [Hdef | (before & after & Heq & Hall)]].
    + split; [exact Hne | now left].
    + split; [exact Hne |]. right. exists ((cur, amt) :: before), after.
      split; [cbn; rewrite <- Heq; reflexivity | constructor; [exact Hcur | exact Hall]].
Qed.

(** The required fields are there, the user has wallet info in memory, the
    amount, currency and transaction identifier have a string, the balance
    service answers with data, and Telegram takes the first message: the
    handler answers [200], the single message delivered is the verified notice
    with the USDC balance, and the wallet info carries the top-up (with the
    first clock reading) and that balance (with the second). *)
Theorem payment_completed_verified
    (env : Env) (reqBody : JsValue) (r : Run) (numericUserId : Z)
    (m : UserMemory) (info : WalletInfo) (balances : list (string * string)) :
  nullish reqBody = false ->
  truthy (prop "sessionId" reqBody) = true ->
  truthy (prop "amount" reqBody) = true ->
  truthy (prop "transactionId" reqBody) = true ->
  printable (prop "amount" reqBody) = true ->
  printable (prop "currency" reqBody) = true ->
  printable (prop "transactionId" reqBody) = true ->
  prop "userId" reqBody = JsNumber numericUserId ->
  numericUserId <> 0 ->
  memories (world r) !! numericUserId = Some m ->
  walletInfo m = Some info ->
  balanceOf env (JsNumber numericUserId) = BalanceData balances ->
  delivers env (sendAttempts r) = true ->
  let result := paymentCompleted env reqBody r in
  statusCode (fst result) = 200
  /\ outbox (snd result)
     = (outbox r
        ++ [(JsNumber numericUserId,
             PaymentVerifiedNotice (prop "amount" reqBody) (prop "currency" reqBody)
               (usdcBalanceOf balances) (prop "transactionId" reqBody))])%list
  /\ memories (world (snd result)) !! numericUserId
     = Some (mkUserMemory
               (Some (mkWalletInfo (address info) (crossmintUserId info) (email info)
                        (authToken info) (createdAt info) (isVerified info)
                        (Some (prop "amount" reqBody)) (Some (now env (clockReads r)))
                        (Some (usdcBalanceOf balances))
                        (Some (now env (S (clockReads r))))))
               (otherMemory m)).
Proof.
  intros Hbody Hsession Hamount Htx Hpamount Hpcurrency Hptx Huser Hnonzero Hmem Hinfo
    Hbalance Hsend.
  cbv zeta. unfold paymentCompleted.
  rewrite Hbody, Hsession, Hamount, Htx, Huser. cbn [negb orb].
  assert (Htruthy : truthy (JsNumber numericUserId) = true).
  { cbn. destruct numericUserId; [contradiction | reflexivity | reflexivity]. }
  assert (Hhas : hasWalletInfo (JsNumber numericUserId) (world r) = true).
  { unfold hasWalletInfo, getUserMemory. rewrite Hmem, Hinfo. reflexivity. }
  assert (Hlog : printable (or_else (JsNumber numericUserId) (JsString "unknown")) = true)
    by (rewrite CheckoutFacts.printable_or_else_text; reflexivity).
  rewrite Hpamount, Hlog, Htruthy, Hhas. cbn [andb negb].
  unfold verifyAndNotify. rewrite Hbalance.
  unfold sendText. cbn [forallb]. rewrite Hpamount, Hpcurrency, Hptx. cbn [andb].
  unfold sendMessage, dateNow, onWorld. cbn -[balanceCatch]. rewrite Hsend.
  cbn. split; [reflexivity |]. split; [reflexivity |].
  rewrite !lookup_alter_eq, Hmem. cbn. rewrite Hinfo. reflexivity.
Qed.

Lemma payment_completed_verified_witness :
  outbox
    (snd (paymentCompleted
            (mkEnv (fun k => 2000 + Z.of_nat k) (fun _ => true)
               (fun _ => BalanceData [("ETH", "0.5"); ("USDC", "25.00")]))
            ServerSamples.paymentCompletedBody
            (start (ServerSamples.walletUser 1000))))
  = [(JsNumber 42,
      PaymentVerifiedNotice (JsNumber 25) (JsString "USD") "25.00"
        (JsString "pay-9001"))].
Proof.
  destruct (memories (ServerSamples.walletUser 1000) !! 42) as [m |] eqn:Hmem;
    [| vm_compute in Hmem; discriminate Hmem].
  destruct (walletInfo m) as [info |] eqn:Hinfo;
    [| vm_compute in Hmem; injection Hmem as <-; discriminate Hinfo].
  exact (proj1 (proj2
    (payment_completed_verified
       (mkEnv (fun k => 2000 + Z.of_nat k) (fun _ => true)
          (fun _ => BalanceData [("ETH", "0.5"); ("USDC", "25.00")]))
       ServerSamples.paymentCompletedBody (start (ServerSamples.walletUser 1000))
       42 m info [("ETH", "0.5"); ("USDC", "25.00")]
       eq_refl eq_refl eq_refl eq_refl eq_refl eq_refl eq_refl eq_refl
       ltac:(discriminate) Hmem Hinfo eq_refl eq_refl))).
Defined.

(** When the amount, currency and transaction identifier have a string and
    Telegram rejects the first notification but takes the second, the handler
    still answers [200]: the rejection is caught like a failed balance lookup,
    and the one message delivered is the fallback notice. *)
Theorem payment_completed_second_send
    (env : Env) (reqBody : JsValue) (r : Run) :
  nullish reqBody = false ->
  truthy (prop "sessionId" reqBody) = true ->
  truthy (prop "amount" reqBody) = true ->
  truthy (prop "transactionId" reqBody) = true ->
  truthy (prop "userId" reqBody) = true ->
  hasWalletInfo (prop "userId" reqBody) (world r) = true ->
  printable (prop "amount" reqBody) = true ->
  printable (prop "currency" reqBody) = true ->
  printable (prop "transactionId" reqBody) = true ->
  balanceOf env (prop "userId" reqBody) <> BalanceRejected ->
  delivers env (sendAttempts r) = false ->
  delivers env (S (sendAttempts r)) = true ->
  let result := paymentCompleted env reqBody r in
  statusCode (fst result) = 200
  /\ sendAttempts (snd result) = S (S (sendAttempts r))
  /\ outbox (snd result)
     = (outbox r
        ++ [(prop "userId" reqBody,
             PaymentFallbackNotice (prop "amount" reqBody) (prop "currency" reqBody)
               (prop "transactionId" reqBody))])%list.
Proof.
  intros Hbody Hsession Hamount Htx Huser Hhas Hpamount Hpcurrency Hptx Hbalance
    Hfirst Hsecond.
  cbv zeta. unfold paymentCompleted.
  rewrite Hbody, Hsession, Hamount, Htx, Huser, Hhas. cbn [negb orb andb].
  assert (Hlog : printable (or_else (prop "userId" reqBody) (JsString "unknown")) = true).
  { unfold or_else. rewrite Huser.
    destruct (ServerFacts.hasWalletInfo_number _ _ Hhas) as [n ->]. reflexivity. }
  rewrite Hpamount, Hlog. cbn [andb negb].
  unfold verifyAndNotify, balanceCatch, sendText. cbn [forallb].
  rewrite Hpamount, Hpcurrency, Hptx. cbn [andb].
  unfold sendMessage, dateNow, onWorld.
  destruct (balanceOf env (prop "userId" reqBody)); [| | contradiction];
    cbn; rewrite Hfirst; cbn; rewrite Hsecond; cbn; repeat split; reflexivity.
Qed.

Lemma payment_completed_second_send_witness :
  statusCode
    (fst (paymentCompleted
            (mkEnv (fun _ => 2000) (fun k => negb (k =? 0)%nat) (fun _ => BalanceNull))
            ServerSamples.paymentCompletedBody
            (start (ServerSamples.walletUser 1000))))
  = 200.
Proof.
  exact (proj1
    (payment_completed_second_send
       (mkEnv (fun _ => 2000) (fun k => negb (k =? 0)%nat) (fun _ => BalanceNull))
       ServerSamples.paymentCompletedBody (start (ServerSamples.walletUser 1000))
       eq_refl eq_refl eq_refl eq_refl eq_refl
       (eq_refl : hasWalletInfo (JsNumber 42) (ServerSamples.walletUser 1000) = true)
       eq_refl eq_refl eq_refl
       ltac:(discriminate) eq_refl eq_refl)).
Defined.

End SessionFacts.

(** * The approval and delegation webhooks, and the support probe *)

Module ApprovalFacts.

Import Js Checkout Server Approvals.


Lemma recordBalance_keeps (env : Env) (userId : JsValue) (usdcBalance : string)
    (s : Trace) :
  delivered (recordBalance env userId usdcBalance s) = delivered s
  /\ sendCount (recordBalance env userId usdcBalance s) = sendCount s.
Proof. unfold recordBalance. destruct (hasWalletInfo userId (stores s)); split; reflexivity. Qed.

Lemma sendBuilt_delivered (env : Env) (chat : JsValue) (interpolated : list JsValue)
    (n : Notice) (s : Trace) :
  stores (snd (sendBuilt env chat interpolated n s)) = stores s
  /\ clockReadings (snd (sendBuilt env chat interpolated n s)) = clockReadings s
  /\ delivered (snd (sendBuilt env chat interpolated n s))
     = if fst (sendBuilt env chat interpolated n s)
       then (delivered s ++ [(chat, n)])%list
       else delivered s.
Proof.
  unfold sendBuilt, send.
  destruct (forallb printable interpolated); [destruct (delivers env _) |];
    repeat split.
Qed.

(** The inner [try] with its [catch] ends well exactly when a message was
    taken, and then one message was. *)
Lemma notifyApproved_delivered
    (env : Env) (userId orderId transactionId : JsValue) (s : Trace) :
  let result := notifyApproved env userId orderId transactionId s in
  if fst result
  then exists notice : Notice,
         delivered (snd result) = (delivered s ++ [(userId, notice)])%list
  else delivered (snd result) = delivered s.
Proof.
  cbv zeta. unfold notifyApproved.
  assert (Hfallback : forall s2 : Trace,
            delivered s2 = delivered s ->
            if fst (sendBuilt env userId [orderId; transactionId]
                      (ApprovedFallbackNotice orderId transactionId) s2)
            then exists notice : Notice,
                   delivered (snd (sendBuilt env userId [orderId; transactionId]
                                     (ApprovedFallbackNotice orderId transactionId) s2))
                   = (delivered s ++ [(userId, notice)])%list
            else delivered (snd (sendBuilt env userId [orderId; transactionId]
                                   (ApprovedFallbackNotice orderId transactionId) s2))
                 = delivered s).
  { intros s2 Hs2.
    destruct (sendBuilt_delivered env userId [orderId; transactionId]
                (ApprovedFallbackNotice orderId transactionId) s2) as (_ & _ & Hd).
    destruct (fst (sendBuilt env userId [orderId; transactionId]
                     (ApprovedFallbackNotice orderId transactionId) s2));
      rewrite Hd, Hs2; eauto. }
  assert (Hfirst : forall (n : Notice) (s1 : Trace),
            delivered s1 = delivered s ->
            let result :=
              let '(ok, s2) := sendBuilt env userId [orderId; transactionId] n s1 in
              if ok then (true, s2)
              else sendBuilt env userId [orderId; transactionId]
                     (ApprovedFallbackNotice orderId transactionId) s2 in
            if fst result
            then exists notice : Notice,
                   delivered (snd result) = (delivered s ++ [(userId, notice)])%list
            else delivered (snd result) = delivered s).
  { intros n s1 Hs1. cbv zeta.
    destruct (sendBuilt_delivered env userId [orderId; transactionId] n s1)
      as (_ & _ & Hd).
    destruct (sendBuilt env userId [orderId; transactionId] n s1) as [ok s2].
    cbn [fst snd] in Hd. destruct ok.
    - cbn [fst snd]. rewrite Hd, Hs1. eauto.
    - apply Hfallback. rewrite Hd. exact Hs1. }
  destruct (balanceOf env userId) as [balances | |].
  - apply Hfirst. apply recordBalance_keeps.
  - apply Hfirst. reflexivity.
  - apply Hfallback. reflexivity.
Qed.

(** The transaction-approved handler answers [200] exactly when Telegram took
    a message: then one message went to the chat named by the request; with
    [400] or [500] nothing was delivered. *)
Theorem transaction_approved_notifies_iff_200
    (env : Env) (reqBody : JsValue) (s : Trace) :
  let result := transactionApproved env reqBody s in
  (statusCode (fst result) = 200
   /\ exists notice : Notice,
        delivered (snd result)
        = (delivered s ++ [(prop "userId" reqBody, notice)])%list)
  \/ ((statusCode (fst result) = 400 \/ statusCode (fst result) = 500)
      /\ delivered (snd result) = delivered s).
Proof.
  cbv zeta. unfold transactionApproved.
  destruct (nullish reqBody); [right; split; [right |]; reflexivity |].
  destruct (negb (truthy (prop "userId" reqBody))
            || negb (truthy (prop "transactionId" reqBody))
            || negb (truthy (prop "orderId" reqBody))
            || negb (truthy (prop "status" reqBody)));
    [right; split; [left |]; reflexivity |].
  destruct (negb (printable (prop "transactionId" reqBody)
                  && printable (prop "userId" reqBody)
                  && printable (prop "status" reqBody)));
    [right; split; [right |]; reflexivity |].
  destruct (is_text "approved" (prop "status" reqBody)).
  - pose proof (notifyApproved_delivered env (prop "userId" reqBody)
                  (prop "orderId" reqBody) (prop "transactionId" reqBody) s) as Hd.
    cbv zeta in Hd.
    destruct (notifyApproved env (prop "userId" reqBody) (prop "orderId" reqBody)
                (prop "transactionId" reqBody) s) as [[|] s1]; cbn in Hd |- *.
    + left. split; [reflexivity | exact Hd].
    + right. split; [right; reflexivity | exact Hd].
  - unfold send. destruct (delivers env (sendCount s)); cbn.
    + left. split; [reflexivity | eauto].
    + right. split; [right |]; reflexivity.
Qed.

(** An approved transaction whose identifiers have a string and whose first
    notification Telegram takes: the answer is [200] and the notice shows the
    USDC balance when the balance service answered with data, no balance when
    it answered with nothing, and is the fallback text when the lookup was
    rejected. *)
Theorem approved_notice_follows_balance
    (env : Env) (reqBody : JsValue) (s : Trace) :
  nullish reqBody = false ->
  truthy (prop "userId" reqBody) = true ->
  truthy (prop "transactionId" reqBody) = true ->
  truthy (prop "orderId" reqBody) = true ->
  printable (prop "userId" reqBody) = true ->
  printable (prop "transactionId" reqBody) = true ->
  printable (prop "orderId" reqBody) = true ->
  prop "status" reqBody = JsString "approved" ->
  delivers env (sendCount s) = true ->
  let result := transactionApproved env reqBody s in
  statusCode (fst result) = 200
  /\ delivered (snd result)
     = (delivered s
        ++ [(prop "userId" reqBody,
             match balanceOf env (prop "userId" reqBody) with
             | BalanceData balances =>
                 ApprovedNotice (Some (usdcBalanceOf balances))
                   (prop "orderId" reqBody) (prop "transactionId" reqBody)
             | BalanceNull =>
                 ApprovedNotice None (prop "orderId" reqBody)
                   (prop "transactionId" reqBody)
             | BalanceRejected =>
                 ApprovedFallbackNotice (prop "orderId" reqBody)
                   (prop "transactionId" reqBody)
             end)])%list.
Proof.
  intros Hbody Huser Htx Horder Hpuser Hptx Hporder Hstatus Hsend. cbv zeta.
  unfold transactionApproved.
  rewrite Hbody, Huser, Htx, Horder, Hpuser, Hptx, Hstatus.
  change (truthy (JsString "approved")) with true.
  change (printable (JsString "approved")) with true.
  change (is_text "approved" (JsString "approved")) with true.
  cbn [negb orb andb].
  assert (Hbuilt : forallb printable [prop "orderId" reqBody; prop "transactionId" reqBody]
                   = true)
    by (cbn [forallb]; rewrite Hporder, Hptx; reflexivity).
  unfold notifyApproved, sendBuilt. rewrite Hbuilt.
  destruct (balanceOf env (prop "userId" reqBody)) as [balances | |].
  - destruct (recordBalance_keeps env (prop "userId" reqBody) (usdcBalanceOf balances) s)
      as [Hd Hc].
    unfold send. rewrite Hc, Hsend. cbn. rewrite Hd. split; reflexivity.
  - unfold send. rewrite Hsend. split; reflexivity.
  - unfold send. rewrite Hsend. split; reflexivity.
Qed.

Lemma approved_notice_follows_balance_witness :
  delivered
    (snd (transactionApproved
            (mkEnv (fun _ => 5000) (fun _ => true)
               (fun _ => BalanceData [("USDC", "12.5")]))
            (JsObject [("userId", JsNumber 42); ("transactionId", JsString "tx-7");
                       ("orderId", JsString "order-7");
                       ("status", JsString "approved")])
            (begin (ServerSamples.walletUser 1000))))
  = [(JsNumber 42,
      ApprovedNotice (Some "12.5") (JsString "order-7") (JsString "tx-7"))].
Proof.
  exact (proj2
    (approved_notice_follows_balance
       (mkEnv (fun _ => 5000) (fun _ => true) (fun _ => BalanceData [("USDC", "12.5")]))
       (JsObject [("userId", JsNumber 42); ("transactionId", JsString "tx-7");
                  ("orderId", JsString "order-7"); ("status", JsString "approved")])
       (begin (ServerSamples.walletUser 1000))
       eq_refl eq_refl eq_refl eq_refl eq_refl eq_refl eq_refl eq_refl eq_refl)).
Defined.

(** Any status with a string other than the exact string [approved] is a
    failed approval (the identifiers having a string as well): the user gets
    the failure notice, no balance is looked up, the stores and the clock are
    left alone, and still the answer is [200] with [success: true], echoing the
    status. *)
Theorem failed_approval_is_answered_as_success
    (env : Env) (reqBody : JsValue) (s : Trace) :
  nullish reqBody = false ->
  truthy (prop "userId" reqBody) = true ->
  truthy (prop "transactionId" reqBody) = true ->
  truthy (prop "orderId" reqBody) = true ->
  truthy (prop "status" reqBody) = true ->
  printable (prop "userId" reqBody) = true ->
  printable (prop "transactionId" reqBody) = true ->
  printable (prop "status" reqBody) = true ->
  prop "status" reqBody <> JsString "approved" ->
  delivers env (sendCount s) = true ->
  transactionApproved env reqBody s
  = (mkResponse 200
       (JsObject
          [("success", JsBool true);
           ("message", JsString "Transaction approval processed successfully");
           ("userId", prop "userId" reqBody);
           ("transactionId", prop "transactionId" reqBody);
           ("orderId", prop "orderId" reqBody);
           ("status", prop "status" reqBody)]),
     mkTrace (stores s)
       (delivered s ++ [(prop "userId" reqBody, ApprovalFailedNotice)])
       (clockReadings s) (S (sendCount s))).
Proof.
  intros Hbody Huser Htx Horder Hstatus Hpuser Hptx Hpstatus Hother Hsend.
  unfold transactionApproved.
  rewrite Hbody, Huser, Htx, Horder, Hstatus, Hpuser, Hptx, Hpstatus.
  cbn [negb orb andb].
  assert (Hnot : is_text "approved" (prop "status" reqBody) = false).
  { unfold is_text. destruct (prop "status" reqBody) as [| | | | text | |];
      try reflexivity.
    apply String.eqb_neq. congruence. }
  rewrite Hnot. unfold send. rewrite Hsend. reflexivity.
Qed.

Lemma failed_approval_is_answered_as_success_witness :
  statusCode
    (fst (transactionApproved (ServerSamples.calm 5000)
            (JsObject [("userId", JsNumber 42); ("transactionId", JsString "tx-7");
                       ("orderId", JsString "order-7");
                       ("status", JsString "Approved")])
            (begin (ServerSamples.walletUser 1000))))
  = 200.
Proof.
  rewrite (failed_approval_is_answered_as_success (ServerSamples.calm 5000)
             (JsObject [("userId", JsNumber 42); ("transactionId", JsString "tx-7");
                        ("orderId", JsString "order-7");
                        ("status", JsString "Approved")])
             (begin (ServerSamples.walletUser 1000))
             eq_refl eq_refl eq_refl eq_refl eq_refl eq_refl eq_refl eq_refl
             ltac:(discriminate) eq_refl).
  reflexivity.
Defined.


(** *** Delegation completed *)

(** For an identifier that converts to an integer or to no number at all, the
    delegation-completed handler answers [200] exactly when Telegram took its
    message, which goes to the chat of that integer; the answer carries the
    integer, also when the request gave the identifier as text.  The notice
    is the one of success for the exact status [success] and the one of
    failure for any other status.  The handler never writes to the stores. *)
Theorem delegation_completed_notifies_iff_200
    (env : Env) (reqBody : JsValue) (s : Trace) :
  (forall positive : bool,
     Number (prop "userId" reqBody) <> Some (Beyond positive)) ->
  let result := delegationCompleted env reqBody s in
  stores (snd result) = stores s
  /\ ((statusCode (fst result) = 200
       /\ exists numericUserId : Z,
            Number (prop "userId" reqBody) = Some (Whole numericUserId)
            /\ prop "userId" (body (fst result)) = JsNumber numericUserId
            /\ prop "status" (body (fst result)) = prop "status" reqBody
            /\ delivered (snd result)
               = (delivered s
                  ++ [(JsNumber numericUserId,
                       if is_text "success" (prop "status" reqBody)
                       then DelegationEnabledNotice else DelegationFailedNotice)])%list)
      \/ ((statusCode (fst result) = 400 \/ statusCode (fst result) = 500)
          /\ delivered (snd result) = delivered s)).
Proof.
  intros _. cbv zeta. unfold delegationCompleted.
  destruct (nullish reqBody); [split; [| right; split; [right |]]; reflexivity |].
  destruct (negb (truthy (prop "userId" reqBody))
            || negb (truthy (prop "botSigner" reqBody))
            || negb (truthy (prop "status" reqBody)));
    [split; [| right; split; [left |]]; reflexivity |].
  destruct (Number (prop "userId" reqBody)) as [[| numericUserId | positive] |].
  - destruct (printable (prop "userId" reqBody));
      (split; [| right; split; [first [left; reflexivity | right; reflexivity] |]];
       reflexivity).
  - destruct (negb (printable (prop "userId" reqBody)
                    && printable (prop "status" reqBody)));
      [split; [| right; split; [right |]]; reflexivity |].
    unfold send. destruct (delivers env (sendCount s)); cbn.
    + split; [reflexivity |]. left. split; [reflexivity |].
      exists numericUserId. repeat split; reflexivity.
    + split; [reflexivity |]. right. split; [right |]; reflexivity.
  - destruct (printable (prop "userId" reqBody));
      (split; [| right; split; [first [left; reflexivity | right; reflexivity] |]];
       reflexivity).
  - split; [| right; split; [right |]]; reflexivity.
Qed.

Lemma delegation_completed_notifies_iff_200_witness :
  delivered
    (snd (delegationCompleted (ServerSamples.calm 5000)
            (JsObject [("userId", JsString "4.2e1");
                       ("botSigner", JsString "evm-keypair:0xb07");
                       ("status", JsString "success")])
            (begin ServerSamples.emptyWorld)))
  = [(JsNumber 42, DelegationEnabledNotice)].
Proof.
  destruct (delegation_completed_notifies_iff_200 (ServerSamples.calm 5000)
              (JsObject [("userId", JsString "4.2e1");
                         ("botSigner", JsString "evm-keypair:0xb07");
                         ("status", JsString "success")])
              (begin ServerSamples.emptyWorld)
              ltac:(intros positive; vm_compute; discriminate))
    as [_ [(_ & n & Hn & _ & _ & Hd) | ([Hcode | Hcode] & _)]].
  - vm_compute in Hn. injection Hn as <-. exact Hd.
  - vm_compute in Hcode. discriminate Hcode.
  - vm_compute in Hcode. discriminate Hcode.
Defined.

(** *** The support probe *)

(** The probe says [true] only for a resolved response whose body is an object
    with [supported] bound to the boolean [true]: a rejection, a [null] body, a
    body of another type, a missing binding, or a value that is merely truthy
    all give [false]. *)
Theorem support_needs_boolean_true
    (get : string -> HttpOutcome) (productLocator : string) :
  checkAmazonProductSupport get productLocator = true
  <-> exists (status : Z) (statusText : string) (fields : list (string * JsValue)),
        get productLocator = Resolved status statusText (JsObject fields)
        /\ assoc "supported" fields = JsBool true.
Proof.
  unfold checkAmazonProductSupport. split.
  - destruct (get productLocator) as [status statusText data | e]; [| discriminate].
    destruct data as [| | b | n | text | items | fields]; cbn; try discriminate.
    destruct (assoc "supported" fields) as [| | [|] | | | |] eqn:Hsupported;
      try discriminate.
    intros _. exists status, statusText, fields. split; [reflexivity | exact Hsupported].
  - intros (status & statusText & fields & -> & Hsupported). cbn.
    rewrite Hsupported. reflexivity.
Qed.

End ApprovalFacts.

(** * The logout endpoint *)

Module LogoutFacts.

Import Js Server Logout.

(** The logout endpoint takes a user identifier that is a number other than
    zero and nothing else: an identifier given as text, which the
    wallet-created webhook converts and accepts, is refused here with [400]
    before either store is asked to clear anything.  An answer [200] always
    says [success: true]; whether anything was cleared is in [sessionCleared],
    and when the wallet service cleared nothing the memory of the user is not
    cleared either. *)
Theorem logout_needs_a_number
    (clearUser : Z -> World -> option bool * World)
    (clearUserMemory : Z -> World -> option unit * World)
    (reqBody : JsValue) (w : World) :
  let result := logout clearUser clearUserMemory reqBody w in
  (nullish reqBody = false
   /\ (forall userId : Z, prop "userId" reqBody = JsNumber userId -> userId = 0) ->
   result = (errorResponse 400 [("error", JsString "Missing or invalid userId")], w))
  /\ (statusCode (fst result) = 200 ->
      prop "success" (body (fst result)) = JsBool true
      /\ exists (userId : Z) (cleared : bool) (w1 : World),
           prop "userId" reqBody = JsNumber userId
           /\ userId <> 0
           /\ clearUser userId w = (Some cleared, w1)
           /\ prop "sessionCleared" (body (fst result)) = JsBool cleared
           /\ (cleared = false -> snd result = w1)).
Proof.
  cbv zeta. unfold logout. split.
  - intros [-> Hnot].
    destruct (prop "userId" reqBody) as [| | | userId | | |]; try reflexivity.
    rewrite (Hnot userId eq_refl). reflexivity.
  - destruct (nullish reqBody); [discriminate |].
    destruct (prop "userId" reqBody) as [| | | userId | | |]; try discriminate.
    destruct (userId =? 0)%Z eqn:Hzero; [discriminate |].
    apply Z.eqb_neq in Hzero.
    match goal with
    | |- context [if negb ?logged then _ else _] => destruct logged
    end; cbn [negb]; [| discriminate].
    destruct (clearUser userId w) as [[cleared |] w1] eqn:Hclear; [| discriminate].
    destruct cleared.
    + destruct (clearUserMemory userId w1) as [[[] |] w2]; [| discriminate].
      intros _. split; [reflexivity |].
      exists userId, true, w1. repeat split; try assumption. discriminate.
    + intros _. split; [reflexivity |].
      exists userId, false, w1. repeat split; assumption.
Qed.

End LogoutFacts.
